(** * vrepsim: scene-object and collection wrappers over the V-REP remote API

    A shallow embedding of [vrepsim/objects.py] and [vrepsim/collections.py].
    Every wrapper method is a program of type [prog A]: a finite tree whose
    leaves are a normal return or a raised exception and whose inner nodes
    are the blocking calls the method issues, each followed by a continuation
    that receives the answer.  The remote server is therefore universally
    quantified: a statement about a method holds for every answer the
    continuation may be given. *)

From Stdlib Require Import String Ascii ZArith List Bool Lia.
From Stdlib Require Import PrimFloat SpecFloat FloatOps.
Import ListNotations.
Local Open Scope Z_scope.

(* Decimal literals such as 1.2345 denote the nearest binary64 value. *)
Set Warnings "-inexact-float".

(** ** Python values and built-ins used by the wrappers *)

Module Py.

(** Modelled from the spec: [vrepsim/exceptions.py] is not among the sources;
    its classes [ConnectionError], [ServerError] and [SimulationError] are
    the kinds of the error taxonomy (no active connection, non-success
    status code, mutation disallowed while the simulation runs).  The other
    constructors are Python built-ins; of these, [ValueError], [TypeError],
    [IndexError] and [OverflowError] do not derive from [RuntimeError]. *)
Inductive exn : Type :=
| RuntimeError (msg : string)
| ValueError (msg : string)
| TypeError (msg : string)
| IndexError (msg : string)
| OverflowError (msg : string)
| ConnectionError (msg : string)
| ServerError (msg : string)
| SimulationError (msg : string).

Definition is_RuntimeError (e : exn) : bool :=
  match e with RuntimeError _ => true | _ => false end.

Definition is_ServerError (e : exn) : bool :=
  match e with ServerError _ => true | _ => false end.

(** A name argument: [None] or a string.  [if name:] holds for a string
    that is not empty. *)
Definition truthy (name : option string) : bool :=
  match name with
  | Some (String _ _) => true
  | _ => false
  end.

Definition digit (c : ascii) : nat := nat_of_ascii c - 48.

(** [template.format(args...)] for the replacement fields the wrappers use:
    [{}] (numbered automatically) and [{0}] .. [{9}]. *)
Fixpoint format_from (auto : nat) (template : string) (args : list string)
  : string :=
  match template with
  | EmptyString => EmptyString
  | String "{" (String "}" rest) =>
      String.append (nth auto args EmptyString)
                    (format_from (S auto) rest args)
  | String "{" (String d (String "}" rest)) =>
      String.append (nth (digit d) args EmptyString)
                    (format_from auto rest args)
  | String c rest => String c (format_from auto rest args)
  end.

Definition format (template : string) (args : list string) : string :=
  format_from 0 template args.

Definition len {A} (l : list A) : Z := Z.of_nat (length l).

(** [l[i]] on a list: a negative index counts from the end, an index out of
    range raises [IndexError]. *)
Definition getitem {A} (l : list A) (i : Z) : exn + A :=
  let j := if i <? 0 then i + len l else i in
  if (j <? 0) || (len l <=? j) then
    inl (IndexError "list index out of range")
  else
    match nth_error l (Z.to_nat j) with
    | Some a => inr a
    | None => inl (IndexError "list index out of range")
    end.

(** Bound of a slice [l[lo:hi]] brought into [0 .. len l]. *)
Definition slice_bound (n i : Z) : Z :=
  if i <? 0 then Z.max 0 (i + n) else Z.min i n.

(** [l[lo:hi]]. *)
Definition slice {A} (l : list A) (lo hi : Z) : list A :=
  let s := slice_bound (len l) lo in
  let e := slice_bound (len l) hi in
  firstn (Z.to_nat (e - s)) (skipn (Z.to_nat s) l).

(** [l[start::2]] for [start] 0 or 1. *)
Fixpoint every_other {A} (l : list A) : list A :=
  match l with
  | a :: _ :: rest => a :: every_other rest
  | l' => l'
  end.

Definition slice_step2 {A} (l : list A) (start : nat) : list A :=
  every_other (skipn start l).

(** Number of elements of [range(start, stop, step)] for a step that is not
    zero. *)
Definition range_len (start stop step : Z) : Z :=
  if 0 <? step then
    if start <? stop then (stop - start - 1) / step + 1 else 0
  else
    if stop <? start then (start - stop - 1) / (- step) + 1 else 0.

(** [range(start, stop, step)], as the list of its elements. *)
Definition range (start stop step : Z) : exn + list Z :=
  if step =? 0 then inl (ValueError "range() arg 3 must not be zero")
  else
    inr (map (fun k => start + Z.of_nat k * step)
             (seq 0 (Z.to_nat (range_len start stop step)))).

Definition reversed {A} (l : list A) : list A := rev l.

Fixpoint enumerate_from {A} (m : Z) (l : list A) : list (Z * A) :=
  match l with
  | [] => []
  | a :: rest => (m, a) :: enumerate_from (m + 1) rest
  end.

Definition enumerate {A} (l : list A) : list (Z * A) := enumerate_from 0 l.

(** *** [round(x, ndigits)] on floats

    Python floats are IEEE 754 binary64 numbers, here Rocq's primitive
    floats.  [round] rounds the exact value of [x] to [ndigits] decimal
    places and returns the float nearest to that decimal.  The two major
    versions of the interpreter differ on exact ties only. *)
Inductive tie_rule : Type :=
| half_even   (* Python 3 *)
| half_away.  (* Python 2 *)

(** [n / d] rounded to the nearest integer, for [0 <= n] and [0 < d]. *)
Definition round_div (tie : tie_rule) (n d : Z) : Z :=
  let q := n / d in
  match (2 * (n mod d)) ?= d with
  | Lt => q
  | Gt => q + 1
  | Eq => match tie with
          | half_even => if Z.even q then q else q + 1
          | half_away => q + 1
          end
  end.

(** The integer [(-1)^s * n] as an unrounded binary number, [0 <= n]. *)
Definition sf_of_Z (s : bool) (n : Z) : spec_float :=
  match n with
  | Zpos p => S754_finite s p 0
  | _ => S754_zero s
  end.

Definition NDIGITS_MAX : Z := 323.
Definition NDIGITS_MIN : Z := -308.

Definition round (tie : tie_rule) (x : float) (ndigits : Z) : exn + float :=
  match Prim2SF x with
  | S754_finite s m e =>
      if NDIGITS_MAX <? ndigits then inr x
      else if ndigits <? NDIGITS_MIN then inr (0 * x)%float
      else
        (* |x| = num / den, exactly *)
        let num := if 0 <=? e then Zpos m * 2 ^ e else Zpos m in
        let den := if 0 <=? e then 1 else 2 ^ (- e) in
        (* |x| rounded to a multiple of 10^(-ndigits): digits * 10^(-ndigits) *)
        let digits :=
          if 0 <=? ndigits
          then round_div tie (num * 10 ^ ndigits) den
          else round_div tie num (den * 10 ^ (- ndigits)) in
        (* the float nearest to that decimal *)
        let r :=
          if 0 <=? ndigits
          then SFdiv prec emax (sf_of_Z s digits)
                               (sf_of_Z false (10 ^ ndigits))
          else
            let n := digits * 10 ^ (- ndigits) in
            binary_normalize prec emax (if s then - n else n) 0 s in
        match r with
        | S754_infinity _ =>
            inl (OverflowError "rounded value too large to represent")
        | _ => inr (SF2Prim r)
        end
  | _ => inr x
  end.

End Py.

Import Py.

(** ** The remote API client

    The client library [vrep] is an external dependency.  Its functions
    block until the server has answered and return a status code followed
    by the payload.  Status codes are integers; success is 0 and the flag
    for an input buffer without the requested value is 1.  The other
    constants are only passed through by the wrappers and are kept as
    enumerations. *)

Module vrep.

Definition simx_return_ok : Z := 0.
Definition simx_return_novalue_flag : Z := 1.

Inductive opmode : Type :=
| simx_opmode_blocking.

Inductive scripttype : Type :=
| sim_scripttype_childscript
| sim_scripttype_customizationscript.

Inductive objfloatparam : Type :=
| sim_objfloatparam_objbbox_min_x
| sim_objfloatparam_objbbox_max_x
| sim_objfloatparam_objbbox_min_y
| sim_objfloatparam_objbbox_max_y
| sim_objfloatparam_objbbox_min_z
| sim_objfloatparam_objbbox_max_z.

(** A point or direction as the client returns it: always three floats. *)
Record vec3 : Type := mkvec3 { x : float; y : float; z : float }.

(** The functions of the client that the wrappers call, with their
    arguments. *)
Inductive call : Type :=
| simxGetObjectHandle (clientID : Z) (objectName : string) (mode : opmode)
| simxCallScriptFunction (clientID : Z) (scriptDescription : string)
    (options : scripttype) (functionName : string)
    (inputInts : list Z) (inputFloats : list float)
    (inputStrings : list string) (inputBuffer : list Z) (mode : opmode)
| simxCopyPasteObjects (clientID : Z) (objectHandles : list Z) (mode : opmode)
| simxGetObjectFloatParameter (clientID objectHandle : Z)
    (parameterID : objfloatparam) (mode : opmode)
| simxGetObjectOrientation (clientID objectHandle relativeTo : Z)
    (mode : opmode)
| simxSetObjectOrientation (clientID objectHandle relativeTo : Z)
    (eulerAngles : list float) (mode : opmode)
| simxGetObjectParent (clientID childObjectHandle : Z) (mode : opmode)
| simxSetObjectParent (clientID objectHandle parentObject : Z)
    (keepInPlace : bool) (mode : opmode)
| simxGetObjectPosition (clientID objectHandle relativeTo : Z) (mode : opmode)
| simxSetObjectPosition (clientID objectHandle relativeTo : Z)
    (position : list float) (mode : opmode)
| simxRemoveObject (clientID objectHandle : Z) (mode : opmode)
| simxSetJointTargetVelocity (clientID jointHandle : Z)
    (targetVelocity : float) (mode : opmode)
| simxReadProximitySensor (clientID sensorHandle : Z) (mode : opmode)
| simxGetVisionSensorImage (clientID sensorHandle : Z) (options : bool)
    (mode : opmode)
| simxGetObjectGroupData (clientID objectType dataType : Z) (mode : opmode)
| simxGetCollectionHandle (clientID : Z) (collectionName : string)
    (mode : opmode).

(** What each function returns. *)
Definition ret (c : call) : Type :=
  match c with
  | simxGetObjectHandle _ _ _ => Z * Z
  | simxCallScriptFunction _ _ _ _ _ _ _ _ _ =>
      Z * list Z * list float * list string * list Z
  | simxCopyPasteObjects _ _ _ => Z * list Z
  | simxGetObjectFloatParameter _ _ _ _ => Z * float
  | simxGetObjectOrientation _ _ _ _ => Z * list float
  | simxSetObjectOrientation _ _ _ _ _ => Z
  | simxGetObjectParent _ _ _ => Z * Z
  | simxSetObjectParent _ _ _ _ _ => Z
  | simxGetObjectPosition _ _ _ _ => Z * list float
  | simxSetObjectPosition _ _ _ _ _ => Z
  | simxRemoveObject _ _ _ => Z
  | simxSetJointTargetVelocity _ _ _ _ => Z
  | simxReadProximitySensor _ _ _ => Z * bool * vec3 * Z * vec3
  | simxGetVisionSensorImage _ _ _ _ => Z * (Z * Z) * list Z
  | simxGetObjectGroupData _ _ _ _ =>
      Z * list Z * list Z * list float * list string
  | simxGetCollectionHandle _ _ _ => Z * Z
  end%type.

(** The status code of an answer. *)
Definition status (c : call) : ret c -> Z :=
  match c with
  | simxGetObjectHandle _ _ _ => fun a => fst a
  | simxCallScriptFunction _ _ _ _ _ _ _ _ _ =>
      fun a => fst (fst (fst (fst a)))
  | simxCopyPasteObjects _ _ _ => fun a => fst a
  | simxGetObjectFloatParameter _ _ _ _ => fun a => fst a
  | simxGetObjectOrientation _ _ _ _ => fun a => fst a
  | simxSetObjectOrientation _ _ _ _ _ => fun a => a
  | simxGetObjectParent _ _ _ => fun a => fst a
  | simxSetObjectParent _ _ _ _ _ => fun a => a
  | simxGetObjectPosition _ _ _ _ => fun a => fst a
  | simxSetObjectPosition _ _ _ _ _ => fun a => a
  | simxRemoveObject _ _ _ => fun a => a
  | simxSetJointTargetVelocity _ _ _ _ => fun a => a
  | simxReadProximitySensor _ _ _ => fun a => fst (fst (fst (fst a)))
  | simxGetVisionSensorImage _ _ _ _ => fun a => fst (fst a)
  | simxGetObjectGroupData _ _ _ _ => fun a => fst (fst (fst (fst a)))
  | simxGetCollectionHandle _ _ _ => fun a => fst a
  end.

End vrep.

(** ** Programs

    What a wrapper asks of the outside: a function of the remote API client,
    or the simulator object whether the simulation is started. *)

Inductive request : Type :=
| Remote (c : vrep.call)
| IsSimStarted.

Definition reply (r : request) : Type :=
  match r with
  | Remote c => vrep.ret c
  | IsSimStarted => bool
  end.

Inductive prog (A : Type) : Type :=
| Return (a : A)
| Raise (e : exn)
| Call (r : request) (k : reply r -> prog A).

Arguments Return {A} a.
Arguments Raise {A} e.
Arguments Call {A} r k.

Fixpoint bind {A B : Type} (p : prog A) (f : A -> prog B) : prog B :=
  match p with
  | Return a => f a
  | Raise e => Raise e
  | Call r k => Call r (fun a => bind (k a) f)
  end.

Declare Scope prog_scope.
Delimit Scope prog_scope with prog.
Bind Scope prog_scope with prog.

Notation "x <- p ;; q" := (bind p (fun x => q))
  (at level 61, p at next level, right associativity) : prog_scope.
Notation "' pat <- p ;; q" := (bind p (fun x => let 'pat := x in q))
  (at level 61, pat pattern, p at next level, right associativity)
  : prog_scope.
Notation "p ;; q" := (bind p (fun _ => q))
  (at level 61, right associativity) : prog_scope.

(** A blocking call of the remote API. *)
Definition remote (c : vrep.call) : prog (vrep.ret c) :=
  Call (Remote c) Return.

(** An expression that may raise. *)
Definition eval {A : Type} (v : exn + A) : prog A :=
  match v with
  | inl e => Raise e
  | inr a => Return a
  end.

(** [for a in l: body(a)]. *)
Fixpoint for_each {A : Type} (l : list A) (body : A -> prog unit)
  : prog unit :=
  match l with
  | [] => Return tt
  | a :: rest => bind (body a) (fun _ => for_each rest body)
  end.

(** [[body(a) for a in l]]. *)
Fixpoint comprehension {A B : Type} (l : list A) (body : A -> prog B)
  : prog (list B) :=
  match l with
  | [] => Return []
  | a :: rest =>
      bind (body a) (fun b =>
      bind (comprehension rest body) (fun bs => Return (b :: bs)))
  end.

(** [[l[p:p+n] for p in ps]]. *)
Definition slices {A : Type} (l : list A) (ps : list Z) (n : Z)
  : list (list A) :=
  map (fun p => slice l p (p + n)) ps.

(** *** Running a program against a server

    A server answers the [n]-th request of a run.  [run] gives the outcome
    of the program and the exchanges with the server, in order. *)

Definition server : Type := nat -> forall r : request, reply r.

Definition outcome (A : Type) : Type := (exn + A)%type.

Record exchange : Type := mkExchange {
  asked : request;
  answered : reply asked
}.

Fixpoint run_from {A : Type} (srv : server) (n : nat) (p : prog A)
  : outcome A * list exchange :=
  match p with
  | Return a => (inr a, [])
  | Raise e => (inl e, [])
  | Call r k =>
      let '(o, t) := run_from srv (S n) (k (srv n r)) in
      (o, mkExchange r (srv n r) :: t)
  end.

Definition run {A : Type} (srv : server) (p : prog A)
  : outcome A * list exchange :=
  run_from srv 0%nat p.

(** The status code of an exchange with the remote API. *)
Definition status_of (e : exchange) : option Z :=
  match e with
  | mkExchange (Remote c) a => Some (vrep.status c a)
  | mkExchange IsSimStarted _ => None
  end.

(** One exchange: [p] issues the request [r] and, given the answer [a],
    goes on as [q]. *)
Inductive step {A : Type} (p : prog A) (r : request) (a : reply r)
  (q : prog A) : Prop :=
| step_intro (k : reply r -> prog A) : p = Call r k -> k a = q -> step p r a q.

(** ** [vrepsim.base] *)

Module base.

(** Modelled from the spec: [vrepsim/base.py] and the simulator class are
    not among the sources.  The [Communicator] base class keeps the
    simulator object a wrapper was built with and supplies its connection
    identifier, [None] when there is no connection. *)
Record Simulator : Type := mkSimulator { client_id : option Z }.

(** Modelled from the spec: [vrep_sim.is_sim_started()] reports whether a
    simulation is running.  The answer comes from outside the wrapper. *)
Definition is_sim_started (vrep_sim : Simulator) : prog bool :=
  Call IsSimStarted Return.

End base.

(** ** [vrepsim.objects] *)

Module objects.

(** An instance of [SceneObject] or of one of its subclasses. *)
Record SceneObject : Type := mkSceneObject {
  vrep_sim : base.Simulator;
  _name : string;
  _handle : Z
}.

Definition client_id (self : SceneObject) : option Z :=
  base.client_id (vrep_sim self).

(** [SceneObject._get_handle], called by the constructor when [_name] is
    set and [_handle] is not yet. *)
Definition _get_handle (vrep_sim : base.Simulator) (_name : string)
  : prog Z :=
  match base.client_id vrep_sim with
  | None =>
      Raise (ConnectionError (format
        "Could not retrieve handle to {}: not connected to V-REP remote API server."
        [_name]))
  | Some client_id =>
      '(res, handle) <- remote (vrep.simxGetObjectHandle
                                  client_id _name vrep.simx_opmode_blocking) ;;
      if negb (res =? vrep.simx_return_ok) then
        Raise (ServerError (format "Could not retrieve handle to {}." [_name]))
      else Return handle
  end%prog.

(** [SceneObject.__init__]. *)
Definition __init__ (name : option string) (vrep_sim : base.Simulator)
  : prog SceneObject :=
  match name with
  | Some (String c s) =>
      (handle <- _get_handle vrep_sim (String c s) ;;
       Return (mkSceneObject vrep_sim (String c s) handle))%prog
  | _ => Return (mkSceneObject vrep_sim "_Unnamed_" (-1))
  end.

(** The [handle] property. *)
Definition handle (self : SceneObject) : prog (option Z) :=
  if 0 <=? _handle self then Return (Some (_handle self))
  else if _handle self =? -1 then Return None
  else if _handle self =? -2 then
    Raise (RuntimeError (format
      "Could not retrieve handle to {}: object removed." [_name self]))
  else
    Raise (RuntimeError (format
      "Could not retrieve handle to {}: invalid handle." [_name self])).

(** The [name] property. *)
Definition name (self : SceneObject) : prog (option string) :=
  if _handle self =? -2 then
    Raise (RuntimeError (format
      "Could not retrieve name of {}: object removed." [_name self]))
  else
    Return (if negb (String.eqb (_name self) "_Unnamed_")
            then Some (_name self) else None).

(** What a caller may pass where an object is referred to: [None], an
    integer handle, a scene object, or a value of any other type. *)
Inductive handle_source : Type :=
| PyNone
| PyInt (i : Z)
| PySceneObject (o : SceneObject)
| PyOther.

(** [SceneObject.get_handle] (static). *)
Definition get_handle (scene_obj : handle_source) (name : string) : prog Z :=
  match scene_obj with
  | PyNone => Return (-1)
  | PyInt i => Return i
  | PySceneObject o =>
      (h <- handle o ;;
       match h with
       | None => Raise (ValueError (format "Handle of {} is invalid." [name]))
       | Some h' => Return h'
       end)%prog
  | PyOther => Raise (TypeError (format "Type of {} is not supported." [name]))
  end.

Definition ASSOC_SCRIPT_TYPES : list (string * vrep.scripttype) :=
  [ ("child"%string, vrep.sim_scripttype_childscript);
    ("customization"%string, vrep.sim_scripttype_customizationscript) ].

(** [d[key]] on a dictionary with string keys: [None] stands for
    [KeyError]. *)
Fixpoint lookup {V : Type} (d : list (string * V)) (key : string)
  : option V :=
  match d with
  | [] => None
  | (k, v) :: rest => if String.eqb k key then Some v else lookup rest key
  end.

Definition call_script_func (self : SceneObject) (funcname : string)
  (script_type : string) (args_int : list Z) (args_float : list float)
  (args_string : list string) (args_buf : list Z)
  : prog (list Z * list float * list string * list Z) :=
  (* Validate script type *)
  match lookup ASSOC_SCRIPT_TYPES script_type with
  | None => Raise (ValueError "Script type is not supported.")
  | Some vrep_script_type =>
      (* Call function from the script *)
      if _handle self =? -2 then
        Raise (RuntimeError (format
          "Could not call function {0} from {1} script associated with {2}: object removed."
          [funcname; script_type; _name self]))
      else
        match client_id self with
        | None =>
            Raise (ConnectionError (format
              "Could not call function {0} from {1} script associated with {2}: not connected to V-REP remote API server."
              [funcname; script_type; _name self]))
        | Some client_id =>
            '(res, rets_int, rets_float, rets_string, rets_buf) <-
              remote (vrep.simxCallScriptFunction
                        client_id (_name self) vrep_script_type funcname
                        args_int args_float args_string args_buf
                        vrep.simx_opmode_blocking) ;;
            if negb (res =? vrep.simx_return_ok) then
              Raise (ServerError (format
                "Could not call function {0} from {1} script associated with {2}."
                [funcname; script_type; _name self]))
            else Return (rets_int, rets_float, rets_string, rets_buf)
        end
  end%prog.

Definition copy_paste (self : SceneObject) : prog Z :=
  if _handle self =? -2 then
    Raise (RuntimeError (format
      "Could not copy and paste {}: object removed." [_name self]))
  else
    match client_id self with
    | None =>
        Raise (ConnectionError (format
          "Could not copy and paste {}: not connected to V-REP remote API server."
          [_name self]))
    | Some client_id =>
        ('(res, handles) <- remote (vrep.simxCopyPasteObjects
                                     client_id [_handle self]
                                     vrep.simx_opmode_blocking) ;;
         if negb (res =? vrep.simx_return_ok) then
           Raise (ServerError (format
             "Could not copy and paste {}." [_name self]))
         else eval (getitem handles 0))%prog
    end.

Definition BBOX_LIMITS : list (string * vrep.objfloatparam) :=
  [ ("x_min"%string, vrep.sim_objfloatparam_objbbox_min_x);
    ("x_max"%string, vrep.sim_objfloatparam_objbbox_max_x);
    ("y_min"%string, vrep.sim_objfloatparam_objbbox_min_y);
    ("y_max"%string, vrep.sim_objfloatparam_objbbox_max_y);
    ("z_min"%string, vrep.sim_objfloatparam_objbbox_min_z);
    ("z_max"%string, vrep.sim_objfloatparam_objbbox_max_z) ].

(** The loop of [get_bbox_limits] over the limits still to retrieve;
    [bbox_limits] holds those retrieved so far. *)
Fixpoint bbox_loop (tie : tie_rule) (self : SceneObject) (client_id : Z)
  (prec : option Z) (limits : list (string * vrep.objfloatparam))
  (bbox_limits : list float) : prog (list float) :=
  match limits with
  | [] => Return bbox_limits
  | limit :: rest =>
      ('(res, lim) <- remote (vrep.simxGetObjectFloatParameter
                                client_id (_handle self) (snd limit)
                                vrep.simx_opmode_blocking) ;;
       if negb (res =? vrep.simx_return_ok) then
         Raise (ServerError (format
           "Could not retrieve {0} limit of {1} bounding box."
           [fst limit; _name self]))
       else
         lim <- match prec with
                | Some prec => eval (round tie lim prec)
                | None => Return lim
                end ;;
         bbox_loop tie self client_id prec rest (bbox_limits ++ [lim]))%prog
  end.

(** [[[a, b] for a, b in zip(l1, l2)]]. *)
Fixpoint zip_pairs {A : Type} (l1 l2 : list A) : list (list A) :=
  match l1, l2 with
  | a :: r1, b :: r2 => [a; b] :: zip_pairs r1 r2
  | _, _ => []
  end.

(** [prec] is passed explicitly: the default [VREP_FLOAT_PREC] is a constant
    of [vrepsim/constants.py], which is not among the sources. *)
Definition get_bbox_limits (tie : tie_rule) (self : SceneObject)
  (prec : option Z) : prog (list (list float)) :=
  if _handle self =? -2 then
    Raise (RuntimeError (format
      "Could not retrieve limits of {} bounding box: object removed."
      [_name self]))
  else
    match client_id self with
    | None =>
        Raise (ConnectionError (format
          "Could not retrieve limits of {} bounding box: not connected to V-REP remote API server."
          [_name self]))
    | Some client_id =>
        (bbox_limits <- bbox_loop tie self client_id prec BBOX_LIMITS [] ;;
         Return (zip_pairs (slice_step2 bbox_limits 0)
                           (slice_step2 bbox_limits 1)))%prog
    end.

Definition get_orientation (self : SceneObject) (relative : handle_source)
  : prog (list float) :=
  if _handle self =? -2 then
    Raise (RuntimeError (format
      "Could not retrieve orientation of {}: object removed." [_name self]))
  else
    match client_id self with
    | None =>
        Raise (ConnectionError (format
          "Could not retrieve orientation of {}: not connected to V-REP remote API server."
          [_name self]))
    | Some client_id =>
        (relative_handle <- get_handle relative "relative" ;;
         '(res, orientation) <- remote (vrep.simxGetObjectOrientation
                                          client_id (_handle self)
                                          relative_handle
                                          vrep.simx_opmode_blocking) ;;
         if negb (res =? vrep.simx_return_ok) then
           Raise (ServerError (format
             "Could not retrieve orientation of {}." [_name self]))
         else Return orientation)%prog
    end.

Definition set_orientation (self : SceneObject) (orientation : list float)
  (relative : handle_source) (allow_in_sim : bool) : prog unit :=
  if _handle self =? -2 then
    Raise (RuntimeError (format
      "Could not set orientation of {}: object removed." [_name self]))
  else
    match client_id self with
    | None =>
        Raise (ConnectionError (format
          "Could not set orientation of {}: not connected to V-REP remote API server."
          [_name self]))
    | Some client_id =>
        (started <- (if negb allow_in_sim
                     then base.is_sim_started (vrep_sim self)
                     else Return false) ;;
         if started then
           Raise (SimulationError (format
             "Could not set orientation of {}: setting orientation not allowed during simulation."
             [_name self]))
         else
           relative_handle <- get_handle relative "relative" ;;
           res <- remote (vrep.simxSetObjectOrientation
                            client_id (_handle self) relative_handle
                            orientation vrep.simx_opmode_blocking) ;;
           if negb (res =? vrep.simx_return_ok) then
             Raise (ServerError (format
               "Could not set orientation of {}." [_name self]))
           else Return tt)%prog
    end.

Definition get_parent_handle (self : SceneObject) : prog Z :=
  if _handle self =? -2 then
    Raise (RuntimeError (format
      "Could not retrieve handle to the parent of {}: object removed."
      [_name self]))
  else
    match client_id self with
    | None =>
        Raise (ConnectionError (format
          "Could not retrieve handle to the parent of {}: not connected to V-REP remote API server."
          [_name self]))
    | Some client_id =>
        ('(res, handle) <- remote (vrep.simxGetObjectParent
                                     client_id (_handle self)
                                     vrep.simx_opmode_blocking) ;;
         if negb (res =? vrep.simx_return_ok) then
           Raise (ServerError (format
             "Could not retrieve handle to the parent of {}." [_name self]))
         else Return handle)%prog
    end.

Definition set_parent (self : SceneObject) (parent : handle_source)
  (keep_pos : bool) : prog unit :=
  if _handle self =? -2 then
    Raise (RuntimeError (format
      "Could not set parent of {}: object removed." [_name self]))
  else
    match client_id self with
    | None =>
        Raise (ConnectionError (format
          "Could not set parent of {}: not connected to V-REP remote API server."
          [_name self]))
    | Some client_id =>
        (parent_handle <- get_handle parent "parent" ;;
         res <- remote (vrep.simxSetObjectParent
                          client_id (_handle self) parent_handle keep_pos
                          vrep.simx_opmode_blocking) ;;
         if negb (res =? vrep.simx_return_ok) then
           Raise (ServerError (format
             "Could not set parent of {}." [_name self]))
         else Return tt)%prog
    end.

Definition get_position (self : SceneObject) (relative : handle_source)
  : prog (list float) :=
  if _handle self =? -2 then
    Raise (RuntimeError (format
      "Could not retrieve position of {}: object removed." [_name self]))
  else
    match client_id self with
    | None =>
        Raise (ConnectionError (format
          "Could not retrieve position of {}: not connected to V-REP remote API server."
          [_name self]))
    | Some client_id =>
        (relative_handle <- get_handle relative "relative" ;;
         '(res, position) <- remote (vrep.simxGetObjectPosition
                                       client_id (_handle self)
                                       relative_handle
                                       vrep.simx_opmode_blocking) ;;
         if negb (res =? vrep.simx_return_ok) then
           Raise (ServerError (format
             "Could not retrieve position of {}." [_name self]))
         else Return position)%prog
    end.

Definition set_position (self : SceneObject) (position : list float)
  (relative : handle_source) (allow_in_sim : bool) : prog unit :=
  if _handle self =? -2 then
    Raise (RuntimeError (format
      "Could not set position of {}: object removed." [_name self]))
  else
    match client_id self with
    | None =>
        Raise (ConnectionError (format
          "Could not set position of {}: not connected to V-REP remote API server."
          [_name self]))
    | Some client_id =>
        (started <- (if negb allow_in_sim
                     then base.is_sim_started (vrep_sim self)
                     else Return false) ;;
         if started then
           Raise (SimulationError (format
             "Could not set position of {}: setting position not allowed during simulation."
             [_name self]))
         else
           relative_handle <- get_handle relative "relative" ;;
           res <- remote (vrep.simxSetObjectPosition
                            client_id (_handle self) relative_handle
                            position vrep.simx_opmode_blocking) ;;
           if negb (res =? vrep.simx_return_ok) then
             Raise (ServerError (format
               "Could not set position of {}." [_name self]))
           else Return tt)%prog
    end.

(** [remove] returns the object as the call leaves it; when it raises, the
    object is as before the call. *)
Definition remove (self : SceneObject) : prog SceneObject :=
  if _handle self =? -2 then
    Raise (RuntimeError (format
      "Could not remove {}: object already removed." [_name self]))
  else
    match client_id self with
    | None =>
        Raise (ConnectionError (format
          "Could not remove {}: not connected to V-REP remote API server."
          [_name self]))
    | Some client_id =>
        (res <- remote (vrep.simxRemoveObject
                          client_id (_handle self)
                          vrep.simx_opmode_blocking) ;;
         if negb (res =? vrep.simx_return_ok) then
           Raise (ServerError (format "Could not remove {}." [_name self]))
         else
           Return (mkSceneObject (vrep_sim self) (_name self) (-2)))%prog
    end.

(** [Dummy], [Motor], [ProximitySensor] and [VisionSensor] derive from
    [SceneObject] and construct themselves with its constructor. *)
Definition Dummy : Type := SceneObject.
Definition Motor : Type := SceneObject.
Definition ProximitySensor : Type := SceneObject.
Definition VisionSensor : Type := SceneObject.

(** [Motor.set_velocity]. *)
Definition set_velocity (self : Motor) (velocity : float) : prog unit :=
  if _handle self =? -2 then
    Raise (RuntimeError (format
      "Could not set {} velocity: object removed." [_name self]))
  else
    match client_id self with
    | None =>
        Raise (ConnectionError (format
          "Could not set {} velocity: not connected to V-REP remote API server."
          [_name self]))
    | Some client_id =>
        (res <- remote (vrep.simxSetJointTargetVelocity
                          client_id (_handle self) velocity
                          vrep.simx_opmode_blocking) ;;
         if negb (res =? vrep.simx_return_ok) then
           Raise (ServerError (format
             "Could not set {} velocity." [_name self]))
         else Return tt)%prog
    end.

(** [ProximitySensor.get_inv_distance]; [point[2]] is the third coordinate
    of the detected point. *)
Definition get_inv_distance (self : ProximitySensor) : prog float :=
  if _handle self =? -2 then
    Raise (RuntimeError (format
      "Could not retrieve data from {}: object removed." [_name self]))
  else
    match client_id self with
    | None =>
        Raise (ConnectionError (format
          "Could not retrieve data from {}: not connected to V-REP remote API server."
          [_name self]))
    | Some client_id =>
        ('(res, detect, point, _, _) <-
           remote (vrep.simxReadProximitySensor
                     client_id (_handle self) vrep.simx_opmode_blocking) ;;
         if res =? vrep.simx_return_ok then
           if detect then
             Return (1.0 - vrep.z point)%float  (* distance inverted *)
           else Return 0.0%float
         else if res =? vrep.simx_return_novalue_flag then
           Return 0.0%float
         else
           Raise (ServerError (format
             "Could not retrieve data from {}." [_name self])))%prog
    end.

(** An image: rows of pixels, a pixel being one value (grayscale) or a list
    of three (RGB). *)
Inductive image : Type :=
| Grayscale (rows : list (list Z))
| RGB (rows : list (list (list Z))).

(** The rows of an image, from the bottom up order of the buffer to the top
    down order of the result. *)
Definition arrange_rows {A : Type} (image : list A) (width n_pixels : Z)
  : prog (list (list A)) :=
  (ps <- eval (range 0 n_pixels width) ;;
   Return (slices image (reversed ps) width))%prog.

(** [VisionSensor.get_image]. *)
Definition get_image (self : VisionSensor) (grayscale : bool) : prog image :=
  if _handle self =? -2 then
    Raise (RuntimeError (format
      "Could not retrieve image from {}: object removed." [_name self]))
  else
    match client_id self with
    | None =>
        Raise (ConnectionError (format
          "Could not retrieve image from {}: not connected to V-REP remote API server."
          [_name self]))
    | Some client_id =>
        ('(res, resolution, image) <-
           remote (vrep.simxGetVisionSensorImage
                     client_id (_handle self) grayscale
                     vrep.simx_opmode_blocking) ;;
         if negb (res =? vrep.simx_return_ok) then
           Raise (ServerError (format
             "Could not retrieve image from {}." [_name self]))
         else
           (* Convert misrepresented pixel values *)
           let image := map (fun val => if 0 <=? val then val else val + 256)
                            image in
           (* If necessary, arrange RGB triplets *)
           let '(width, height) := resolution in
           let n_pixels := width * height in
           if negb grayscale then
             ps <- eval (range 0 (3 * n_pixels) 3) ;;
             let image := slices image ps 3 in
             rows <- arrange_rows image width n_pixels ;;
             Return (RGB rows)
           else
             rows <- arrange_rows image width n_pixels ;;
             Return (Grayscale rows))%prog
    end.

(** *** Arrays *)

Record MotorArray : Type := mkMotorArray { _motors : list Motor }.




(** [MotorArray.set_velocities]. *)
Definition set_velocities (self : MotorArray) (motor_velocities : list float)
  : prog unit :=
  for_each (enumerate (_motors self)) (fun '(m, motor) =>
    (velocity <- eval (getitem motor_velocities m) ;;
     set_velocity motor velocity)%prog).

Record ProximitySensorArray : Type :=
  mkProximitySensorArray { _sensors : list ProximitySensor }.


Definition SensorArray__len__ (self : ProximitySensorArray) : Z :=
  len (_sensors self).

Definition SensorArray__getitem__ (self : ProximitySensorArray) (key : Z)
  : prog ProximitySensor :=
  eval (getitem (_sensors self) key).

(** [ProximitySensorArray.get_inv_distances]. *)
Definition get_inv_distances (self : ProximitySensorArray)
  : prog (list float) :=
  comprehension (_sensors self) get_inv_distance.

End objects.

(** ** [vrepsim.collections] *)

Module collections.

Record Collection : Type := mkCollection {
  vrep_sim : base.Simulator;
  _name : string;
  _handle : Z
}.

Definition client_id (self : Collection) : option Z :=
  base.client_id (vrep_sim self).

Section Constants.

(** The placeholder printed for a missing name, a constant of
    [vrepsim/constants.py], which is not among the sources. *)
Variable EMPTY_NAME : string.

(** [Collection._get_handle], called by the constructor when [_name] is
    set and [_handle] is not yet. *)
Definition _get_handle (vrep_sim : base.Simulator) (_name : option string)
  : prog Z :=
  match _name with
  | Some (String c s) =>
      let _name := String c s in
      match base.client_id vrep_sim with
      | None =>
          Raise (ConnectionError (format
            "Could not retrieve handle to {}: not connected to V-REP remote API server."
            [_name]))
      | Some client_id =>
          ('(res, handle) <- remote (vrep.simxGetCollectionHandle
                                       client_id _name
                                       vrep.simx_opmode_blocking) ;;
           if negb (res =? vrep.simx_return_ok) then
             Raise (ServerError (format
               "Could not retrieve handle to {}." [_name]))
           else Return handle)%prog
      end
  | _ =>
      Raise (RuntimeError (format
        "Could not retrieve handle to {}: missing name." [EMPTY_NAME]))
  end.

(** [Collection.__init__]. *)
Definition __init__ (name : option string) (vrep_sim : base.Simulator)
  : prog Collection :=
  (handle <- _get_handle vrep_sim name ;;
   Return (mkCollection vrep_sim
             (match name with Some s => s | None => EmptyString end)
             handle))%prog.

End Constants.

(** The [handle] and [name] properties. *)
Definition handle (self : Collection) : Z := _handle self.
Definition name (self : Collection) : string := _name self.

Definition get_names (self : Collection) : prog (list string) :=
  match client_id self with
  | None =>
      Raise (ConnectionError (format
        "Could not retrieve names of {}: not connected to V-REP remote API server."
        [_name self]))
  | Some client_id =>
      ('(res, _, _, _, names) <- remote (vrep.simxGetObjectGroupData
                                           client_id (_handle self) 0
                                           vrep.simx_opmode_blocking) ;;
       if negb (res =? vrep.simx_return_ok) then
         Raise (ServerError (format
           "Could not retrieve names of {}." [_name self]))
       else Return names)%prog
  end.

(** [[round(v, prec) for v in values]] when [prec] is not [None]. *)
Definition round_all (tie : tie_rule) (values : list float) (prec : option Z)
  : prog (list float) :=
  match prec with
  | Some prec => comprehension values (fun v => eval (round tie v prec))
  | None => Return values
  end.

(** [[values[p:p+3] for p in range(0, len(values), 3)]]. *)
Definition triples (values : list float) : prog (list (list float)) :=
  (ps <- eval (range 0 (len values) 3) ;;
   Return (slices values ps 3))%prog.

Definition get_orientations (tie : tie_rule) (self : Collection)
  (prec : option Z) : prog (list (list float)) :=
  match client_id self with
  | None =>
      Raise (ConnectionError (format
        "Could not retrieve orientations of {}: not connected to V-REP remote API server."
        [_name self]))
  | Some client_id =>
      ('(res, _, _, orientations, _) <-
         remote (vrep.simxGetObjectGroupData
                   client_id (_handle self) 5 vrep.simx_opmode_blocking) ;;
       if negb (res =? vrep.simx_return_ok) then
         Raise (ServerError (format
           "Could not retrieve orientations of {}." [_name self]))
       else
         orientations <- round_all tie orientations prec ;;
         triples orientations)%prog
  end.

Definition get_positions (tie : tie_rule) (self : Collection)
  (prec : option Z) : prog (list (list float)) :=
  match client_id self with
  | None =>
      Raise (ConnectionError (format
        "Could not retrieve positions of {}: not connected to V-REP remote API server."
        [_name self]))
  | Some client_id =>
      ('(res, _, _, positions, _) <-
         remote (vrep.simxGetObjectGroupData
                   client_id (_handle self) 3 vrep.simx_opmode_blocking) ;;
       if negb (res =? vrep.simx_return_ok) then
         Raise (ServerError (format
           "Could not retrieve positions of {}." [_name self]))
       else
         positions <- round_all tie positions prec ;;
         triples positions)%prog
  end.

End collections.

(** ** Vocabulary of the statements *)

Import objects.

(** The calls a client can make on a scene object.  [op_set_velocity],
    [op_get_inv_distance] and [op_get_image] are those of [Motor],
    [ProximitySensor] and [VisionSensor]. *)
Inductive operation : Type :=
| op_handle
| op_name
| op_call_script_func (funcname script_type : string) (args_int : list Z)
    (args_float : list float) (args_string : list string) (args_buf : list Z)
| op_copy_paste
| op_get_bbox_limits (prec : option Z)
| op_get_orientation (relative : handle_source)
| op_set_orientation (orientation : list float) (relative : handle_source)
    (allow_in_sim : bool)
| op_get_parent_handle
| op_set_parent (parent : handle_source) (keep_pos : bool)
| op_get_position (relative : handle_source)
| op_set_position (position : list float) (relative : handle_source)
    (allow_in_sim : bool)
| op_remove
| op_set_velocity (velocity : float)
| op_get_inv_distance
| op_get_image (grayscale : bool).

(** A call that leaves the object as it is. *)
Definition observe {A : Type} (self : SceneObject) (p : prog A)
  : prog SceneObject :=
  (p ;; Return self)%prog.

(** [perform tie op self] makes the call [op] on [self] and returns the
    object as the call leaves it, dropping the value returned. *)
Definition perform (tie : tie_rule) (op : operation) (self : SceneObject)
  : prog SceneObject :=
  match op with
  | op_handle => observe self (handle self)
  | op_name => observe self (name self)
  | op_call_script_func funcname script_type args_int args_float
      args_string args_buf =>
      observe self (call_script_func self funcname script_type args_int
                      args_float args_string args_buf)
  | op_copy_paste => observe self (copy_paste self)
  | op_get_bbox_limits prec => observe self (get_bbox_limits tie self prec)
  | op_get_orientation relative =>
      observe self (get_orientation self relative)
  | op_set_orientation orientation relative allow_in_sim =>
      observe self (set_orientation self orientation relative allow_in_sim)
  | op_get_parent_handle => observe self (get_parent_handle self)
  | op_set_parent parent keep_pos =>
      observe self (set_parent self parent keep_pos)
  | op_get_position relative => observe self (get_position self relative)
  | op_set_position position relative allow_in_sim =>
      observe self (set_position self position relative allow_in_sim)
  | op_remove => remove self
  | op_set_velocity velocity => observe self (set_velocity self velocity)
  | op_get_inv_distance => observe self (get_inv_distance self)
  | op_get_image grayscale => observe self (get_image self grayscale)
  end.

(** The script type of a call of [call_script_func] is one of the keys of
    [ASSOC_SCRIPT_TYPES]; every other call has no script type to check. *)
Definition script_type_supported (op : operation) : bool :=
  match op with
  | op_call_script_func _ script_type _ _ _ _ =>
      match lookup ASSOC_SCRIPT_TYPES script_type with
      | Some _ => true
      | None => false
      end
  | _ => true
  end.



(** [s] contains [part]. *)
Definition mentions (s part : string) : Prop :=
  exists before after : string,
    s = String.append before (String.append part after).

Definition zero3 : vrep.vec3 := vrep.mkvec3 0 0 0.

(** A server that answers every remote call with success and a small
    payload, and reports that no simulation is started. *)
Definition ok_server : server :=
  fun _ r =>
    match r return reply r with
    | Remote c =>
        match c return vrep.ret c with
        | vrep.simxGetObjectHandle _ _ _ => (0, 7)
        | vrep.simxCallScriptFunction _ _ _ _ _ _ _ _ _ => (0, [], [], [], [])
        | vrep.simxCopyPasteObjects _ _ _ => (0, [8])
        | vrep.simxGetObjectFloatParameter _ _ _ _ => (0, 0%float)
        | vrep.simxGetObjectOrientation _ _ _ _ => (0, [])
        | vrep.simxSetObjectOrientation _ _ _ _ _ => 0
        | vrep.simxGetObjectParent _ _ _ => (0, -1)
        | vrep.simxSetObjectParent _ _ _ _ _ => 0
        | vrep.simxGetObjectPosition _ _ _ _ => (0, [])
        | vrep.simxSetObjectPosition _ _ _ _ _ => 0
        | vrep.simxRemoveObject _ _ _ => 0
        | vrep.simxSetJointTargetVelocity _ _ _ _ => 0
        | vrep.simxReadProximitySensor _ _ _ => (0, false, zero3, -1, zero3)
        | vrep.simxGetVisionSensorImage _ _ _ _ => (0, (1, 1), [0; 0; 0])
        | vrep.simxGetObjectGroupData _ _ _ _ => (0, [], [], [], [])
        | vrep.simxGetCollectionHandle _ _ _ => (0, 7)
        end
    | IsSimStarted => false
    end.

(** Objects used as concrete inputs. *)
Definition connected : base.Simulator := base.mkSimulator (Some 0).
Definition disconnected : base.Simulator := base.mkSimulator None.

Definition live_object : SceneObject := mkSceneObject connected "robot" 7.
Definition removed_object : SceneObject :=
  mkSceneObject connected "robot" (-2).
Definition unnamed_object : SceneObject :=
  mkSceneObject connected "_Unnamed_" (-1).

(** The requests of a run. *)
Definition requests (t : list exchange) : list request := map asked t.

(** The [k]-th run of [w] consecutive elements of [l]. *)
Definition chunk_at {A : Type} (w : nat) (l : list A) (k : nat) : list A :=
  firstn w (skipn (k * w) l).

Definition three_motors (vrep_sim : base.Simulator) : MotorArray :=
  mkMotorArray [ mkSceneObject vrep_sim "left" 1;
                 mkSceneObject vrep_sim "right" 2;
                 mkSceneObject vrep_sim "rear" 3 ].

(** The exchange in which the velocity of [motor] is set to [v] and the
    server reports success. *)
Definition velocity_set (cid : Z) (mv : Motor * float) : exchange :=
  mkExchange (Remote (vrep.simxSetJointTargetVelocity
                        cid (_handle (fst mv)) (snd mv)
                        vrep.simx_opmode_blocking))
             vrep.simx_return_ok.

(** [e] is the exchange in which the velocity of the motor of [mv] is set,
    on the connection of that motor, and the server reports success. *)
Definition velocity_served (e : exchange) (mv : Motor * float) : Prop :=
  exists cid : Z, client_id (fst mv) = Some cid /\ e = velocity_set cid mv.

(** In a run of [set_velocities] the motors before motor [j] are served:
    motor [i] is commanded in the [i]-th request of the run, with velocity
    [i], and that call returns. *)
Definition served_before (srv : server) (motors : list Motor)
  (motor_velocities : list float) (j : nat) : Prop :=
  forall (i : nat) (motor : Motor) (v : float),
    (i < j)%nat ->
    nth_error motors i = Some motor ->
    nth_error motor_velocities i = Some v ->
    fst (run_from srv i (set_velocity motor v)) = inr tt.

Definition group : collections.Collection :=
  collections.mkCollection connected "legs" 4.

(** *** Translation of status codes *)

Definition is_ok (st : Z) : bool := st =? vrep.simx_return_ok.

(** The status codes a call treats as success: 0 and, in
    [get_inv_distance] only, the no-value flag. *)
Definition accepts (op : operation) : Z -> bool :=
  match op with
  | op_get_inv_distance =>
      fun st => is_ok st || (st =? vrep.simx_return_novalue_flag)
  | _ => is_ok
  end.

(** The calls that are made through the connection. *)
Definition uses_connection (op : operation) : bool :=
  match op with
  | op_handle | op_name => false
  | _ => true
  end.

(** An exchange with the remote API whose status is not accepted. *)
Definition rejected (accepted : Z -> bool) (e : exchange) : bool :=
  match status_of e with
  | Some st => negb (accepted st)
  | None => false
  end.

(** A run in which a function of the remote API was called. *)
Definition has_remote (t : list exchange) : bool :=
  existsb (fun e => match asked e with
                    | Remote _ => true
                    | IsSimStarted => false
                    end) t.

Definition same_parameter (p q : vrep.objfloatparam) : bool :=
  match p, q with
  | vrep.sim_objfloatparam_objbbox_min_x,
    vrep.sim_objfloatparam_objbbox_min_x => true
  | vrep.sim_objfloatparam_objbbox_max_x,
    vrep.sim_objfloatparam_objbbox_max_x => true
  | vrep.sim_objfloatparam_objbbox_min_y,
    vrep.sim_objfloatparam_objbbox_min_y => true
  | vrep.sim_objfloatparam_objbbox_max_y,
    vrep.sim_objfloatparam_objbbox_max_y => true
  | vrep.sim_objfloatparam_objbbox_min_z,
    vrep.sim_objfloatparam_objbbox_min_z => true
  | vrep.sim_objfloatparam_objbbox_max_z,
    vrep.sim_objfloatparam_objbbox_max_z => true
  | _, _ => false
  end.

(** The name that [BBOX_LIMITS] gives to the limit a request asks for. *)
Definition limit_name (r : request) : string :=
  match r with
  | Remote (vrep.simxGetObjectFloatParameter _ _ parameterID _) =>
      match find (fun limit => same_parameter (snd limit) parameterID)
                 BBOX_LIMITS with
      | Some limit => fst limit
      | None => EmptyString
      end
  | _ => EmptyString
  end.

(** The message that names the call [op] and its target [self] as failed:
    the message of the [ServerError] of that call, [r] being the request
    that was refused. *)
Definition refusal (op : operation) (self : SceneObject) (r : request)
  : string :=
  match op with
  | op_handle | op_name => EmptyString
  | op_call_script_func funcname script_type _ _ _ _ =>
      format
        "Could not call function {0} from {1} script associated with {2}."
        [funcname; script_type; _name self]
  | op_copy_paste => format "Could not copy and paste {}." [_name self]
  | op_get_bbox_limits _ =>
      format "Could not retrieve {0} limit of {1} bounding box."
             [limit_name r; _name self]
  | op_get_orientation _ =>
      format "Could not retrieve orientation of {}." [_name self]
  | op_set_orientation _ _ _ =>
      format "Could not set orientation of {}." [_name self]
  | op_get_parent_handle =>
      format "Could not retrieve handle to the parent of {}." [_name self]
  | op_set_parent _ _ => format "Could not set parent of {}." [_name self]
  | op_get_position _ =>
      format "Could not retrieve position of {}." [_name self]
  | op_set_position _ _ _ =>
      format "Could not set position of {}." [_name self]
  | op_remove => format "Could not remove {}." [_name self]
  | op_set_velocity _ => format "Could not set {} velocity." [_name self]
  | op_get_inv_distance =>
      format "Could not retrieve data from {}." [_name self]
  | op_get_image _ => format "Could not retrieve image from {}." [_name self]
  end.

(** The error of a value that cannot be rounded as asked. *)
Definition rounding_error (prec : option Z) (e : exn) : Prop :=
  match prec with
  | Some _ => exists msg : string, e = OverflowError msg
  | None => False
  end.

(** The errors that the payload of an accepted answer can make a call
    raise: [copy_paste] indexes the list of handles, [get_image] steps
    through the buffer by the width, [get_bbox_limits] rounds. *)
Definition payload_error (op : operation) (e : exn) : Prop :=
  match op with
  | op_copy_paste => exists msg : string, e = IndexError msg
  | op_get_image _ => exists msg : string, e = ValueError msg
  | op_get_bbox_limits prec => rounding_error prec e
  | _ => False
  end.

(** [p] translates status codes.  In every run in which every status is
    accepted, [ServerError] is not raised and, once a function of the
    remote API was called, [p] returns unless the payload makes it raise
    one of the errors [payload].  A status that is not accepted ends the
    run at once with the [ServerError] whose message is [complaint] of the
    refused request. *)
Definition translates_status {A : Type} (accepted : Z -> bool)
  (complaint : request -> string) (payload : exn -> Prop) (p : prog A)
  : Prop :=
  forall (srv : server) (n : nat),
    (forallb (fun e => negb (rejected accepted e)) (snd (run_from srv n p))
     = true ->
     (forall msg, fst (run_from srv n p) <> inl (ServerError msg)) /\
     (has_remote (snd (run_from srv n p)) = true ->
      (exists a, fst (run_from srv n p) = inr a) \/
      (exists e, fst (run_from srv n p) = inl e /\ payload e))) /\
    (forall (before : list exchange) (e : exchange) (after : list exchange),
       snd (run_from srv n p) = before ++ e :: after ->
       rejected accepted e = true ->
       after = [] /\
       fst (run_from srv n p) = inl (ServerError (complaint (asked e)))).

(** The same discipline, read off the program: every remote call is
    followed by a check of its status.  The flag says whether a remote
    call was already made. *)
Inductive disciplined {A : Type} (accepted : Z -> bool)
  (complaint : request -> string) (payload : exn -> Prop)
  : bool -> prog A -> Prop :=
| d_return (b : bool) (a : A) :
    disciplined accepted complaint payload b (Return a)
| d_raise (e : exn) :
    is_ServerError e = false ->
    disciplined accepted complaint payload false (Raise e)
| d_payload (e : exn) :
    is_ServerError e = false ->
    payload e ->
    disciplined accepted complaint payload true (Raise e)
| d_remote (b : bool) (c : vrep.call) (k : vrep.ret c -> prog A) :
    (forall a, accepted (vrep.status c a) = true ->
               disciplined accepted complaint payload true (k a)) ->
    (forall a, accepted (vrep.status c a) = false ->
               k a = Raise (ServerError (complaint (Remote c)))) ->
    disciplined accepted complaint payload b (Call (Remote c) k)
| d_local (k : bool -> prog A) :
    (forall a, disciplined accepted complaint payload false (k a)) ->
    disciplined accepted complaint payload false (Call IsSimStarted k).

(** The errors a step that asks nothing may raise, before and after the
    first remote call. *)
Definition allowed (payload : exn -> Prop) (b : bool) (e : exn) : Prop :=
  is_ServerError e = false /\ (b = true -> payload e).

(** [p] asks nothing, and raises errors in [P] only. *)
Definition fails_only {A : Type} (P : exn -> Prop) (p : prog A) : Prop :=
  exists v : exn + A, p = eval v /\ forall e, v = inl e -> P e.

(** A server that answers every remote call with status 8. *)
Definition failing_server : server :=
  fun _ r =>
    match r return reply r with
    | Remote c =>
        match c return vrep.ret c with
        | vrep.simxGetObjectHandle _ _ _ => (8, 0)
        | vrep.simxCallScriptFunction _ _ _ _ _ _ _ _ _ => (8, [], [], [], [])
        | vrep.simxCopyPasteObjects _ _ _ => (8, [])
        | vrep.simxGetObjectFloatParameter _ _ _ _ => (8, 0%float)
        | vrep.simxGetObjectOrientation _ _ _ _ => (8, [])
        | vrep.simxSetObjectOrientation _ _ _ _ _ => 8
        | vrep.simxGetObjectParent _ _ _ => (8, 0)
        | vrep.simxSetObjectParent _ _ _ _ _ => 8
        | vrep.simxGetObjectPosition _ _ _ _ => (8, [])
        | vrep.simxSetObjectPosition _ _ _ _ _ => 8
        | vrep.simxRemoveObject _ _ _ => 8
        | vrep.simxSetJointTargetVelocity _ _ _ _ => 8
        | vrep.simxReadProximitySensor _ _ _ => (8, false, zero3, 0, zero3)
        | vrep.simxGetVisionSensorImage _ _ _ _ => (8, (0, 0), [])
        | vrep.simxGetObjectGroupData _ _ _ _ => (8, [], [], [], [])
        | vrep.simxGetCollectionHandle _ _ _ => (8, 0)
        end
    | IsSimStarted => false
    end.

(** *** Further vocabulary *)

(** [round(v, prec)] when [prec] is not [None], [v] otherwise: what
    [get_bbox_limits], [get_positions] and [get_orientations] do with a
    value. *)
Definition rounded (tie : tie_rule) (prec : option Z) (v : float)
  : exn + float :=
  match prec with
  | Some p => round tie v p
  | None => inr v
  end.

(** The [i]-th request of [get_bbox_limits] and the answer of a server to
    it. *)
Definition bbox_request (cid h : Z) (i : nat) : request :=
  Remote (vrep.simxGetObjectFloatParameter
            cid h
            (snd (nth i BBOX_LIMITS
                      (EmptyString, vrep.sim_objfloatparam_objbbox_min_x)))
            vrep.simx_opmode_blocking).

Definition bbox_answer (srv : server) (cid h : Z) (i : nat) : Z * float :=
  srv i (bbox_request cid h i).

Definition bbox_exchange (srv : server) (cid h : Z) (i : nat) : exchange :=
  mkExchange (bbox_request cid h i) (srv i (bbox_request cid h i)).

(** A server like [base] whose answers to [get_bbox_limits] are given by
    [limits]. *)
Definition with_bbox (base : server)
  (limits : vrep.objfloatparam -> Z * float) : server :=
  fun n r =>
    match r return reply r with
    | Remote c =>
        match c return vrep.ret c with
        | vrep.simxGetObjectFloatParameter _ _ parameterID _ =>
            limits parameterID
        | c' => base n (Remote c')
        end
    | IsSimStarted => base n IsSimStarted
    end.

(** A box of 2 by 1 by 3, and the same with a failure for y_min. *)
Definition box (parameterID : vrep.objfloatparam) : Z * float :=
  match parameterID with
  | vrep.sim_objfloatparam_objbbox_min_x => (0, (-1.0)%float)
  | vrep.sim_objfloatparam_objbbox_max_x => (0, 1.0%float)
  | vrep.sim_objfloatparam_objbbox_min_y => (0, (-0.5)%float)
  | vrep.sim_objfloatparam_objbbox_max_y => (0, 0.5%float)
  | vrep.sim_objfloatparam_objbbox_min_z => (0, 0.0%float)
  | vrep.sim_objfloatparam_objbbox_max_z => (0, 3.0%float)
  end.

Definition box_without_y_min (parameterID : vrep.objfloatparam)
  : Z * float :=
  match parameterID with
  | vrep.sim_objfloatparam_objbbox_min_y => (8, 0.0%float)
  | _ => box parameterID
  end.

(** A box whose x_max is the largest float. *)
Definition huge_box (parameterID : vrep.objfloatparam) : Z * float :=
  match parameterID with
  | vrep.sim_objfloatparam_objbbox_max_x =>
      (0, 1.7976931348623157e308%float)
  | _ => box parameterID
  end.

(** A server whose answer depends on the request only, not on how many
    requests came before. *)
Definition stationary (srv : server) : Prop :=
  forall (n : nat) (r : request), srv n r = srv 0%nat r.

(** The exchanges of the calls [body a] for the elements [a] of [l], one
    call after the other. *)
Definition exchanges_of {A B : Type} (srv : server) (body : A -> prog B)
  (l : list A) : list exchange :=
  concat (map (fun a => snd (run srv (body a))) l).

(** A server like [ok_server] that refuses the name "ghost" and the handle
    9. *)
Definition picky_server : server :=
  fun n r =>
    match r return reply r with
    | Remote c =>
        match c return vrep.ret c with
        | vrep.simxGetObjectHandle _ name _ =>
            if String.eqb name "ghost" then (8, 0)
            else (0, Z.of_nat (String.length name))
        | vrep.simxSetJointTargetVelocity _ h _ _ =>
            if h =? 9 then 8 else 0
        | vrep.simxReadProximitySensor _ h _ =>
            if h =? 9 then (8, false, zero3, -1, zero3)
            else if h =? 1 then (0, true, vrep.mkvec3 0 0 0.25, 3, zero3)
            else (1, false, zero3, -1, zero3)
        | c' => ok_server n (Remote c')
        end
    | IsSimStarted => false
    end.

(** *** Requests of a call *)

(** The connection a function of the client is called on: its first
    argument. *)
Definition connection_of (c : vrep.call) : Z :=
  match c with
  | vrep.simxGetObjectHandle clientID _ _ => clientID
  | vrep.simxCallScriptFunction clientID _ _ _ _ _ _ _ _ => clientID
  | vrep.simxCopyPasteObjects clientID _ _ => clientID
  | vrep.simxGetObjectFloatParameter clientID _ _ _ => clientID
  | vrep.simxGetObjectOrientation clientID _ _ _ => clientID
  | vrep.simxSetObjectOrientation clientID _ _ _ _ => clientID
  | vrep.simxGetObjectParent clientID _ _ => clientID
  | vrep.simxSetObjectParent clientID _ _ _ _ => clientID
  | vrep.simxGetObjectPosition clientID _ _ _ => clientID
  | vrep.simxSetObjectPosition clientID _ _ _ _ => clientID
  | vrep.simxRemoveObject clientID _ _ => clientID
  | vrep.simxSetJointTargetVelocity clientID _ _ _ => clientID
  | vrep.simxReadProximitySensor clientID _ _ => clientID
  | vrep.simxGetVisionSensorImage clientID _ _ _ => clientID
  | vrep.simxGetObjectGroupData clientID _ _ _ => clientID
  | vrep.simxGetCollectionHandle clientID _ _ => clientID
  end.

(** An exchange with the simulator object. *)
Definition asks_sim (e : exchange) : bool :=
  match asked e with
  | IsSimStarted => true
  | Remote _ => false
  end.

(** An exchange with the remote API on the connection [cid]. *)
Definition on_connection (cid : option Z) (e : exchange) : bool :=
  match asked e, cid with
  | Remote c, Some i => connection_of c =? i
  | _, _ => false
  end.

(** How many remote calls a call on a scene object may make, and how often
    it may ask the simulator object. *)
Definition call_budget (op : operation) : nat :=
  match op with
  | op_handle | op_name => 0
  | op_get_bbox_limits _ => length BBOX_LIMITS
  | _ => 1
  end.

Definition sim_budget (op : operation) : nat :=
  match op with
  | op_set_orientation _ _ false | op_set_position _ _ false => 1
  | _ => 0
  end.

(** [p] asks the simulator object at most [l] times, and only before its
    first remote call; it makes at most [b] remote calls, each on the
    connection [cid]. *)
Inductive frugal {A : Type} (cid : option Z) : nat -> nat -> prog A -> Prop :=
| f_return (b l : nat) (a : A) : frugal cid b l (Return a)
| f_raise (b l : nat) (e : exn) : frugal cid b l (Raise e)
| f_remote (b l : nat) (c : vrep.call) (k : vrep.ret c -> prog A) :
    cid = Some (connection_of c) ->
    (forall a, frugal cid b 0 (k a)) ->
    frugal cid (S b) l (Call (Remote c) k)
| f_local (b l : nat) (k : bool -> prog A) :
    (forall a, frugal cid b 0 (k a)) ->
    frugal cid b (S l) (Call IsSimStarted k).

(** A program that makes no request. *)
Definition silent {A : Type} (p : prog A) : Prop :=
  exists v : exn + A, p = eval v.

(** * Properties *)

(** ** The built-ins on examples *)

Example format_examples :
  format "Could not retrieve {0} limit of {1} bounding box."
         ["x_min"; "robot"]%string
  = "Could not retrieve x_min limit of robot bounding box."%string /\
  format "Could not set {} velocity." ["left"%string]
  = "Could not set left velocity."%string.
Proof. split; reflexivity. Qed.

Example range_examples :
  range 0 10 3 = inr [0; 3; 6; 9] /\
  range 5 0 (-2) = inr [5; 3; 1] /\
  range 0 6 0 = inl (ValueError "range() arg 3 must not be zero").
Proof. repeat split. Qed.

Example slice_examples :
  slice [1; 2; 3; 4; 5] 3 10 = [4; 5] /\
  slice [1; 2; 3; 4; 5] (-4) (-1) = [2; 3; 4] /\
  getitem [1; 2; 3] (-1) = inr 3 /\
  getitem [1; 2; 3] 3 = inl (IndexError "list index out of range").
Proof. repeat split. Qed.

Example round_examples :
  round half_even 0.125 2 = inr 0.12%float /\
  round half_away 0.125 2 = inr 0.13%float /\
  round half_even 2.675 2 = inr 2.67%float /\
  round half_even 1250 (-2) = inr 1200%float /\
  round half_even (-1250) (-2) = inr (-1200)%float /\
  round half_even (-12.5) (-1) = inr (-10)%float /\
  round half_away (-12.5) (-1) = inr (-10)%float /\
  round half_even (-0.125) 2 = inr (-0.12)%float /\
  round half_even (-4) (-1) = inr (-0.0)%float /\
  round half_even 1.7976931348623157e308 (-308)
  = inl (OverflowError "rounded value too large to represent").
Proof. repeat split. Qed.

(** ** Runs of composed programs *)

(** A program that raises does so whatever follows it. *)
Lemma run_from_bind_raise :
  forall (A B : Type) (srv : server) (p : prog A) (f : A -> prog B)
         (e : exn) (t : list exchange) (n : nat),
    run_from srv n p = (inl e, t) ->
    run_from srv n (bind p f) = (inl e, t).
Proof.
  intros A B srv p f. induction p as [a | e0 | r k IH]; intros e t n Hp.
  - discriminate Hp.
  - cbn in Hp |- *. now inversion Hp.
  - cbn [bind run_from] in Hp |- *.
    destruct (run_from srv (S n) (k (srv n r))) as [o t'] eqn:E.
    inversion Hp; subst. now rewrite (IH _ e t' (S n) E).
Qed.

(** What follows a program that returns. *)
Lemma run_from_bind_return :
  forall (A B : Type) (srv : server) (p : prog A) (f : A -> prog B)
         (a : A) (t : list exchange) (n : nat),
    run_from srv n p = (inr a, t) ->
    run_from srv n (bind p f)
    = (fst (run_from srv (n + length t) (f a)),
       t ++ snd (run_from srv (n + length t) (f a))).
Proof.
  intros A B srv p f. induction p as [a0 | e0 | r k IH]; intros a t n Hp.
  - cbn in Hp. inversion Hp; subst. cbn [bind length app].
    rewrite Nat.add_0_r. now destruct (run_from srv n (f a)).
  - discriminate Hp.
  - cbn [bind run_from] in Hp |- *.
    destruct (run_from srv (S n) (k (srv n r))) as [o t'] eqn:E.
    inversion Hp; subst. rewrite (IH _ a t' (S n) E).
    cbn [length app]. now rewrite Nat.add_succ_r.
Qed.

(** ** Construction *)

(** C10: a scene object constructed with an empty name or with [None]
    is built without any request, whatever the connection; its [handle]
    and [name] properties then return [None].  Moreover the [name]
    property of no object returns the placeholder ["_Unnamed_"]. *)
Theorem C10_unnamed_construction :
  forall (name : option string) (vrep_sim : base.Simulator),
    truthy name = false ->
    (exists self : SceneObject,
       __init__ name vrep_sim = Return self /\
       handle self = Return None /\
       objects.name self = Return None) /\
    (forall (self : SceneObject) (s : string),
       objects.name self = Return (Some s) -> s <> "_Unnamed_"%string).
Proof.
  intros name vrep_sim Hname. split.
  - exists (mkSceneObject vrep_sim "_Unnamed_" (-1)).
    destruct name as [[|c s]|]; try discriminate Hname; repeat split.
  - intros self s. unfold objects.name.
    destruct (_handle self =? -2); [discriminate|].
    destruct (String.eqb (_name self) "_Unnamed_") eqn:E; simpl;
      [discriminate|].
    intros H; injection H as <-. now apply String.eqb_neq.
Qed.

Lemma C10_witness :
  (exists self : SceneObject,
     __init__ (Some EmptyString) disconnected = Return self /\
     handle self = Return None /\
     objects.name self = Return None) /\
  (forall (self : SceneObject) (s : string),
     objects.name self = Return (Some s) -> s <> "_Unnamed_"%string).
Proof.
  apply (C10_unnamed_construction (Some EmptyString) disconnected).
  reflexivity.
Defined.

(** C6, as stated, fails: the constructor stores the handle of a success
    answer without looking at it.  A success answer that carries -2 builds
    an object that behaves as a removed one, and one that carries -1 builds
    an object without a handle: neither is Live. *)
Lemma C6_counterexample :
  step (__init__ (Some "robot"%string) connected)
       (Remote (vrep.simxGetObjectHandle 0 "robot" vrep.simx_opmode_blocking))
       (vrep.simx_return_ok, -2) (Return removed_object) /\
  handle removed_object
  = Raise (RuntimeError
      "Could not retrieve handle to robot: object removed.") /\
  get_position removed_object PyNone
  = Raise (RuntimeError
      "Could not retrieve position of robot: object removed.") /\
  step (__init__ (Some "robot"%string) connected)
       (Remote (vrep.simxGetObjectHandle 0 "robot" vrep.simx_opmode_blocking))
       (vrep.simx_return_ok, -1)
       (Return (mkSceneObject connected "robot" (-1))) /\
  handle (mkSceneObject connected "robot" (-1)) = Return None.
Proof.
  repeat split; try reflexivity; econstructor; reflexivity.
Qed.

(** C6, amended: construction with a name that is not empty.  Without a
    connection the constructors of [SceneObject] (and so of [Dummy],
    [Motor], [ProximitySensor] and [VisionSensor]) and of [Collection]
    raise [ConnectionError] and ask nothing.  With a connection they look
    the name up; a status that is not success makes them raise
    [ServerError], and no object is built; on success the object holds the
    handle the server returned, whatever it is.  A scene object is then
    Live, its [handle] property returning that handle, exactly when the
    handle is not negative: with -1 the property returns [None], with -2 it
    raises the error of a removed object, and with any other negative
    handle the error of an invalid handle. *)
Theorem C6_named_construction :
  forall (EMPTY_NAME name : string) (vrep_sim : base.Simulator),
    name <> EmptyString ->
    (base.client_id vrep_sim = None ->
       (exists msg, __init__ (Some name) vrep_sim
                    = Raise (ConnectionError msg)) /\
       (exists msg, collections.__init__ EMPTY_NAME (Some name) vrep_sim
                    = Raise (ConnectionError msg))) /\
    (forall client_id res h,
       base.client_id vrep_sim = Some client_id ->
       res <> vrep.simx_return_ok ->
       (exists msg,
          step (__init__ (Some name) vrep_sim)
               (Remote (vrep.simxGetObjectHandle
                          client_id name vrep.simx_opmode_blocking))
               (res, h) (Raise (ServerError msg))) /\
       (exists msg,
          step (collections.__init__ EMPTY_NAME (Some name) vrep_sim)
               (Remote (vrep.simxGetCollectionHandle
                          client_id name vrep.simx_opmode_blocking))
               (res, h) (Raise (ServerError msg)))) /\
    (forall client_id h,
       base.client_id vrep_sim = Some client_id ->
       step (__init__ (Some name) vrep_sim)
            (Remote (vrep.simxGetObjectHandle
                       client_id name vrep.simx_opmode_blocking))
            (vrep.simx_return_ok, h)
            (Return (mkSceneObject vrep_sim name h)) /\
       step (collections.__init__ EMPTY_NAME (Some name) vrep_sim)
            (Remote (vrep.simxGetCollectionHandle
                       client_id name vrep.simx_opmode_blocking))
            (vrep.simx_return_ok, h)
            (Return (collections.mkCollection vrep_sim name h)) /\
       (0 <= h ->
        handle (mkSceneObject vrep_sim name h) = Return (Some h)) /\
       (forall h', handle (mkSceneObject vrep_sim name h) = Return (Some h') ->
                   0 <= h /\ h' = h) /\
       (h = -1 ->
        handle (mkSceneObject vrep_sim name h) = Return None) /\
       (h = -2 ->
        handle (mkSceneObject vrep_sim name h)
        = Raise (RuntimeError (format
            "Could not retrieve handle to {}: object removed." [name]))) /\
       (h < -2 ->
        handle (mkSceneObject vrep_sim name h)
        = Raise (RuntimeError (format
            "Could not retrieve handle to {}: invalid handle." [name])))).
Proof.
  intros EMPTY_NAME name vrep_sim Hname.
  destruct name as [|c s]; [congruence|]. clear Hname.
  split; [|split].
  - intros Hc. unfold __init__, collections.__init__, _get_handle,
      collections._get_handle. rewrite Hc. split; eexists; reflexivity.
  - intros cid res h Hc Hres. apply Z.eqb_neq in Hres.
    unfold __init__, collections.__init__, _get_handle,
      collections._get_handle. rewrite Hc.
    split; eexists; (econstructor; [reflexivity|]); cbn; rewrite Hres;
      reflexivity.
  - intros cid h Hc.
    unfold __init__, collections.__init__, _get_handle,
      collections._get_handle. rewrite Hc.
    split; [econstructor; reflexivity|].
    split; [econstructor; reflexivity|].
    unfold handle. cbn [_handle _name].
    split; [|split; [|split; [|split]]].
    + intros Hh. apply Z.leb_le in Hh. now rewrite Hh.
    + intros h'. destruct (Z.leb_spec 0 h) as [Hh | Hh].
      * intros H. inversion H. subst. split; [assumption | reflexivity].
      * destruct (h =? -1); [discriminate|].
        destruct (h =? -2); discriminate.
    + intros H. subst h. reflexivity.
    + intros H. subst h. reflexivity.
    + intros Hh.
      destruct (Z.leb_spec 0 h) as [H0 | H0]; [lia|].
      destruct (Z.eqb_spec h (-1)) as [H1 | H1]; [lia|].
      destruct (Z.eqb_spec h (-2)) as [H2 | H2]; [lia|].
      reflexivity.
Qed.

Lemma C6_witness :
  (exists msg, __init__ (Some "robot"%string) disconnected
               = Raise (ConnectionError msg)) /\
  (exists msg,
     step (__init__ (Some "robot"%string) connected)
          (Remote (vrep.simxGetObjectHandle
                     0 "robot" vrep.simx_opmode_blocking))
          (8, 0) (Raise (ServerError msg))) /\
  step (__init__ (Some "robot"%string) connected)
       (Remote (vrep.simxGetObjectHandle 0 "robot" vrep.simx_opmode_blocking))
       (0, 7) (Return live_object) /\
  step (collections.__init__ "_" (Some "robot"%string) connected)
       (Remote (vrep.simxGetCollectionHandle
                  0 "robot" vrep.simx_opmode_blocking))
       (0, 7) (Return (collections.mkCollection connected "robot" 7)) /\
  handle live_object = Return (Some 7).
Proof.
  assert (Hname : "robot"%string <> EmptyString) by discriminate.
  destruct (C6_named_construction "_" "robot" disconnected Hname)
    as (Hnone & _ & _).
  destruct (C6_named_construction "_" "robot" connected Hname)
    as (_ & Hfail & Hok).
  split; [apply Hnone; reflexivity|].
  split; [apply (Hfail 0 8 0); [reflexivity|discriminate]|].
  destruct (Hok 0 7 eq_refl) as (H1 & H2 & H3 & _).
  split; [exact H1|]. split; [exact H2|]. apply H3. lia.
Defined.

(** ** Local failures *)

(** C7, as stated, fails: an unsupported script type makes
    [call_script_func] raise [ValueError], and a handle source of an
    unsupported type makes [get_handle] raise [TypeError]; neither is a
    [RuntimeError]. *)
Lemma C7_counterexample :
  call_script_func live_object "init" "main" [] [] [] []
  = Raise (ValueError "Script type is not supported.") /\
  is_RuntimeError (ValueError "Script type is not supported.") = false /\
  get_handle PyOther "relative"
  = Raise (TypeError "Type of relative is not supported.") /\
  is_RuntimeError (TypeError "Type of relative is not supported.") = false.
Proof. repeat split. Qed.

(** C7, amended: a missing collection name and a removed or invalid handle
    raise [RuntimeError]; an unsupported script type raises [ValueError],
    whatever the state of the object; a handle source of an unsupported
    type raises [TypeError], and a scene object that has no handle, given
    as handle source, raises [ValueError]. *)
Theorem C7_local_failures :
  forall (self : SceneObject) (funcname script_type : string)
         (args_int : list Z) (args_float : list float)
         (args_string : list string) (args_buf : list Z)
         (name EMPTY_NAME : string) (collection_name : option string)
         (vrep_sim : base.Simulator),
    (script_type <> "child"%string ->
     script_type <> "customization"%string ->
     call_script_func self funcname script_type args_int args_float
       args_string args_buf
     = Raise (ValueError "Script type is not supported.")) /\
    get_handle PyOther name
    = Raise (TypeError (format "Type of {} is not supported." [name])) /\
    (_handle self = -1 ->
     get_handle (PySceneObject self) name
     = Raise (ValueError (format "Handle of {} is invalid." [name]))) /\
    (_handle self = -2 ->
     handle self
     = Raise (RuntimeError (format
         "Could not retrieve handle to {}: object removed." [_name self]))) /\
    (_handle self < -2 ->
     handle self
     = Raise (RuntimeError (format
         "Could not retrieve handle to {}: invalid handle." [_name self]))) /\
    (truthy collection_name = false ->
     collections.__init__ EMPTY_NAME collection_name vrep_sim
     = Raise (RuntimeError (format
         "Could not retrieve handle to {}: missing name." [EMPTY_NAME]))).
Proof.
  intros. repeat split.
  - intros H1 H2. apply String.eqb_neq in H1, H2.
    unfold call_script_func, ASSOC_SCRIPT_TYPES, lookup.
    rewrite (String.eqb_sym "child"), H1.
    rewrite (String.eqb_sym "customization"), H2. reflexivity.
  - intros H. unfold get_handle, handle. rewrite H. reflexivity.
  - intros H. unfold handle. rewrite H. reflexivity.
  - intros H. unfold handle.
    destruct (Z.leb_spec 0 (_handle self)); [lia|].
    destruct (Z.eqb_spec (_handle self) (-1)); [lia|].
    destruct (Z.eqb_spec (_handle self) (-2)); [lia|]. reflexivity.
  - intros H. destruct collection_name as [[|c s]|]; try discriminate H;
      reflexivity.
Qed.

Lemma C7_witness :
  call_script_func removed_object "init" "main" [] [] [] []
  = Raise (ValueError "Script type is not supported.") /\
  get_handle (PySceneObject unnamed_object) "parent"
  = Raise (ValueError "Handle of parent is invalid.") /\
  handle removed_object
  = Raise (RuntimeError "Could not retrieve handle to robot: object removed.") /\
  handle (mkSceneObject connected "robot" (-3))
  = Raise (RuntimeError "Could not retrieve handle to robot: invalid handle.") /\
  collections.__init__ "_" None disconnected
  = Raise (RuntimeError "Could not retrieve handle to _: missing name.").
Proof.
  split.
  { apply (C7_local_failures removed_object "init" "main" [] [] [] []
             "parent" "_" None disconnected); discriminate. }
  split.
  { apply (C7_local_failures unnamed_object "init" "main" [] [] [] []
             "parent" "_" None disconnected). reflexivity. }
  split.
  { apply (C7_local_failures removed_object "init" "main" [] [] [] []
             "parent" "_" None disconnected). reflexivity. }
  split.
  { apply (C7_local_failures (mkSceneObject connected "robot" (-3))
             "init" "main" [] [] [] [] "parent" "_" None disconnected).
    reflexivity. }
  apply (C7_local_failures removed_object "init" "main" [] [] [] []
           "parent" "_" None disconnected). reflexivity.
Defined.

(** ** Proximity sensor *)

(** C5: on a sensor that is not removed and has a connection,
    [get_inv_distance] reads the sensor once and returns 0.0 when the
    server reports success and no detection, 0.0 again when it reports the
    no-value status (whatever the payload), and 1.0 minus the third
    coordinate of the detected point when it reports success and a
    detection. *)
Theorem C5_inverted_distance :
  forall (self : ProximitySensor) (cid : Z),
    _handle self <> -2 ->
    client_id self = Some cid ->
    forall (detect : bool) (point normal : vrep.vec3) (object : Z),
      let read := Remote (vrep.simxReadProximitySensor
                            cid (_handle self) vrep.simx_opmode_blocking) in
      step (get_inv_distance self) read
           (vrep.simx_return_ok, false, point, object, normal)
           (Return 0.0%float) /\
      step (get_inv_distance self) read
           (vrep.simx_return_novalue_flag, detect, point, object, normal)
           (Return 0.0%float) /\
      step (get_inv_distance self) read
           (vrep.simx_return_ok, true, point, object, normal)
           (Return (1.0 - vrep.z point)%float).
Proof.
  intros self cid Hlive Hcid detect point normal object read.
  apply Z.eqb_neq in Hlive.
  unfold get_inv_distance. rewrite Hlive, Hcid.
  repeat split; econstructor; reflexivity.
Qed.

Lemma C5_witness :
  step (get_inv_distance live_object)
       (Remote (vrep.simxReadProximitySensor 0 7 vrep.simx_opmode_blocking))
       (0, false, zero3, -1, zero3) (Return 0.0%float) /\
  step (get_inv_distance live_object)
       (Remote (vrep.simxReadProximitySensor 0 7 vrep.simx_opmode_blocking))
       (1, true, vrep.mkvec3 0 0 0.25, 3, zero3) (Return 0.0%float) /\
  step (get_inv_distance live_object)
       (Remote (vrep.simxReadProximitySensor 0 7 vrep.simx_opmode_blocking))
       (0, true, vrep.mkvec3 0 0 0.25, 3, zero3) (Return 0.75%float).
Proof.
  assert (Hlive : _handle live_object <> -2) by discriminate.
  split; [|split].
  - apply (C5_inverted_distance live_object 0 Hlive eq_refl
             false zero3 zero3 (-1)).
  - apply (C5_inverted_distance live_object 0 Hlive eq_refl
             true (vrep.mkvec3 0 0 0.25) zero3 3).
  - apply (C5_inverted_distance live_object 0 Hlive eq_refl
             true (vrep.mkvec3 0 0 0.25) zero3 3).
Defined.

(** ** Simulation guard *)

(** A handle source resolves without any request. *)
Lemma get_handle_local :
  forall (scene_obj : handle_source) (name : string),
    (exists h, get_handle scene_obj name = Return h) \/
    (exists e, get_handle scene_obj name = Raise e).
Proof.
  intros [| i | o |] name; cbn; eauto.
  unfold handle.
  destruct (0 <=? _handle o); cbn; eauto.
  destruct (_handle o =? -1); cbn; eauto.
  destruct (_handle o =? -2); cbn; eauto.
Qed.

(** C3: on an object that is not removed and has a connection,
    [set_position] and [set_orientation] called without [allow_in_sim] ask
    the simulator first and raise [SimulationError] as soon as it reports a
    started simulation, before any remote call.  Called with
    [allow_in_sim=True] they are the programs that follow the check: the
    simulator is never asked, and when the reference object resolves to a
    handle the first request is the remote set call, which returns on
    success. *)
Theorem C3_simulation_guard :
  forall (self : SceneObject) (cid : Z) (values : list float)
         (relative : handle_source),
    _handle self <> -2 ->
    client_id self = Some cid ->
    (step (set_position self values relative false) IsSimStarted true
       (Raise (SimulationError (format
          "Could not set position of {}: setting position not allowed during simulation."
          [_name self]))) /\
     step (set_orientation self values relative false) IsSimStarted true
       (Raise (SimulationError (format
          "Could not set orientation of {}: setting orientation not allowed during simulation."
          [_name self])))) /\
    (step (set_position self values relative false) IsSimStarted false
       (set_position self values relative true) /\
     step (set_orientation self values relative false) IsSimStarted false
       (set_orientation self values relative true)) /\
    (forall srv : server,
       ~ In IsSimStarted
            (requests (snd (run srv (set_position self values relative
                                       true)))) /\
       ~ In IsSimStarted
            (requests (snd (run srv (set_orientation self values relative
                                       true))))) /\
    (forall relative_handle : Z,
       get_handle relative "relative" = Return relative_handle ->
       step (set_position self values relative true)
            (Remote (vrep.simxSetObjectPosition
                       cid (_handle self) relative_handle values
                       vrep.simx_opmode_blocking))
            vrep.simx_return_ok (Return tt) /\
       step (set_orientation self values relative true)
            (Remote (vrep.simxSetObjectOrientation
                       cid (_handle self) relative_handle values
                       vrep.simx_opmode_blocking))
            vrep.simx_return_ok (Return tt)).
Proof.
  intros self cid values relative Hlive Hcid.
  apply Z.eqb_neq in Hlive.
  unfold set_position, set_orientation. rewrite Hlive, Hcid.
  split; [|split; [|split]].
  - split; econstructor; reflexivity.
  - split; econstructor; reflexivity.
  - intros srv. cbn [negb bind].
    destruct (get_handle_local relative "relative") as [[h ->] | [e ->]];
      unfold run, remote; cbn [bind run_from].
    + split.
      * destruct (negb _); cbn; intros [H | []]; discriminate H.
      * destruct (negb _); cbn; intros [H | []]; discriminate H.
    + split; cbn; tauto.
  - intros rh ->. split; econstructor; reflexivity.
Qed.

Lemma C3_witness :
  step (set_position live_object [1.0; 2.0; 0.5]%float PyNone false)
       IsSimStarted true
       (Raise (SimulationError
          "Could not set position of robot: setting position not allowed during simulation.")) /\
  step (set_orientation live_object [0.0; 0.0; 1.5]%float PyNone true)
       (Remote (vrep.simxSetObjectOrientation
                  0 7 (-1) [0.0; 0.0; 1.5]%float vrep.simx_opmode_blocking))
       0 (Return tt).
Proof.
  assert (Hlive : _handle live_object <> -2) by discriminate.
  split.
  - apply (C3_simulation_guard live_object 0 [1.0; 2.0; 0.5]%float PyNone
             Hlive eq_refl).
  - apply (C3_simulation_guard live_object 0 [0.0; 0.0; 1.5]%float PyNone
             Hlive eq_refl). reflexivity.
Defined.

(** ** Removal *)









(** ** Motor array *)

Lemma getitem_nth_error :
  forall (A : Type) (l : list A) (k : nat) (a : A),
    nth_error l k = Some a -> getitem l (Z.of_nat k) = inr a.
Proof.
  intros A l k a H. unfold getitem, len.
  assert (Hk : (k < length l)%nat) by (apply nth_error_Some; congruence).
  destruct (Z.ltb_spec (Z.of_nat k) 0); [lia|].
  destruct (Z.ltb_spec (Z.of_nat k) 0); [lia|].
  destruct (Z.leb_spec (Z.of_nat (length l)) (Z.of_nat k)); [lia|].
  cbn. now rewrite Nat2Z.id, H.
Qed.

Lemma getitem_out_of_range :
  forall (A : Type) (l : list A) (k : nat),
    (length l <= k)%nat ->
    getitem l (Z.of_nat k) = inl (IndexError "list index out of range").
Proof.
  intros A l k H. unfold getitem, len.
  destruct (Z.ltb_spec (Z.of_nat k) 0); [lia|].
  destruct (Z.ltb_spec (Z.of_nat k) 0); [lia|].
  destruct (Z.leb_spec (Z.of_nat (length l)) (Z.of_nat k)); [|lia].
  reflexivity.
Qed.

Lemma skipn_cons_nth_error :
  forall (A : Type) (l : list A) (k : nat) (a : A),
    nth_error l k = Some a -> skipn k l = a :: skipn (S k) l.
Proof.
  intros A l. induction l as [|b l IH]; intros [|k] a H; try discriminate H.
  - now inversion H.
  - cbn in H. cbn [skipn]. now apply IH.
Qed.

Section SetVelocities.

Variables (srv : server) (cid : Z) (motor_velocities : list float).

Hypothesis srv_ok :
  forall (n : nat) (h : Z) (v : float),
    srv n (Remote (vrep.simxSetJointTargetVelocity
                     cid h v vrep.simx_opmode_blocking))
    = vrep.simx_return_ok.

(** The loop of [set_velocities] from the [k]-th motor on. *)
Lemma set_velocities_from :
  forall (motors : list Motor) (k n : nat),
    (k <= length motor_velocities)%nat ->
    (length motor_velocities < k + length motors)%nat ->
    (forall motor,
       In motor (firstn (length motor_velocities - k) motors) ->
       _handle motor <> -2 /\ client_id motor = Some cid) ->
    run_from srv n
      (for_each (enumerate_from (Z.of_nat k) motors) (fun '(m, motor) =>
         bind (eval (getitem motor_velocities m))
              (fun velocity => set_velocity motor velocity)))
    = (inl (IndexError "list index out of range"),
       map (velocity_set cid) (combine motors (skipn k motor_velocities))).
Proof.
  induction motors as [|motor motors IH]; intros k n Hk Hlen Hlive.
  - cbn in Hlen. lia.
  - cbn [enumerate_from for_each].
    destruct (Nat.eq_dec k (length motor_velocities)) as [-> | Hne].
    + rewrite getitem_out_of_range by lia.
      rewrite skipn_all. reflexivity.
    + destruct (nth_error motor_velocities k) as [v|] eqn:Hv.
      2:{ apply nth_error_None in Hv. lia. }
      rewrite (getitem_nth_error _ _ _ _ Hv).
      rewrite (skipn_cons_nth_error _ _ _ _ Hv).
      assert (Hin : In motor (firstn (length motor_velocities - k)
                                (motor :: motors))).
      { destruct (length motor_velocities - k)%nat eqn:E; [lia|].
        now left. }
      destruct (Hlive motor Hin) as [Hh Hc]. apply Z.eqb_neq in Hh.
      cbn [eval bind]. unfold set_velocity. rewrite Hh, Hc.
      unfold remote. cbn [bind run_from]. rewrite srv_ok.
      cbn [Z.eqb vrep.simx_return_ok negb bind].
      replace (Z.of_nat k + 1) with (Z.of_nat (S k)) by lia.
      rewrite IH.
      * reflexivity.
      * lia.
      * cbn in Hlen. lia.
      * intros m Hm. apply Hlive.
        replace (length motor_velocities - k)%nat
          with (S (length motor_velocities - S k)) by lia.
        now right.
Qed.

End SetVelocities.

(** C9, as stated, fails: the velocity list is indexed motor by motor, after
    the preceding motors were served, so an earlier failure comes first.
    With three motors, two velocities and no connection the first motor
    raises [ConnectionError]. *)
Lemma C9_counterexample :
  (length [1.0; 2.0]%float < length (_motors (three_motors disconnected)))%nat
  /\
  set_velocities (three_motors disconnected) [1.0; 2.0]%float
  = Raise (ConnectionError
      "Could not set left velocity: not connected to V-REP remote API server.").
Proof. split; [cbn; lia | reflexivity]. Qed.

(** A [set_velocity] that returns has made one request, on the connection
    of the motor, answered with success. *)
Lemma set_velocity_returns :
  forall (srv : server) (n : nat) (motor : Motor) (v : float),
    fst (run_from srv n (set_velocity motor v)) = inr tt ->
    exists cid : Z,
      client_id motor = Some cid /\
      run_from srv n (set_velocity motor v)
      = (inr tt, [velocity_set cid (motor, v)]).
Proof.
  intros srv n motor v. unfold set_velocity.
  destruct (_handle motor =? -2); [discriminate|].
  destruct (client_id motor) as [cid|]; [|discriminate].
  unfold remote. cbn [bind run_from].
  destruct (Z.eqb_spec
              (srv n (Remote (vrep.simxSetJointTargetVelocity
                                cid (_handle motor) v
                                vrep.simx_opmode_blocking)))
              vrep.simx_return_ok) as [E | E]; cbn [negb run_from fst];
    [|discriminate].
  intros _. exists cid. split; [reflexivity|].
  unfold velocity_set. cbn [fst snd]. now rewrite E.
Qed.

Section VelocityLoopAnyServer.

Variables (srv : server) (motor_velocities : list float).

Let body : Z * Motor -> prog unit :=
  fun '(m, motor) =>
    bind (eval (getitem motor_velocities m))
         (fun velocity => set_velocity motor velocity).

(** The loop from motor [k] on, when the motors that have a velocity are
    served. *)
Lemma velocity_loop_short :
  forall (motors : list Motor) (k : nat),
    (k <= length motor_velocities)%nat ->
    (length motor_velocities < k + length motors)%nat ->
    (forall (i : nat) (motor : Motor) (v : float),
       nth_error motors i = Some motor ->
       nth_error motor_velocities (k + i) = Some v ->
       fst (run_from srv (k + i) (set_velocity motor v)) = inr tt) ->
    exists t : list exchange,
      run_from srv k (for_each (enumerate_from (Z.of_nat k) motors) body)
      = (inl (IndexError "list index out of range"), t) /\
      Forall2 velocity_served t
              (combine motors (skipn k motor_velocities)).
Proof.
  induction motors as [|motor motors IH]; intros k Hk Hlen Hok.
  - cbn in Hlen. lia.
  - cbn [enumerate_from for_each]. unfold body at 1.
    destruct (Nat.eq_dec k (length motor_velocities)) as [-> | Hne].
    + rewrite getitem_out_of_range by lia. rewrite skipn_all.
      exists []. split; [reflexivity | constructor].
    + destruct (nth_error motor_velocities k) as [v|] eqn:Hv.
      2:{ apply nth_error_None in Hv. lia. }
      rewrite (getitem_nth_error _ _ _ _ Hv).
      rewrite (skipn_cons_nth_error _ _ _ _ Hv).
      cbn [eval bind combine].
      assert (H0 : fst (run_from srv k (set_velocity motor v)) = inr tt).
      { rewrite <- (Nat.add_0_r k) at 1. apply Hok; [reflexivity|].
        now rewrite Nat.add_0_r. }
      destruct (set_velocity_returns srv k motor v H0) as (cid & Hcid & Hrun).
      rewrite (run_from_bind_return _ _ srv _ _ tt _ k Hrun).
      cbn [length]. replace (k + 1)%nat with (S k) by lia.
      replace (Z.of_nat k + 1) with (Z.of_nat (S k)) by lia.
      destruct (IH (S k)) as (t & Ht & Hall).
      * lia.
      * cbn [length] in Hlen. lia.
      * intros i m v' Hm Hv'. rewrite Nat.add_succ_comm.
        apply Hok; [exact Hm | now rewrite <- Nat.add_succ_comm].
      * rewrite Ht. cbn [fst snd app].
        exists (velocity_set cid (motor, v) :: t).
        split; [reflexivity|]. constructor; [|exact Hall].
        exists cid. now split.
Qed.

(** The loop from motor [k] on, when motor [k + j] is the first whose
    [set_velocity] raises. *)
Lemma velocity_loop_first_failure :
  forall (j : nat) (motors : list Motor) (k : nat) (bad : Motor)
         (v : float) (e : exn),
    nth_error motors j = Some bad ->
    nth_error motor_velocities (k + j) = Some v ->
    (forall (i : nat) (motor : Motor) (v' : float),
       (i < j)%nat ->
       nth_error motors i = Some motor ->
       nth_error motor_velocities (k + i) = Some v' ->
       fst (run_from srv (k + i) (set_velocity motor v')) = inr tt) ->
    fst (run_from srv (k + j) (set_velocity bad v)) = inl e ->
    exists t : list exchange,
      run_from srv k (for_each (enumerate_from (Z.of_nat k) motors) body)
      = (inl e, t ++ snd (run_from srv (k + j) (set_velocity bad v))) /\
      Forall2 velocity_served t
              (combine (firstn j motors) (skipn k motor_velocities)).
Proof.
  induction j as [|j IH]; intros motors k bad v e Hbad Hv Hok He.
  - destruct motors as [|motor motors]; [discriminate Hbad|].
    cbn in Hbad. inversion Hbad; subst motor.
    rewrite Nat.add_0_r in Hv, He |- *.
    cbn [enumerate_from for_each firstn combine]. unfold body at 1.
    rewrite (getitem_nth_error _ _ _ _ Hv). cbn [eval bind].
    exists []. split; [|constructor]. cbn [app].
    apply run_from_bind_raise.
    destruct (run_from srv k (set_velocity bad v)) as [o t].
    cbn [fst snd] in He |- *. now subst o.
  - destruct motors as [|motor motors]; [discriminate Hbad|].
    cbn [nth_error] in Hbad.
    destruct (nth_error motor_velocities k) as [v0|] eqn:Hv0.
    2:{ apply nth_error_None in Hv0.
        assert (nth_error motor_velocities (k + S j) = None)
          by (apply nth_error_None; lia).
        congruence. }
    cbn [enumerate_from for_each firstn]. unfold body at 1.
    rewrite (getitem_nth_error _ _ _ _ Hv0).
    rewrite (skipn_cons_nth_error _ _ _ _ Hv0).
    cbn [eval bind combine].
    assert (H0 : fst (run_from srv k (set_velocity motor v0)) = inr tt).
    { rewrite <- (Nat.add_0_r k) at 1. apply Hok; [lia | reflexivity |].
      now rewrite Nat.add_0_r. }
    destruct (set_velocity_returns srv k motor v0 H0) as (cid & Hcid & Hrun).
    rewrite (run_from_bind_return _ _ srv _ _ tt _ k Hrun).
    cbn [length]. replace (k + 1)%nat with (S k) by lia.
    replace (Z.of_nat k + 1) with (Z.of_nat (S k)) by lia.
    rewrite <- Nat.add_succ_comm in Hv, He |- *.
    destruct (IH motors (S k) bad v e Hbad Hv) as (t & Ht & Hall).
    + intros i m v' Hi Hm Hv'. rewrite Nat.add_succ_comm.
      apply Hok; [lia | exact Hm | now rewrite <- Nat.add_succ_comm].
    + exact He.
    + rewrite Ht. cbn [fst snd app].
      exists (velocity_set cid (motor, v0) :: t).
      split; [reflexivity|]. constructor; [|exact Hall].
      exists cid. now split.
Qed.

End VelocityLoopAnyServer.

(** Either the motors before [j] are all served, or one of them is the
    first whose [set_velocity] raises. *)
Lemma served_or_first_failure :
  forall (srv : server) (motors : list Motor) (motor_velocities : list float)
         (j : nat),
    (j <= length motors)%nat ->
    (j <= length motor_velocities)%nat ->
    served_before srv motors motor_velocities j \/
    exists (i : nat) (bad : Motor) (v : float) (e : exn),
      (i < j)%nat /\
      nth_error motors i = Some bad /\
      nth_error motor_velocities i = Some v /\
      served_before srv motors motor_velocities i /\
      fst (run_from srv i (set_velocity bad v)) = inl e.
Proof.
  intros srv motors vs j. induction j as [|j IH]; intros Hm Hv.
  - left. intros i motor v Hi. lia.
  - destruct IH as [Hserved | (i & bad & v & e & Hi & H1 & H2 & H3 & H4)];
      [lia | lia | |].
    + destruct (nth_error motors j) as [motor|] eqn:Emotor.
      2:{ apply nth_error_None in Emotor. lia. }
      destruct (nth_error vs j) as [v|] eqn:Ev.
      2:{ apply nth_error_None in Ev. lia. }
      destruct (fst (run_from srv j (set_velocity motor v))) as [e|[]] eqn:E.
      * right. exists j, motor, v, e. repeat split; auto.
      * left. intros i m v' Hi Hm' Hv'.
        destruct (Nat.eq_dec i j) as [-> | Hne].
        -- rewrite Emotor in Hm'. rewrite Ev in Hv'.
           inversion Hm'; inversion Hv'; subst. exact E.
        -- apply Hserved; [lia | exact Hm' | exact Hv'].
    + right. exists i, bad, v, e. repeat split; auto.
Qed.

(** C9, amended: [set_velocities] with fewer velocities than motors, for
    every server.  When the velocity of each motor that has one is set
    with success (the motor is not removed, there is a connection and the
    server reports success), the call raises [IndexError] at the first
    motor without a velocity, after exactly those motors were served, in
    order.  Otherwise the error of the first motor whose [set_velocity]
    raises is raised instead: the motors before it have been served, and
    no motor after it is commanded.  One of the two always applies, so the
    call never returns. *)
Theorem C9_short_velocity_list :
  forall (self : MotorArray) (motor_velocities : list float) (srv : server),
    (length motor_velocities < length (_motors self))%nat ->
    (forall cid : Z,
       (forall motor,
          In motor (firstn (length motor_velocities) (_motors self)) ->
          _handle motor <> -2 /\ client_id motor = Some cid) ->
       (forall (n : nat) (h : Z) (v : float),
          srv n (Remote (vrep.simxSetJointTargetVelocity
                           cid h v vrep.simx_opmode_blocking))
          = vrep.simx_return_ok) ->
       run srv (set_velocities self motor_velocities)
       = (inl (IndexError "list index out of range"),
          map (velocity_set cid)
              (combine (_motors self) motor_velocities))) /\
    (served_before srv (_motors self) motor_velocities
                   (length motor_velocities) ->
     fst (run srv (set_velocities self motor_velocities))
     = inl (IndexError "list index out of range") /\
     Forall2 velocity_served
             (snd (run srv (set_velocities self motor_velocities)))
             (combine (_motors self) motor_velocities)) /\
    (forall (j : nat) (bad : Motor) (v : float) (e : exn),
       nth_error (_motors self) j = Some bad ->
       nth_error motor_velocities j = Some v ->
       served_before srv (_motors self) motor_velocities j ->
       fst (run_from srv j (set_velocity bad v)) = inl e ->
       fst (run srv (set_velocities self motor_velocities)) = inl e /\
       exists t : list exchange,
         snd (run srv (set_velocities self motor_velocities))
         = t ++ snd (run_from srv j (set_velocity bad v)) /\
         Forall2 velocity_served t
                 (combine (firstn j (_motors self)) motor_velocities)) /\
    (served_before srv (_motors self) motor_velocities
                   (length motor_velocities) \/
     exists (j : nat) (bad : Motor) (v : float) (e : exn),
       (j < length motor_velocities)%nat /\
       nth_error (_motors self) j = Some bad /\
       nth_error motor_velocities j = Some v /\
       served_before srv (_motors self) motor_velocities j /\
       fst (run_from srv j (set_velocity bad v)) = inl e).
Proof.
  intros self vs srv Hlen.
  split; [|split; [|split]].
  - intros cid Hlive Hsrv.
    unfold run, set_velocities, enumerate.
    apply (set_velocities_from srv cid vs Hsrv (_motors self) 0%nat 0%nat).
    + lia.
    + lia.
    + now rewrite Nat.sub_0_r.
  - intros Hserved. unfold run, set_velocities, enumerate.
    destruct (velocity_loop_short srv vs (_motors self) 0%nat)
      as (t & Ht & Hall).
    + lia.
    + lia.
    + intros i motor v Hm Hv. cbn [Nat.add] in Hv |- *.
      apply Hserved; [|exact Hm | exact Hv].
      apply nth_error_Some. congruence.
    + change (Z.of_nat 0) with 0 in Ht. rewrite Ht. cbn [fst snd].
      split; [reflexivity | exact Hall].
  - intros j bad v e Hbad Hv Hserved He.
    unfold run, set_velocities, enumerate.
    destruct (velocity_loop_first_failure srv vs j (_motors self) 0%nat
                bad v e Hbad Hv) as (t & Ht & Hall).
    + intros i motor v' Hi Hm Hv'. cbn [Nat.add] in Hv' |- *.
      now apply (Hserved i).
    + exact He.
    + change (Z.of_nat 0) with 0 in Ht. cbn [Nat.add] in Ht.
      rewrite Ht. cbn [fst snd]. split; [reflexivity|].
      exists t. split; [reflexivity | exact Hall].
  - apply served_or_first_failure; lia.
Qed.

Lemma C9_witness :
  run ok_server (set_velocities (three_motors connected) [1.0; 2.0]%float)
  = (inl (IndexError "list index out of range"),
     [ mkExchange (Remote (vrep.simxSetJointTargetVelocity
                             0 1 1.0 vrep.simx_opmode_blocking)) 0;
       mkExchange (Remote (vrep.simxSetJointTargetVelocity
                             0 2 2.0 vrep.simx_opmode_blocking)) 0 ]) /\
  fst (run failing_server
         (set_velocities (three_motors connected) [1.0; 2.0]%float))
  = inl (ServerError "Could not set left velocity.").
Proof.
  assert (Hlen : (length [1.0; 2.0]%float
                  < length (_motors (three_motors connected)))%nat)
    by (cbn; lia).
  split.
  - destruct (C9_short_velocity_list (three_motors connected)
                [1.0; 2.0]%float ok_server Hlen) as (Hexact & _).
    apply (Hexact 0).
    + intros motor [<- | [<- | []]]; split; (discriminate || reflexivity).
    + reflexivity.
  - destruct (C9_short_velocity_list (three_motors connected)
                [1.0; 2.0]%float failing_server Hlen)
      as (_ & _ & Hfirst & _).
    apply (Hfirst 0%nat (mkSceneObject connected "left" 1) 1.0%float
                  (ServerError "Could not set left velocity.")).
    + reflexivity.
    + reflexivity.
    + intros i motor v Hi. lia.
    + reflexivity.
Defined.

(** ** Reshaping *)

Lemma range_len_multiple :
  forall (n : nat) (step : Z),
    0 < step -> range_len 0 (Z.of_nat n * step) step = Z.of_nat n.
Proof.
  intros n step Hstep. unfold range_len.
  destruct (Z.ltb_spec 0 step); [|lia].
  destruct (Z.ltb_spec 0 (Z.of_nat n * step)) as [Hpos | Hzero].
  - assert (Hq : (Z.of_nat n * step - 0 - 1) / step = Z.of_nat n - 1).
    { symmetry. apply (Z.div_unique _ _ _ (step - 1)); lia. }
    lia.
  - destruct n; [reflexivity | nia].
Qed.

Lemma range_multiple :
  forall (n : nat) (step : Z),
    0 < step ->
    range 0 (Z.of_nat n * step) step
    = inr (map (fun k => 0 + Z.of_nat k * step) (seq 0 n)).
Proof.
  intros n step Hstep. unfold range.
  destruct (Z.eqb_spec step 0); [lia|].
  now rewrite range_len_multiple, Nat2Z.id.
Qed.

Lemma slice_chunk :
  forall (A : Type) (l : list A) (w k : nat),
    (k * w + w <= length l)%nat ->
    slice l (0 + Z.of_nat k * Z.of_nat w)
            (0 + Z.of_nat k * Z.of_nat w + Z.of_nat w)
    = chunk_at w l k.
Proof.
  intros A l w k H. unfold slice, slice_bound, chunk_at, len.
  rewrite <- Nat2Z.inj_mul. generalize dependent (k * w)%nat. intros p H.
  destruct (Z.ltb_spec (0 + Z.of_nat p) 0); [lia|].
  destruct (Z.ltb_spec (0 + Z.of_nat p + Z.of_nat w) 0); [lia|].
  rewrite !Z.min_l by lia. f_equal; [lia | f_equal; lia].
Qed.

Lemma slices_chunks :
  forall (A : Type) (l : list A) (w n : nat),
    (n * w <= length l)%nat ->
    slices l (map (fun k => 0 + Z.of_nat k * Z.of_nat w) (seq 0 n))
           (Z.of_nat w)
    = map (chunk_at w l) (seq 0 n).
Proof.
  intros A l w n H. unfold slices. rewrite map_map.
  apply map_ext_in. intros k Hk. apply in_seq in Hk.
  apply slice_chunk. nia.
Qed.

Lemma firstn_add :
  forall (A : Type) (a b : nat) (l : list A),
    firstn (a + b) l = firstn a l ++ firstn b (skipn a l).
Proof.
  intros A a b. induction a as [|a IH]; intros l; [reflexivity|].
  destruct l as [|x l]; cbn.
  - now rewrite firstn_nil.
  - now rewrite IH.
Qed.

Lemma skipn_add :
  forall (A : Type) (a b : nat) (l : list A),
    skipn (a + b) l = skipn b (skipn a l).
Proof.
  intros A a b. induction a as [|a IH]; intros l; [reflexivity|].
  destruct l as [|x l]; cbn.
  - now rewrite skipn_nil.
  - apply IH.
Qed.

Lemma concat_chunks :
  forall (A : Type) (l : list A) (w n a : nat),
    concat (map (chunk_at w l) (seq a n))
    = firstn (n * w) (skipn (a * w) l).
Proof.
  intros A l w n. induction n as [|n IH]; intros a; [reflexivity|].
  cbn [seq map concat]. rewrite IH. unfold chunk_at.
  replace (S n * w)%nat with (w + n * w)%nat by lia.
  rewrite firstn_add. f_equal. f_equal.
  replace (S a * w)%nat with (a * w + w)%nat by lia.
  apply skipn_add.
Qed.

Lemma chunk_at_length :
  forall (A : Type) (l : list A) (w k : nat),
    (k * w + w <= length l)%nat -> length (chunk_at w l k) = w.
Proof.
  intros A l w k H. unfold chunk_at.
  rewrite length_firstn, length_skipn. lia.
Qed.

Lemma nth_skipn :
  forall (A : Type) (l : list A) (p j : nat) (d : A),
    nth j (skipn p l) d = nth (p + j) l d.
Proof.
  intros A l p j d. revert l.
  induction p as [|p IH]; intros l; [reflexivity|].
  destruct l as [|x l]; cbn [skipn Nat.add nth].
  - now destruct j.
  - apply IH.
Qed.

Lemma nth_chunk_at :
  forall (A : Type) (l : list A) (w k j : nat) (d : A),
    (j < w)%nat -> nth j (chunk_at w l k) d = nth (k * w + j) l d.
Proof.
  intros A l w k j d Hj. unfold chunk_at.
  rewrite nth_firstn.
  destruct (Nat.ltb_spec j w); [|lia].
  apply nth_skipn.
Qed.

Lemma chunk_at_3 :
  forall (A : Type) (l : list A) (i : nat) (d : A),
    (i * 3 + 3 <= length l)%nat ->
    chunk_at 3 l i
    = [nth (3 * i) l d; nth (3 * i + 1) l d; nth (3 * i + 2) l d].
Proof.
  intros A l i d H.
  assert (Hl : length (chunk_at 3 l i) = 3%nat)
    by now apply chunk_at_length.
  replace (3 * i)%nat with (i * 3 + 0)%nat at 1 by lia.
  replace (3 * i)%nat with (i * 3)%nat by lia.
  rewrite <- !(nth_chunk_at _ l 3 i) by lia.
  destruct (chunk_at 3 l i) as [|a [|b [|c [|e t]]]];
    try discriminate Hl. reflexivity.
Qed.

Lemma nth_map_seq :
  forall (A : Type) (f : nat -> A) (n k : nat) (d : A),
    (k < n)%nat -> nth k (map f (seq 0 n)) d = f k.
Proof.
  intros A f n k d Hk.
  rewrite (nth_indep _ d (f 0%nat)) by now rewrite length_map, length_seq.
  rewrite map_nth, seq_nth by assumption. reflexivity.
Qed.

(** The reshaping of [get_positions] and [get_orientations]. *)
Lemma triples_reshape :
  forall (values : list float) (n : nat),
    length values = (3 * n)%nat ->
    collections.triples values
    = Return (map (chunk_at 3 values) (seq 0 n)).
Proof.
  intros values n Hlen. unfold collections.triples, len.
  replace (Z.of_nat (length values)) with (Z.of_nat n * 3) by lia.
  rewrite range_multiple by lia. cbn [eval bind].
  f_equal. apply (slices_chunks _ values 3 n). lia.
Qed.

(** C8: with a connection and a success status, [get_positions(prec=2)]
    on the flat list 1.2345, 2.3456, 3.4567, 4.5678, 5.6789, 6.7890 returns
    the two lists 1.23, 2.35, 3.46 and 4.57, 5.68, 6.79, under either tie
    rule; with [prec=None] a flat list of length 3n is returned as n lists
    of three values which, one after the other, are the flat list, with no
    value changed. *)
Theorem C8_positions_reshaped :
  forall (tie : tie_rule) (self : collections.Collection) (cid : Z)
         (handles ints : list Z) (names : list string),
    collections.client_id self = Some cid ->
    let query := Remote (vrep.simxGetObjectGroupData
                           cid (collections._handle self) 3
                           vrep.simx_opmode_blocking) in
    step (collections.get_positions tie self (Some 2)) query
         (vrep.simx_return_ok, handles, ints,
          [1.2345; 2.3456; 3.4567; 4.5678; 5.6789; 6.7890]%float, names)
         (Return [[1.23; 2.35; 3.46]; [4.57; 5.68; 6.79]]%float) /\
    (forall (positions : list float) (n : nat),
       length positions = (3 * n)%nat ->
       exists result : list (list float),
         step (collections.get_positions tie self None) query
              (vrep.simx_return_ok, handles, ints, positions, names)
              (Return result) /\
         length result = n /\
         Forall (fun t => length t = 3%nat) result /\
         concat result = positions /\
         (forall (i : nat) (d : float),
            (i < n)%nat ->
            nth i result []
            = [nth (3 * i) positions d; nth (3 * i + 1) positions d;
               nth (3 * i + 2) positions d])).
Proof.
  intros tie self cid handles ints names Hcid query.
  unfold collections.get_positions. rewrite Hcid. split.
  - econstructor; [reflexivity|]. destruct tie; vm_compute; reflexivity.
  - intros positions n Hlen.
    exists (map (chunk_at 3 positions) (seq 0 n)).
    split; [|split; [|split; [|split]]].
    + econstructor; [reflexivity|].
      exact (triples_reshape positions n Hlen).
    + now rewrite length_map, length_seq.
    + apply Forall_forall. intros t Ht. apply in_map_iff in Ht.
      destruct Ht as (k & <- & Hk). apply in_seq in Hk.
      apply chunk_at_length. lia.
    + rewrite concat_chunks. cbn [Nat.mul skipn].
      replace (n * 3)%nat with (length positions) by lia.
      apply firstn_all.
    + intros i d Hi. rewrite nth_map_seq by assumption.
      apply chunk_at_3. lia.
Qed.

Lemma C8_witness :
  step (collections.get_positions half_even group (Some 2))
       (Remote (vrep.simxGetObjectGroupData 0 4 3 vrep.simx_opmode_blocking))
       (0, [], [],
        [1.2345; 2.3456; 3.4567; 4.5678; 5.6789; 6.7890]%float, [])
       (Return [[1.23; 2.35; 3.46]; [4.57; 5.68; 6.79]]%float) /\
  (exists result : list (list float),
     step (collections.get_positions half_even group None)
          (Remote (vrep.simxGetObjectGroupData
                     0 4 3 vrep.simx_opmode_blocking))
          (0, [], [], [0.5; 1.5; 2.5; 3.5; 4.5; 5.5]%float, [])
          (Return result) /\
     length result = 2%nat /\
     Forall (fun t => length t = 3%nat) result /\
     concat result = [0.5; 1.5; 2.5; 3.5; 4.5; 5.5]%float /\
     (forall (i : nat) (d : float),
        (i < 2)%nat ->
        nth i result []
        = [nth (3 * i) [0.5; 1.5; 2.5; 3.5; 4.5; 5.5]%float d;
           nth (3 * i + 1) [0.5; 1.5; 2.5; 3.5; 4.5; 5.5]%float d;
           nth (3 * i + 2) [0.5; 1.5; 2.5; 3.5; 4.5; 5.5]%float d])).
Proof.
  destruct (C8_positions_reshaped half_even group 0 [] [] [] eq_refl)
    as [Hround Hplain].
  split; [exact Hround|].
  apply (Hplain [0.5; 1.5; 2.5; 3.5; 4.5; 5.5]%float 2%nat). reflexivity.
Defined.

(** ** Vision sensor *)

(** The reshaping of [get_image] for an RGB image of [w] by [h] pixels. *)
Lemma image_rows_rgb :
  forall (bytes : list Z) (w h : nat),
    (0 < w)%nat ->
    length bytes = (w * h * 3)%nat ->
    bind (eval (range 0 (3 * (Z.of_nat w * Z.of_nat h)) 3)) (fun ps =>
      bind (arrange_rows (slices bytes ps 3) (Z.of_nat w)
                         (Z.of_nat w * Z.of_nat h))
           (fun rows => Return (RGB rows)))
    = Return (RGB (rev (map (chunk_at w (map (chunk_at 3 bytes)
                                           (seq 0 (h * w))))
                            (seq 0 h)))).
Proof.
  intros bytes w h Hw Hlen.
  replace (3 * (Z.of_nat w * Z.of_nat h)) with (Z.of_nat (h * w) * 3) by lia.
  rewrite range_multiple by lia. cbn [eval bind].
  change 3 with (Z.of_nat 3) at 1 2.
  rewrite slices_chunks by lia.
  unfold arrange_rows.
  replace (Z.of_nat w * Z.of_nat h) with (Z.of_nat h * Z.of_nat w) by lia.
  rewrite range_multiple by lia. cbn [eval bind].
  unfold reversed, slices. rewrite map_rev. do 3 f_equal.
  apply slices_chunks. rewrite length_map, length_seq. lia.
Qed.

(** C2, as stated, fails for an image without columns: every stated
    condition holds for a resolution of 0 by 2 pixels and an empty buffer,
    and [get_image] raises [ValueError] where two empty rows are claimed. *)
Lemma C2_counterexample :
  Z.of_nat (length (@nil Z)) = 0 * 2 * 3 /\
  step (get_image live_object false)
       (Remote (vrep.simxGetVisionSensorImage
                  0 7 false vrep.simx_opmode_blocking))
       (0, (0, 2), [])
       (Raise (ValueError "range() arg 3 must not be zero")).
Proof. split; [reflexivity | econstructor; reflexivity]. Qed.

(** C2, amended: for a sensor that is not removed and has a connection,
    when the server answers [get_image(grayscale=False)] with success, a
    resolution of [width] by [height] pixels with [width] at least 1, and a
    buffer of [width * height * 3] values between -128 and 127, the result
    has [height] rows of [width] pixels of three components; component [k]
    of the pixel in row [r] and column [c] is the value of the buffer at
    index [((height - 1 - r) * width + c) * 3 + k], plus 256 when that value
    is negative, and so lies between 0 and 255.  Row 0 is the last row of
    the buffer. *)
Theorem C2_image_reshaped :
  forall (self : VisionSensor) (cid : Z) (buffer : list Z)
         (width height : nat),
    _handle self <> -2 ->
    client_id self = Some cid ->
    (0 < width)%nat ->
    length buffer = (width * height * 3)%nat ->
    Forall (fun v => -128 <= v <= 127) buffer ->
    exists rows : list (list (list Z)),
      step (get_image self false)
           (Remote (vrep.simxGetVisionSensorImage
                      cid (_handle self) false vrep.simx_opmode_blocking))
           (vrep.simx_return_ok, (Z.of_nat width, Z.of_nat height), buffer)
           (Return (RGB rows)) /\
      length rows = height /\
      (forall r c k : nat,
         (r < height)%nat -> (c < width)%nat -> (k < 3)%nat ->
         let raw := nth (((height - 1 - r) * width + c) * 3 + k) buffer 0 in
         length (nth r rows []) = width /\
         length (nth c (nth r rows []) []) = 3%nat /\
         nth k (nth c (nth r rows []) []) 0
         = (if 0 <=? raw then raw else raw + 256) /\
         0 <= nth k (nth c (nth r rows []) []) 0 <= 255).
Proof.
  intros self cid buffer w h Hlive Hcid Hw Hlen Hrange.
  apply Z.eqb_neq in Hlive.
  set (unsigned := fun val : Z => if 0 <=? val then val else val + 256).
  set (bytes := map unsigned buffer).
  set (pixels := map (chunk_at 3 bytes) (seq 0 (h * w))).
  set (rows := map (chunk_at w pixels) (seq 0 h)).
  assert (Hbytes : length bytes = (w * h * 3)%nat)
    by (unfold bytes; now rewrite length_map).
  assert (Hpixels : length pixels = (h * w)%nat)
    by (unfold pixels; now rewrite length_map, length_seq).
  assert (Hrows : length rows = h)
    by (unfold rows; now rewrite length_map, length_seq).
  exists (rev rows). split; [|split].
  - unfold get_image. rewrite Hlive, Hcid.
    econstructor; [reflexivity|].
    exact (image_rows_rgb bytes w h Hw Hbytes).
  - now rewrite length_rev.
  - intros r c k Hr Hc Hk raw.
    assert (Hrow : nth r (rev rows) [] = chunk_at w pixels (h - 1 - r)).
    { rewrite rev_nth by lia. rewrite Hrows. unfold rows.
      replace (h - S r)%nat with (h - 1 - r)%nat by lia.
      apply nth_map_seq. lia. }
    assert (Hidx : ((h - 1 - r) * w + c < h * w)%nat) by nia.
    assert (Hpixel : nth c (nth r (rev rows) []) []
                     = chunk_at 3 bytes ((h - 1 - r) * w + c)).
    { rewrite Hrow, nth_chunk_at by assumption.
      unfold pixels. now apply nth_map_seq. }
    assert (Hin : (((h - 1 - r) * w + c) * 3 + k < length buffer)%nat)
      by lia.
    assert (Hcomp : nth k (nth c (nth r (rev rows) []) []) 0 = unsigned raw).
    { rewrite Hpixel, nth_chunk_at by assumption. unfold bytes.
      change 0 with (unsigned 0) at 1. apply map_nth. }
    split; [|split; [|split]].
    + rewrite Hrow. apply chunk_at_length. rewrite Hpixels. nia.
    + rewrite Hpixel. apply chunk_at_length. lia.
    + exact Hcomp.
    + rewrite Hcomp.
      assert (Hraw : -128 <= raw <= 127).
      { rewrite Forall_forall in Hrange. apply Hrange.
        now apply nth_In. }
      unfold unsigned. destruct (Z.leb_spec 0 raw); lia.
Qed.

Lemma C2_witness :
  exists rows : list (list (list Z)),
    step (get_image live_object false)
         (Remote (vrep.simxGetVisionSensorImage
                    0 7 false vrep.simx_opmode_blocking))
         (0, (1, 2), [10; -1; 30; -128; 127; 0])
         (Return (RGB rows)) /\
    length rows = 2%nat /\
    (forall r c k : nat,
       (r < 2)%nat -> (c < 1)%nat -> (k < 3)%nat ->
       let raw := nth (((2 - 1 - r) * 1 + c) * 3 + k)
                      [10; -1; 30; -128; 127; 0] 0 in
       length (nth r rows []) = 1%nat /\
       length (nth c (nth r rows []) []) = 3%nat /\
       nth k (nth c (nth r rows []) []) 0
       = (if 0 <=? raw then raw else raw + 256) /\
       0 <= nth k (nth c (nth r rows []) []) 0 <= 255).
Proof.
  assert (Hlive : _handle live_object <> -2) by discriminate.
  apply (C2_image_reshaped live_object 0 [10; -1; 30; -128; 127; 0]
           1%nat 2%nat Hlive eq_refl).
  - lia.
  - reflexivity.
  - repeat constructor; lia.
Defined.

Example get_image_example :
  step (get_image live_object false)
       (Remote (vrep.simxGetVisionSensorImage
                  0 7 false vrep.simx_opmode_blocking))
       (0, (1, 2), [10; -1; 30; -128; 127; 0])
       (Return (RGB [[[128; 127; 0]]; [[10; 255; 30]]])).
Proof. econstructor; reflexivity. Qed.

(** ** Status codes *)

Lemma mentions_here :
  forall part after : string, mentions (String.append part after) part.
Proof. intros part after. now exists EmptyString, after. Qed.

Lemma mentions_cons :
  forall (s part : string) (c : ascii),
    mentions s part -> mentions (String c s) part.
Proof.
  intros s part c (before & after & ->). now exists (String c before), after.
Qed.

Lemma mentions_append :
  forall s t part : string,
    mentions s part -> mentions (String.append t s) part.
Proof.
  intros s t part H. induction t as [|c t IH]; [exact H|].
  cbn [String.append]. now apply mentions_cons.
Qed.

Ltac mentions_name :=
  cbn;
  repeat first [ apply mentions_here
               | apply mentions_cons
               | apply mentions_append ].

Lemma disciplined_run :
  forall (A : Type) (accepted : Z -> bool) (complaint : request -> string)
         (payload : exn -> Prop) (b : bool) (p : prog A),
    disciplined accepted complaint payload b p ->
    forall (srv : server) (n : nat),
      (forallb (fun e => negb (rejected accepted e)) (snd (run_from srv n p))
       = true ->
       (forall msg, fst (run_from srv n p) <> inl (ServerError msg)) /\
       (b = true \/ has_remote (snd (run_from srv n p)) = true ->
        (exists a, fst (run_from srv n p) = inr a) \/
        (exists e, fst (run_from srv n p) = inl e /\ payload e))) /\
      (forall (before : list exchange) (e : exchange)
              (after : list exchange),
         snd (run_from srv n p) = before ++ e :: after ->
         rejected accepted e = true ->
         after = [] /\
         fst (run_from srv n p) = inl (ServerError (complaint (asked e)))).
Proof.
  intros A accepted complaint payload b p H.
  induction H as [b a | e He | e He Hp | b c k Hok IH Hbad | k Hk IH];
    intros srv n.
  - cbn. split.
    + intros _. split; [discriminate|]. intros _. left. now exists a.
    + intros [|? ?] ? ? Heq; discriminate Heq.
  - cbn. split.
    + intros _. split.
      * intros msg Hmsg. inversion Hmsg; subst. discriminate He.
      * intros [H | H]; discriminate H.
    + intros [|? ?] ? ? Heq; discriminate Heq.
  - cbn. split.
    + intros _. split.
      * intros msg Hmsg. inversion Hmsg; subst. discriminate He.
      * intros _. right. now exists e.
    + intros [|? ?] ? ? Heq; discriminate Heq.
  - cbn [run_from].
    destruct (accepted (vrep.status c (srv n (Remote c)))) eqn:Hst.
    + specialize (IH _ Hst srv (S n)).
      destruct (run_from srv (S n) (k (srv n (Remote c)))) as [o t].
      cbn [fst snd] in *. destruct IH as [IH1 IH2]. split.
      * cbn [forallb]. intros Hall. apply andb_prop in Hall.
        destruct (IH1 (proj2 Hall)) as [IHa IHb].
        split; [exact IHa|]. intros _. apply IHb. now left.
      * intros [|b' before] e after Heq Hrej.
        -- cbn in Heq. inversion Heq; subst e.
           unfold rejected in Hrej. cbn in Hrej.
           rewrite Hst in Hrej. discriminate Hrej.
        -- cbn in Heq. inversion Heq; subst. eapply IH2; eauto.
    + rewrite (Hbad _ Hst). cbn [run_from fst snd]. split.
      * cbn [forallb]. unfold rejected at 1. cbn [status_of].
        rewrite Hst. discriminate.
      * intros [|b' [|? ?]] e0 after Heq _; try discriminate Heq.
        inversion Heq; subst. split; reflexivity.
  - cbn [run_from].
    specialize (IH (srv n IsSimStarted) srv (S n)).
    destruct (run_from srv (S n) (k (srv n IsSimStarted))) as [o t].
    cbn [fst snd] in *. destruct IH as [IH1 IH2]. split.
    + cbn [forallb]. intros Hall. apply andb_prop in Hall.
      destruct (IH1 (proj2 Hall)) as [IHa IHb].
      split; [exact IHa|]. intros [H | H]; [discriminate H|].
      apply IHb. right. exact H.
    + intros [|b' before] e after Heq Hrej.
      * cbn in Heq. inversion Heq; subst e. discriminate Hrej.
      * cbn in Heq. inversion Heq; subst. eapply IH2; eauto.
Qed.

Lemma disciplined_sound :
  forall (A : Type) (accepted : Z -> bool) (complaint : request -> string)
         (payload : exn -> Prop) (p : prog A),
    disciplined accepted complaint payload false p ->
    translates_status accepted complaint payload p.
Proof.
  intros A accepted complaint payload p H srv n.
  destruct (disciplined_run _ _ _ _ _ _ H srv n) as [H1 H2].
  split; [|exact H2].
  intros Hall. destruct (H1 Hall) as [Ha Hb].
  split; [exact Ha|]. intros Hr. apply Hb. now right.
Qed.

Lemma d_bind_return :
  forall (A B : Type) (accepted : Z -> bool) (complaint : request -> string)
         (payload : exn -> Prop) (b : bool) (p : prog A) (g : A -> B),
    disciplined accepted complaint payload b p ->
    disciplined accepted complaint payload b
      (bind p (fun a => Return (g a))).
Proof.
  intros A B accepted complaint payload b p g Hp.
  induction Hp as [b a | e He | e He Hp | b c k Hok IH Hbad | k Hk IH];
    cbn [bind].
  - apply d_return.
  - now apply d_raise.
  - now apply d_payload.
  - apply d_remote.
    + intros a Ha. now apply IH.
    + intros a Ha. now rewrite (Hbad a Ha).
  - apply d_local. intros a. apply IH.
Qed.

(** A remote call followed by the check of its status. *)
Lemma d_checked :
  forall (A : Type) (accepted : Z -> bool) (complaint : request -> string)
         (payload : exn -> Prop) (b : bool)
         (c : vrep.call) (f : vrep.ret c -> prog A),
    (forall a, accepted (vrep.status c a) = true ->
               disciplined accepted complaint payload true (f a)) ->
    (forall a, accepted (vrep.status c a) = false ->
               f a = Raise (ServerError (complaint (Remote c)))) ->
    disciplined accepted complaint payload b (bind (remote c) f).
Proof.
  intros A accepted complaint payload b c f Hok Hbad.
  unfold remote. cbn [bind]. now apply d_remote.
Qed.

Lemma fails_only_eval :
  forall (A : Type) (P : exn -> Prop) (v : exn + A),
    (forall e, v = inl e -> P e) -> fails_only P (eval v).
Proof. intros A P v H. now exists v. Qed.

Lemma fails_only_return :
  forall (A : Type) (P : exn -> Prop) (a : A), fails_only P (Return a).
Proof. intros A P a. exists (inr a). split; [reflexivity | discriminate]. Qed.

Lemma fails_only_bind :
  forall (A B : Type) (P : exn -> Prop) (p : prog A) (f : A -> prog B),
    fails_only P p ->
    (forall a, fails_only P (f a)) ->
    fails_only P (bind p f).
Proof.
  intros A B P p f ([e|a] & -> & Hv) Hf; cbn.
  - exists (inl e). split; [reflexivity|].
    intros e' H. inversion H; subst. now apply Hv.
  - apply Hf.
Qed.

Lemma fails_only_comprehension :
  forall (A B : Type) (P : exn -> Prop) (l : list A) (body : A -> prog B),
    (forall a, fails_only P (body a)) ->
    fails_only P (comprehension l body).
Proof.
  intros A B P l body H.
  induction l as [|a l IH]; cbn [comprehension];
    [apply fails_only_return|].
  apply fails_only_bind; [apply H|]. intros b.
  apply fails_only_bind; [apply IH|]. intros bs. apply fails_only_return.
Qed.

Lemma d_fails_only :
  forall (A : Type) (accepted : Z -> bool) (complaint : request -> string)
         (payload : exn -> Prop) (b : bool) (p : prog A),
    fails_only (allowed payload b) p ->
    disciplined accepted complaint payload b p.
Proof.
  intros A accepted complaint payload b p ([e|a] & -> & Hv); cbn.
  - destruct (Hv e eq_refl) as [He Hp]. destruct b.
    + apply d_payload; [exact He | now apply Hp].
    + now apply d_raise.
  - apply d_return.
Qed.

Lemma d_bind_fails_only :
  forall (A B : Type) (accepted : Z -> bool) (complaint : request -> string)
         (payload : exn -> Prop) (b : bool) (p : prog A) (f : A -> prog B),
    fails_only (allowed payload b) p ->
    (forall a, disciplined accepted complaint payload b (f a)) ->
    disciplined accepted complaint payload b (bind p f).
Proof.
  intros A B accepted complaint payload b p f ([e|a] & -> & Hv) Hf; cbn.
  - apply (d_fails_only _ _ _ _ _ (Raise e)).
    exists (inl e). split; [reflexivity|].
    intros e' H. inversion H; subst. now apply Hv.
  - apply Hf.
Qed.

Lemma getitem_local :
  forall (A : Type) (l : list A) (i : Z) (e : exn),
    getitem l i = inl e -> is_ServerError e = false.
Proof.
  intros A l i e. unfold getitem.
  destruct (_ || _); [intros H; now inversion H|].
  destruct (nth_error _ _); intros H; now inversion H.
Qed.

Lemma range_local :
  forall (start stop step : Z) (e : exn),
    range start stop step = inl e -> is_ServerError e = false.
Proof.
  intros start stop step e. unfold range.
  destruct (step =? 0); intros H; now inversion H.
Qed.

Lemma round_local :
  forall (tie : tie_rule) (x : float) (ndigits : Z) (e : exn),
    round tie x ndigits = inl e -> is_ServerError e = false.
Proof.
  intros tie x ndigits e. unfold round.
  destruct (Prim2SF x); try discriminate.
  destruct (NDIGITS_MAX <? ndigits); [discriminate|].
  destruct (ndigits <? NDIGITS_MIN); [discriminate|].
  match goal with
  | |- context [match ?r with S754_zero _ => _ | _ => _ end] => destruct r
  end; intros H; now inversion H.
Qed.

Lemma getitem_error :
  forall (A : Type) (l : list A) (i : Z) (e : exn),
    getitem l i = inl e -> exists msg, e = IndexError msg.
Proof.
  intros A l i e. unfold getitem.
  destruct (_ || _); [intros H; inversion H; eauto|].
  destruct (nth_error _ _); intros H; inversion H; eauto.
Qed.

Lemma range_error :
  forall (start stop step : Z) (e : exn),
    range start stop step = inl e ->
    step = 0 /\ exists msg, e = ValueError msg.
Proof.
  intros start stop step e. unfold range.
  destruct (Z.eqb_spec step 0); intros H; inversion H; eauto.
Qed.

Lemma round_error :
  forall (tie : tie_rule) (x : float) (ndigits : Z) (e : exn),
    round tie x ndigits = inl e -> exists msg, e = OverflowError msg.
Proof.
  intros tie x ndigits e. unfold round.
  destruct (Prim2SF x); try discriminate.
  destruct (NDIGITS_MAX <? ndigits); [discriminate|].
  destruct (ndigits <? NDIGITS_MIN); [discriminate|].
  match goal with
  | |- context [match ?r with S754_zero _ => _ | _ => _ end] => destruct r
  end; intros H; inversion H; eauto.
Qed.

Lemma get_handle_fails :
  forall (payload : exn -> Prop) (scene_obj : handle_source) (name : string),
    fails_only (allowed payload false) (get_handle scene_obj name).
Proof.
  intros payload scene_obj name.
  destruct (get_handle_local scene_obj name) as [[h ->] | [e He]].
  - apply fails_only_return.
  - rewrite He. exists (inl e). split; [reflexivity|].
    intros e' H. inversion H; subst e'. split; [|discriminate].
    destruct scene_obj as [| i | o |]; cbn in He; try discriminate He.
    + unfold handle in He.
      destruct (0 <=? _handle o); cbn in He; [discriminate He|].
      destruct (_handle o =? -1); cbn in He; [now inversion He|].
      destruct (_handle o =? -2); cbn in He; now inversion He.
    + now inversion He.
Qed.

(** Steps through a list by a step that is not 0. *)
Lemma steps_fail_only :
  forall (A B : Type) (P : exn -> Prop) (stop step : Z)
         (f : list Z -> B),
    step <> 0 ->
    fails_only P (bind (eval (range 0 stop step))
                       (fun ps => Return (f ps))).
Proof.
  intros A B P stop step f Hstep.
  apply fails_only_bind; [|intros; apply fails_only_return].
  apply fails_only_eval. intros e He.
  apply range_error in He. destruct He as [H0 _]. contradiction.
Qed.

Lemma round_all_fails_only :
  forall (payload : exn -> Prop) (tie : tie_rule) (values : list float)
         (prec : option Z),
    (forall e, rounding_error prec e -> payload e) ->
    fails_only (allowed payload true)
               (collections.round_all tie values prec).
Proof.
  intros payload tie values prec Hp. unfold collections.round_all.
  destruct prec as [prec|]; [|apply fails_only_return].
  apply fails_only_comprehension. intros v.
  apply fails_only_eval. intros e He. split.
  - exact (round_local _ _ _ _ He).
  - intros _. apply Hp. exact (round_error _ _ _ _ He).
Qed.

Ltac split_answer :=
  repeat match goal with
         | x : (_ * _)%type |- _ => destruct x
         end.

Ltac use_status Hst :=
  unfold is_ok in Hst; cbn [vrep.status fst snd] in Hst;
  cbn beta iota; rewrite ?Hst; cbn [negb orb].

Ltac disc :=
  lazymatch goal with
  | |- disciplined _ _ _ _ (Return _) => apply d_return
  | |- disciplined _ _ _ false (Raise _) => apply d_raise; reflexivity
  | |- disciplined _ _ _ _ (bind (remote _) _) =>
      let a := fresh "a" in
      let Hst := fresh "Hst" in
      apply d_checked; intros a Hst; cbn [vrep.ret] in a; split_answer;
      use_status Hst;
      [ disc | reflexivity ]
  | |- disciplined _ _ _ false (bind (get_handle _ _) _) =>
      apply d_bind_fails_only; [apply get_handle_fails | intros; disc]
  | |- disciplined _ _ _ _ (bind ?p (fun x => Return (@?g x))) =>
      apply (d_bind_return _ _ _ _ _ _ p g); disc
  | |- disciplined _ _ _ _ (if ?b then _ else _) => destruct b; disc
  | |- disciplined _ _ _ _ (match ?x with _ => _ end) => destruct x; disc
  end.

Lemma limit_names :
  forall (limit : string * vrep.objfloatparam) (cid h : Z),
    In limit BBOX_LIMITS ->
    limit_name (Remote (vrep.simxGetObjectFloatParameter
                          cid h (snd limit) vrep.simx_opmode_blocking))
    = fst limit.
Proof.
  intros limit cid h Hin. unfold BBOX_LIMITS in Hin. cbn [In] in Hin.
  repeat (destruct Hin as [<- | Hin]; [reflexivity|]). contradiction.
Qed.

Lemma bbox_loop_disciplined :
  forall (tie : tie_rule) (self : SceneObject) (cid : Z) (prec : option Z)
         (limits : list (string * vrep.objfloatparam))
         (bbox_limits : list float) (b : bool),
    (forall limit, In limit limits -> In limit BBOX_LIMITS) ->
    disciplined is_ok (refusal (op_get_bbox_limits prec) self)
      (rounding_error prec) b
      (bbox_loop tie self cid prec limits bbox_limits).
Proof.
  intros tie self cid prec limits.
  induction limits as [|limit limits IH]; intros bbox_limits b Hin;
    cbn [bbox_loop]; [apply d_return|].
  apply d_checked; intros a Hst; cbn [vrep.ret] in a; split_answer;
    use_status Hst.
  - apply d_bind_fails_only.
    + destruct prec as [p|]; [|apply fails_only_return].
      apply fails_only_eval. intros e He. split.
      * exact (round_local _ _ _ _ He).
      * intros _. exact (round_error _ _ _ _ He).
    + intros lim. apply IH. intros l Hl. apply Hin. now right.
  - cbn [refusal]. rewrite limit_names by (apply Hin; now left).
    reflexivity.
Qed.

(** Every call on a scene object translates status codes. *)
Lemma perform_disciplined :
  forall (tie : tie_rule) (op : operation) (self : SceneObject),
    disciplined (accepts op) (refusal op self) (payload_error op) false
      (perform tie op self).
Proof.
  intros tie op self.
  destruct op; cbn [accepts payload_error perform]; unfold observe;
    try apply d_bind_return.
  - unfold handle. disc.
  - unfold name. disc.
  - unfold call_script_func. disc.
  - unfold copy_paste.
    destruct (_handle self =? -2); [disc|].
    destruct (client_id self); [|disc].
    apply d_checked; intros a Hst; cbn [vrep.ret] in a; split_answer;
      use_status Hst; [|reflexivity].
    apply d_fails_only, fails_only_eval. intros e He. split.
    + exact (getitem_local _ _ _ _ He).
    + intros _. exact (getitem_error _ _ _ _ He).
  - unfold get_bbox_limits.
    destruct (_handle self =? -2); [disc|].
    destruct (client_id self); [|disc].
    apply d_bind_return, bbox_loop_disciplined. auto.
  - unfold get_orientation. disc.
  - unfold set_orientation, base.is_sim_started.
    destruct (_handle self =? -2); [disc|].
    destruct (client_id self); [|disc].
    destruct allow_in_sim; cbn [negb bind]; [disc|].
    apply d_local. intros b. disc.
  - unfold get_parent_handle. disc.
  - unfold set_parent. disc.
  - unfold get_position. disc.
  - unfold set_position, base.is_sim_started.
    destruct (_handle self =? -2); [disc|].
    destruct (client_id self); [|disc].
    destruct allow_in_sim; cbn [negb bind]; [disc|].
    apply d_local. intros b. disc.
  - unfold remove. disc.
  - unfold set_velocity. disc.
  - unfold get_inv_distance.
    destruct (_handle self =? -2); [disc|].
    destruct (client_id self); [|disc].
    apply d_checked; intros a Hst; cbn [vrep.ret] in a; split_answer;
      unfold is_ok in Hst; cbn [vrep.status fst snd] in Hst; cbn beta iota.
    + match goal with
      | |- context [?st =? vrep.simx_return_ok] =>
          destruct (st =? vrep.simx_return_ok); [disc|];
          destruct (st =? vrep.simx_return_novalue_flag); [disc|]
      end.
      discriminate Hst.
    + apply orb_false_elim in Hst. destruct Hst as [-> ->]. reflexivity.
  - unfold get_image.
    destruct (_handle self =? -2); [disc|].
    destruct (client_id self); [|disc].
    apply d_checked; intros a Hst; cbn [vrep.ret] in a; split_answer;
      use_status Hst; [|reflexivity].
    cbn zeta.
    assert (Hrows : forall (B : Type) (image : list B) (width n_pixels : Z),
              fails_only (allowed (fun e => exists msg, e = ValueError msg)
                                  true)
                         (arrange_rows image width n_pixels)).
    { intros B image width n_pixels. unfold arrange_rows.
      apply fails_only_bind; [|intros; apply fails_only_return].
      apply fails_only_eval. intros e He. split.
      - exact (range_local _ _ _ _ He).
      - intros _. apply range_error in He. tauto. }
    apply d_fails_only.
    destruct (negb grayscale).
    + apply fails_only_bind.
      * apply fails_only_eval. intros e He.
        apply range_error in He. destruct He as [H0 _]. discriminate H0.
      * intros ps. apply fails_only_bind; [apply Hrows|].
        intros rows. apply fails_only_return.
    + apply fails_only_bind; [apply Hrows|].
      intros rows. apply fails_only_return.
Qed.

(** The message of every call that uses the connection names its
    target. *)
Lemma refusal_names_target :
  forall (op : operation) (self : SceneObject) (r : request),
    uses_connection op = true ->
    mentions (refusal op self r) (_name self).
Proof.
  intros op self r Huses.
  destruct op; try discriminate Huses; unfold refusal; mentions_name.
Qed.

Lemma init_disciplined :
  forall (name : string) (vrep_sim : base.Simulator),
    disciplined is_ok
      (fun _ => format "Could not retrieve handle to {}." [name])
      (fun _ => False) false
      (__init__ (Some name) vrep_sim).
Proof.
  intros [|c s] vrep_sim; unfold __init__; cbn beta iota; [disc|].
  generalize (String c s). intros name. unfold _get_handle. disc.
Qed.

Lemma collection_init_disciplined :
  forall (EMPTY_NAME name : string) (vrep_sim : base.Simulator),
    disciplined is_ok
      (fun _ => format "Could not retrieve handle to {}." [name])
      (fun _ => False) false
      (collections.__init__ EMPTY_NAME (Some name) vrep_sim).
Proof.
  intros EMPTY_NAME [|c s] vrep_sim;
    unfold collections.__init__, collections._get_handle; cbn beta iota;
    [disc|].
  generalize (String c s). intros name. disc.
Qed.

Lemma collection_disciplined :
  forall (tie : tie_rule) (self : collections.Collection) (prec : option Z),
    disciplined is_ok
      (fun _ => format "Could not retrieve names of {}."
                       [collections._name self])
      (fun _ => False) false
      (collections.get_names self) /\
    disciplined is_ok
      (fun _ => format "Could not retrieve orientations of {}."
                       [collections._name self])
      (rounding_error prec) false
      (collections.get_orientations tie self prec) /\
    disciplined is_ok
      (fun _ => format "Could not retrieve positions of {}."
                       [collections._name self])
      (rounding_error prec) false
      (collections.get_positions tie self prec).
Proof.
  intros tie self prec.
  assert (Hrest : forall values,
            fails_only (allowed (rounding_error prec) true)
              (bind (collections.round_all tie values prec)
                    collections.triples)).
  { intros values. apply fails_only_bind.
    - apply round_all_fails_only. auto.
    - intros rs. unfold collections.triples.
      apply (steps_fail_only float). discriminate. }
  unfold collections.get_names, collections.get_orientations,
    collections.get_positions.
  repeat split.
  - disc.
  - destruct (collections.client_id self); [|disc].
    apply d_checked; intros a Hst; cbn [vrep.ret] in a; split_answer;
      use_status Hst; [|reflexivity].
    apply d_fails_only, Hrest.
  - destruct (collections.client_id self); [|disc].
    apply d_checked; intros a Hst; cbn [vrep.ret] in a; split_answer;
      use_status Hst; [|reflexivity].
    apply d_fails_only, Hrest.
Qed.

(** Without a connection a call on an object that is not removed raises
    [ConnectionError] and asks nothing. *)
Lemma perform_disconnected :
  forall (tie : tie_rule) (op : operation) (self : SceneObject),
    _handle self <> -2 ->
    script_type_supported op = true ->
    uses_connection op = true ->
    client_id self = None ->
    exists msg, perform tie op self = Raise (ConnectionError msg).
Proof.
  intros tie op self Hlive Hscript Huses Hcid.
  apply Z.eqb_neq in Hlive.
  destruct op; try discriminate Huses; cbn [perform]; unfold observe.
  - unfold call_script_func. unfold script_type_supported in Hscript.
    destruct (lookup ASSOC_SCRIPT_TYPES script_type);
      [|discriminate Hscript].
    rewrite Hlive, Hcid. eexists; reflexivity.
  - unfold copy_paste. rewrite Hlive, Hcid. eexists; reflexivity.
  - unfold get_bbox_limits. rewrite Hlive, Hcid. eexists; reflexivity.
  - unfold get_orientation. rewrite Hlive, Hcid. eexists; reflexivity.
  - unfold set_orientation. rewrite Hlive, Hcid. eexists; reflexivity.
  - unfold get_parent_handle. rewrite Hlive, Hcid. eexists; reflexivity.
  - unfold set_parent. rewrite Hlive, Hcid. eexists; reflexivity.
  - unfold get_position. rewrite Hlive, Hcid. eexists; reflexivity.
  - unfold set_position. rewrite Hlive, Hcid. eexists; reflexivity.
  - unfold remove. rewrite Hlive, Hcid. eexists; reflexivity.
  - unfold set_velocity. rewrite Hlive, Hcid. eexists; reflexivity.
  - unfold get_inv_distance. rewrite Hlive, Hcid. eexists; reflexivity.
  - unfold get_image. rewrite Hlive, Hcid. eexists; reflexivity.
Qed.

(** C4, as stated, fails in two ways.  A status that is not 0 does not
    always raise: for [get_inv_distance] the no-value status returns 0.0.
    And status 0 does not exclude an error: the payload of a success
    answer can make the call raise afterwards, in [copy_paste] on an empty
    list of handles ([IndexError]), in [get_image] on a width of 0
    ([ValueError]), and in [get_bbox_limits] and [get_positions] on a
    value that cannot be rounded ([OverflowError]). *)
Lemma C4_counterexample :
  (vrep.simx_return_novalue_flag <> vrep.simx_return_ok /\
   step (get_inv_distance live_object)
        (Remote (vrep.simxReadProximitySensor
                   0 7 vrep.simx_opmode_blocking))
        (vrep.simx_return_novalue_flag, false, zero3, -1, zero3)
        (Return 0.0%float)) /\
  step (copy_paste live_object)
       (Remote (vrep.simxCopyPasteObjects 0 [7] vrep.simx_opmode_blocking))
       (vrep.simx_return_ok, [])
       (Raise (IndexError "list index out of range")) /\
  step (get_image live_object true)
       (Remote (vrep.simxGetVisionSensorImage
                  0 7 true vrep.simx_opmode_blocking))
       (vrep.simx_return_ok, (0, 2), [])
       (Raise (ValueError "range() arg 3 must not be zero")) /\
  step (get_bbox_limits half_even live_object (Some (-308)))
       (Remote (vrep.simxGetObjectFloatParameter
                  0 7 vrep.sim_objfloatparam_objbbox_min_x
                  vrep.simx_opmode_blocking))
       (vrep.simx_return_ok, 1.7976931348623157e308%float)
       (Raise (OverflowError "rounded value too large to represent")) /\
  step (collections.get_positions half_even group (Some (-308)))
       (Remote (vrep.simxGetObjectGroupData
                  0 4 3 vrep.simx_opmode_blocking))
       (vrep.simx_return_ok, [], [], [1.7976931348623157e308%float], [])
       (Raise (OverflowError "rounded value too large to represent")).
Proof.
  repeat split; try discriminate; econstructor; reflexivity.
Qed.

(** C4, amended.  Every call on a scene object, both constructors and
    every call on a collection translate status codes, against every
    server.  As long as every status is 0 (in [get_inv_distance]: 0 or the
    no-value flag) no [ServerError] is raised and, once the remote call
    was made, the call returns; the only exceptions are the errors that
    the payload causes afterwards: [IndexError] in [copy_paste],
    [ValueError] in [get_image], [OverflowError] where a value is rounded
    ([get_bbox_limits], [get_orientations] and [get_positions] with a
    precision).  Another status ends the run at once with the
    [ServerError] of that call, whose message names the failed operation
    and the object or collection.  Without a connection, a call that needs
    one raises [ConnectionError] and asks nothing, provided the scene
    object is not removed and the script type, if any, is supported, and
    provided the name given to a constructor is not empty. *)
Theorem C4_status_translation :
  forall tie : tie_rule,
    (forall (op : operation) (self : SceneObject),
       translates_status (accepts op) (refusal op self) (payload_error op)
         (perform tie op self)) /\
    (forall (op : operation) (self : SceneObject) (r : request),
       uses_connection op = true ->
       mentions (refusal op self r) (_name self)) /\
    (forall (op : operation) (self : SceneObject),
       _handle self <> -2 ->
       script_type_supported op = true ->
       uses_connection op = true ->
       client_id self = None ->
       exists msg, perform tie op self = Raise (ConnectionError msg)) /\
    (forall (EMPTY_NAME name : string) (vrep_sim : base.Simulator),
       translates_status is_ok
         (fun _ => format "Could not retrieve handle to {}." [name])
         (fun _ => False)
         (__init__ (Some name) vrep_sim) /\
       translates_status is_ok
         (fun _ => format "Could not retrieve handle to {}." [name])
         (fun _ => False)
         (collections.__init__ EMPTY_NAME (Some name) vrep_sim) /\
       (name <> EmptyString ->
        base.client_id vrep_sim = None ->
        (exists msg,
           __init__ (Some name) vrep_sim = Raise (ConnectionError msg)) /\
        (exists msg,
           collections.__init__ EMPTY_NAME (Some name) vrep_sim
           = Raise (ConnectionError msg)))) /\
    (forall (self : collections.Collection) (prec : option Z),
       translates_status is_ok
         (fun _ => format "Could not retrieve names of {}."
                          [collections._name self])
         (fun _ => False)
         (collections.get_names self) /\
       translates_status is_ok
         (fun _ => format "Could not retrieve orientations of {}."
                          [collections._name self])
         (rounding_error prec)
         (collections.get_orientations tie self prec) /\
       translates_status is_ok
         (fun _ => format "Could not retrieve positions of {}."
                          [collections._name self])
         (rounding_error prec)
         (collections.get_positions tie self prec) /\
       (collections.client_id self = None ->
        (exists msg,
           collections.get_names self = Raise (ConnectionError msg)) /\
        (exists msg,
           collections.get_orientations tie self prec
           = Raise (ConnectionError msg)) /\
        (exists msg,
           collections.get_positions tie self prec
           = Raise (ConnectionError msg)))).
Proof.
  intros tie. split; [|split; [|split; [|split]]].
  - intros op self. apply disciplined_sound, perform_disciplined.
  - apply refusal_names_target.
  - apply perform_disconnected.
  - intros EMPTY_NAME name vrep_sim. split; [|split].
    + apply disciplined_sound, init_disciplined.
    + apply disciplined_sound, collection_init_disciplined.
    + intros Hname Hcid. destruct name as [|c s]; [congruence|].
      unfold __init__, collections.__init__, _get_handle,
        collections._get_handle. rewrite Hcid.
      split; eexists; reflexivity.
  - intros self prec.
    destruct (collection_disciplined tie self prec) as (H1 & H2 & H3).
    split; [|split; [|split]]; try now apply disciplined_sound.
    intros Hcid.
    unfold collections.get_names, collections.get_orientations,
      collections.get_positions. rewrite Hcid.
    repeat split; eexists; reflexivity.
Qed.

Lemma C4_witness :
  (exists msg,
     perform half_even (op_get_position PyNone)
       (mkSceneObject disconnected "robot" 7)
     = Raise (ConnectionError msg)) /\
  (exists a,
     fst (run ok_server
            (perform half_even (op_get_position PyNone) live_object))
     = inr a) /\
  (forall msg,
     fst (run ok_server (perform half_even op_copy_paste live_object))
     <> inl (ServerError msg)) /\
  fst (run failing_server
         (perform half_even (op_set_velocity 1.5) live_object))
  = inl (ServerError "Could not set robot velocity.") /\
  mentions "Could not set robot velocity." "robot".
Proof.
  destruct (C4_status_translation half_even)
    as (Hrun & Hnames & Hconn & _ & _).
  split; [|split; [|split; [|split]]].
  - apply (Hconn (op_get_position PyNone)
                 (mkSceneObject disconnected "robot" 7));
      (discriminate || reflexivity).
  - destruct (Hrun (op_get_position PyNone) live_object ok_server 0%nat)
      as [Hok _].
    destruct (Hok eq_refl) as [_ Hret].
    destruct (Hret eq_refl) as [Ha | (e & _ & [])]. exact Ha.
  - destruct (Hrun op_copy_paste live_object ok_server 0%nat) as [Hok _].
    apply Hok. reflexivity.
  - destruct (Hrun (op_set_velocity 1.5) live_object failing_server 0%nat)
      as [_ Hbad].
    apply (Hbad [] (mkExchange (Remote (vrep.simxSetJointTargetVelocity
                                          0 7 1.5 vrep.simx_opmode_blocking))
                               8) []); reflexivity.
  - exact (Hnames (op_set_velocity 1.5) live_object IsSimStarted eq_refl).
Defined.

(** * Further properties *)

(** ** Reshaping, whatever the length *)

Lemma range_from_zero :
  forall stop step : Z,
    0 < step -> 0 <= stop ->
    range 0 stop step
    = inr (map (fun k => 0 + Z.of_nat k * step)
               (seq 0 (Z.to_nat ((stop + step - 1) / step)))).
Proof.
  intros stop step Hstep Hstop. unfold range, range_len.
  destruct (Z.eqb_spec step 0); [lia|].
  destruct (Z.ltb_spec 0 step); [|lia].
  destruct (Z.ltb_spec 0 stop).
  - replace (stop + step - 1) with (stop - 0 - 1 + 1 * step) by lia.
    rewrite Z.div_add by lia. reflexivity.
  - replace stop with 0 by lia. rewrite Z.div_small by lia. reflexivity.
Qed.

(** A slice that starts at a multiple of [w] and is [w] long is a chunk,
    also beyond the end of the list. *)
Lemma slice_chunk_at :
  forall (A : Type) (l : list A) (w k : nat),
    slice l (0 + Z.of_nat k * Z.of_nat w)
            (0 + Z.of_nat k * Z.of_nat w + Z.of_nat w)
    = chunk_at w l k.
Proof.
  intros A l w k. unfold slice, slice_bound, chunk_at, len.
  rewrite <- Nat2Z.inj_mul. generalize (k * w)%nat. intros p.
  destruct (Z.ltb_spec (0 + Z.of_nat p) 0); [lia|].
  destruct (Z.ltb_spec (0 + Z.of_nat p + Z.of_nat w) 0); [lia|].
  destruct (Nat.le_gt_cases (length l) p) as [Hout | Hin].
  - rewrite !Z.min_r by lia. rewrite Z.sub_diag. cbn [Z.to_nat firstn].
    rewrite (skipn_all2 l) by assumption. now rewrite firstn_nil.
  - rewrite (Z.min_l (0 + Z.of_nat p)) by lia.
    replace (Z.to_nat (0 + Z.of_nat p)) with p by lia.
    destruct (Nat.le_gt_cases (p + w) (length l)) as [Hfit | Hcut].
    + rewrite Z.min_l by lia. f_equal. lia.
    + rewrite Z.min_r by lia.
      rewrite !firstn_all2; [reflexivity | |]; rewrite length_skipn; lia.
Qed.

Lemma slices_chunk_at :
  forall (A : Type) (l : list A) (w n : nat),
    slices l (map (fun k => 0 + Z.of_nat k * Z.of_nat w) (seq 0 n))
           (Z.of_nat w)
    = map (chunk_at w l) (seq 0 n).
Proof.
  intros A l w n. unfold slices. rewrite map_map.
  apply map_ext. intros k. apply slice_chunk_at.
Qed.

Lemma triples_any :
  forall values : list float,
    collections.triples values
    = Return (map (chunk_at 3 values)
                  (seq 0 ((length values + 2) / 3))).
Proof.
  intros values. unfold collections.triples, len.
  rewrite range_from_zero by lia. cbn [eval bind]. f_equal.
  replace (Z.to_nat ((Z.of_nat (length values) + 3 - 1) / 3))
    with ((length values + 2) / 3)%nat.
  - apply (slices_chunk_at _ values 3).
  - rewrite <- (Nat2Z.id ((length values + 2) / 3)). f_equal.
    rewrite Nat2Z.inj_div. f_equal. lia.
Qed.

Lemma comprehension_eval :
  forall (A B : Type) (f : A -> exn + B) (l : list A) (rs : list B),
    Forall2 (fun a r => f a = inr r) l rs ->
    comprehension l (fun a => eval (f a)) = Return rs.
Proof.
  intros A B f l rs H. induction H as [|a r l rs Ha _ IH]; [reflexivity|].
  cbn [comprehension]. rewrite Ha, IH. reflexivity.
Qed.

Lemma round_all_rounded :
  forall (tie : tie_rule) (prec : option Z) (values rs : list float),
    Forall2 (fun v r => rounded tie prec v = inr r) values rs ->
    collections.round_all tie values prec = Return rs.
Proof.
  intros tie [p|] values rs H; unfold collections.round_all.
  - now apply comprehension_eval.
  - f_equal. induction H as [|v r l rs' Hv _ IH]; [reflexivity|].
    cbn in Hv. inversion Hv. now rewrite IH.
Qed.

(** X1: [get_positions] and [get_orientations] accept a flat list of any
    length.  When every value can be rounded as asked, the result is the
    rounded values cut into lists of three in order: its concatenation is
    the list of rounded values, every list but the last has three values,
    and the last has one to three.  A length that is not a multiple of 3 is
    not an error, and no value yields no list. *)
Theorem X1_grouped_in_threes :
  forall (tie : tie_rule) (self : collections.Collection) (cid : Z)
         (handles ints : list Z) (names : list string) (prec : option Z)
         (values rs : list float),
    collections.client_id self = Some cid ->
    Forall2 (fun v r => rounded tie prec v = inr r) values rs ->
    exists result : list (list float),
      step (collections.get_positions tie self prec)
           (Remote (vrep.simxGetObjectGroupData
                      cid (collections._handle self) 3
                      vrep.simx_opmode_blocking))
           (vrep.simx_return_ok, handles, ints, values, names)
           (Return result) /\
      step (collections.get_orientations tie self prec)
           (Remote (vrep.simxGetObjectGroupData
                      cid (collections._handle self) 5
                      vrep.simx_opmode_blocking))
           (vrep.simx_return_ok, handles, ints, values, names)
           (Return result) /\
      concat result = rs /\
      length result = ((length rs + 2) / 3)%nat /\
      Forall (fun t => (1 <= length t <= 3)%nat) result /\
      (forall i : nat,
         (S i < length result)%nat -> length (nth i result []) = 3%nat).
Proof.
  intros tie self cid handles ints names prec values rs Hcid Hround.
  set (n := ((length rs + 2) / 3)%nat).
  assert (Hn : (length rs <= n * 3 < length rs + 3)%nat).
  { unfold n. pose proof (Nat.div_mod_eq (length rs + 2) 3) as Hd.
    pose proof (Nat.mod_upper_bound (length rs + 2) 3). lia. }
  exists (map (chunk_at 3 rs) (seq 0 n)).
  assert (Hstep : bind (collections.round_all tie values prec)
                        collections.triples
                   = Return (map (chunk_at 3 rs) (seq 0 n))).
  { rewrite (round_all_rounded tie prec values rs Hround). cbn [bind].
    apply triples_any. }
  unfold collections.get_positions, collections.get_orientations.
  rewrite Hcid. split; [|split; [|split; [|split; [|split]]]].
  - econstructor; [reflexivity|]. exact Hstep.
  - econstructor; [reflexivity|]. exact Hstep.
  - rewrite concat_chunks. cbn [Nat.mul skipn]. apply firstn_all2. lia.
  - now rewrite length_map, length_seq.
  - apply Forall_forall. intros t Ht. apply in_map_iff in Ht.
    destruct Ht as (k & <- & Hk). apply in_seq in Hk.
    unfold chunk_at. rewrite length_firstn, length_skipn. lia.
  - intros i. rewrite length_map, length_seq. intros Hi.
    rewrite nth_map_seq by lia. apply chunk_at_length. lia.
Qed.

Lemma X1_witness :
  exists result : list (list float),
    step (collections.get_positions half_even group None)
         (Remote (vrep.simxGetObjectGroupData 0 4 3 vrep.simx_opmode_blocking))
         (0, [], [], [0.5; 1.5; 2.5; 3.5]%float, [])
         (Return result) /\
    step (collections.get_orientations half_even group None)
         (Remote (vrep.simxGetObjectGroupData 0 4 5 vrep.simx_opmode_blocking))
         (0, [], [], [0.5; 1.5; 2.5; 3.5]%float, [])
         (Return result) /\
    concat result = [0.5; 1.5; 2.5; 3.5]%float /\
    length result = 2%nat /\
    Forall (fun t => (1 <= length t <= 3)%nat) result /\
    (forall i : nat,
       (S i < length result)%nat -> length (nth i result []) = 3%nat).
Proof.
  apply (X1_grouped_in_threes half_even group 0 [] [] [] None
           [0.5; 1.5; 2.5; 3.5]%float [0.5; 1.5; 2.5; 3.5]%float eq_refl).
  repeat constructor.
Defined.

(** ** Images *)

Lemma arrange_rows_chunks :
  forall (A : Type) (image : list A) (w h : nat),
    (0 < w)%nat ->
    arrange_rows image (Z.of_nat w) (Z.of_nat w * Z.of_nat h)
    = Return (rev (map (chunk_at w image) (seq 0 h))).
Proof.
  intros A image w h Hw. unfold arrange_rows.
  replace (Z.of_nat w * Z.of_nat h) with (Z.of_nat h * Z.of_nat w) by lia.
  rewrite range_multiple by lia. cbn [eval bind].
  unfold reversed, slices. rewrite map_rev. do 2 f_equal.
  apply slices_chunk_at.
Qed.

Lemma rgb_pixels_chunks :
  forall (bytes : list Z) (w h : nat),
    range 0 (3 * (Z.of_nat w * Z.of_nat h)) 3
    = inr (map (fun k => 0 + Z.of_nat k * 3) (seq 0 (h * w))).
Proof.
  intros bytes w h.
  replace (3 * (Z.of_nat w * Z.of_nat h)) with (Z.of_nat (h * w) * 3) by lia.
  now rewrite range_multiple by lia.
Qed.

Lemma in_chunk_at :
  forall (A : Type) (l : list A) (w k : nat) (a : A),
    In a (chunk_at w l k) -> In a l.
Proof.
  intros A l w k a H. unfold chunk_at in H.
  rewrite <- (firstn_skipn (k * w) l). apply in_or_app. right.
  rewrite <- (firstn_skipn w (skipn (k * w) l)). apply in_or_app.
  now left.
Qed.

Lemma unsigned_byte :
  forall v : Z,
    -128 <= v <= 127 -> (if 0 <=? v then v else v + 256) = v mod 256.
Proof.
  intros v Hv. destruct (Z.leb_spec 0 v).
  - now rewrite Z.mod_small by lia.
  - rewrite <- (Z_mod_plus_full v 1 256). now rewrite Z.mod_small by lia.
Qed.

(** X2: [get_image(grayscale=True)] on a sensor that is not removed and has
    a connection, answered with success, a resolution of [width] by
    [height] with [width] at least 1 and a buffer of [width * height]
    values between -128 and 127: the result has [height] rows of [width]
    values; the value in row [r] and column [c] is the value of the buffer
    at index [(height - 1 - r) * width + c] taken modulo 256.  The rows come
    out in the reverse order of the buffer. *)
Theorem X2_grayscale_image :
  forall (self : VisionSensor) (cid : Z) (buffer : list Z)
         (width height : nat),
    _handle self <> -2 ->
    client_id self = Some cid ->
    (0 < width)%nat ->
    length buffer = (width * height)%nat ->
    Forall (fun v => -128 <= v <= 127) buffer ->
    exists rows : list (list Z),
      step (get_image self true)
           (Remote (vrep.simxGetVisionSensorImage
                      cid (_handle self) true vrep.simx_opmode_blocking))
           (vrep.simx_return_ok, (Z.of_nat width, Z.of_nat height), buffer)
           (Return (Grayscale rows)) /\
      length rows = height /\
      (forall r c : nat,
         (r < height)%nat -> (c < width)%nat ->
         length (nth r rows []) = width /\
         nth c (nth r rows []) 0
         = nth ((height - 1 - r) * width + c) buffer 0 mod 256).
Proof.
  intros self cid buffer w h Hlive Hcid Hw Hlen Hrange.
  apply Z.eqb_neq in Hlive.
  set (unsigned := fun val : Z => if 0 <=? val then val else val + 256).
  set (bytes := map unsigned buffer).
  set (rows := map (chunk_at w bytes) (seq 0 h)).
  assert (Hbytes : length bytes = (w * h)%nat)
    by (unfold bytes; now rewrite length_map).
  assert (Hrows : length rows = h)
    by (unfold rows; now rewrite length_map, length_seq).
  exists (rev rows). split; [|split].
  - unfold get_image. rewrite Hlive, Hcid.
    econstructor; [reflexivity|]. cbn beta iota.
    change (negb (vrep.simx_return_ok =? vrep.simx_return_ok)) with false.
    cbn [negb]. fold unsigned. fold bytes.
    now rewrite arrange_rows_chunks.
  - now rewrite length_rev.
  - intros r c Hr Hc.
    assert (Hrow : nth r (rev rows) [] = chunk_at w bytes (h - 1 - r)).
    { rewrite rev_nth by lia. rewrite Hrows. unfold rows.
      replace (h - S r)%nat with (h - 1 - r)%nat by lia.
      apply nth_map_seq. lia. }
    assert (Hidx : ((h - 1 - r) * w + c < length buffer)%nat) by nia.
    rewrite Hrow. split.
    + apply chunk_at_length. nia.
    + rewrite nth_chunk_at by assumption. unfold bytes.
      change 0 with (unsigned 0) at 1. rewrite map_nth.
      apply unsigned_byte. rewrite Forall_forall in Hrange.
      apply Hrange. now apply nth_In.
Qed.

Lemma X2_witness :
  exists rows : list (list Z),
    step (get_image live_object true)
         (Remote (vrep.simxGetVisionSensorImage
                    0 7 true vrep.simx_opmode_blocking))
         (0, (2, 2), [10; -1; -128; 127])
         (Return (Grayscale rows)) /\
    length rows = 2%nat /\
    (forall r c : nat,
       (r < 2)%nat -> (c < 2)%nat ->
       length (nth r rows []) = 2%nat /\
       nth c (nth r rows []) 0
       = nth ((2 - 1 - r) * 2 + c) [10; -1; -128; 127] 0 mod 256).
Proof.
  assert (Hlive : _handle live_object <> -2) by discriminate.
  apply (X2_grayscale_image live_object 0 [10; -1; -128; 127] 2%nat 2%nat
           Hlive eq_refl).
  - lia.
  - reflexivity.
  - repeat constructor; lia.
Defined.

(** X3: the length of the buffer is never checked.  For a sensor that is
    not removed and has a connection, an answer with success and a
    resolution of [width] by [height] with [width] at least 1 makes
    [get_image] return [height] rows whatever the buffer holds.  In RGB
    every row has exactly [width] pixels, each of at most three components
    (fewer where the buffer ends early); in grayscale every row has at most
    [width] values. *)
Theorem X3_image_shape :
  forall (self : VisionSensor) (cid : Z) (buffer : list Z)
         (width height : nat),
    _handle self <> -2 ->
    client_id self = Some cid ->
    (0 < width)%nat ->
    (exists rows : list (list (list Z)),
       step (get_image self false)
            (Remote (vrep.simxGetVisionSensorImage
                       cid (_handle self) false vrep.simx_opmode_blocking))
            (vrep.simx_return_ok, (Z.of_nat width, Z.of_nat height), buffer)
            (Return (RGB rows)) /\
       length rows = height /\
       Forall (fun row =>
                 length row = width /\
                 Forall (fun pixel => (length pixel <= 3)%nat) row) rows) /\
    (exists rows : list (list Z),
       step (get_image self true)
            (Remote (vrep.simxGetVisionSensorImage
                       cid (_handle self) true vrep.simx_opmode_blocking))
            (vrep.simx_return_ok, (Z.of_nat width, Z.of_nat height), buffer)
            (Return (Grayscale rows)) /\
       length rows = height /\
       Forall (fun row => (length row <= width)%nat) rows).
Proof.
  intros self cid buffer w h Hlive Hcid Hw.
  apply Z.eqb_neq in Hlive.
  set (unsigned := fun val : Z => if 0 <=? val then val else val + 256).
  set (bytes := map unsigned buffer).
  set (pixels := map (chunk_at 3 bytes) (seq 0 (h * w))).
  assert (Hpixels : length pixels = (h * w)%nat)
    by (unfold pixels; now rewrite length_map, length_seq).
  split.
  - exists (rev (map (chunk_at w pixels) (seq 0 h))). split; [|split].
    + unfold get_image. rewrite Hlive, Hcid.
      econstructor; [reflexivity|]. cbn beta iota.
      change (negb (vrep.simx_return_ok =? vrep.simx_return_ok)) with false.
      cbn [negb]. fold unsigned. fold bytes.
      rewrite (rgb_pixels_chunks bytes w h). cbn [eval bind].
      assert (Hs : slices bytes
                     (map (fun k => 0 + Z.of_nat k * 3) (seq 0 (h * w))) 3
                   = pixels) by apply (slices_chunk_at _ bytes 3).
      rewrite Hs. now rewrite arrange_rows_chunks.
    + now rewrite length_rev, length_map, length_seq.
    + apply Forall_rev, Forall_forall. intros row Hrow.
      apply in_map_iff in Hrow. destruct Hrow as (k & <- & Hk).
      apply in_seq in Hk. split.
      * apply chunk_at_length. rewrite Hpixels. nia.
      * apply Forall_forall. intros pixel Hpx.
        apply in_chunk_at in Hpx. unfold pixels in Hpx. apply in_map_iff in Hpx.
        destruct Hpx as (j & <- & _). unfold chunk_at.
        rewrite length_firstn. lia.
  - exists (rev (map (chunk_at w bytes) (seq 0 h))). split; [|split].
    + unfold get_image. rewrite Hlive, Hcid.
      econstructor; [reflexivity|]. cbn beta iota.
      change (negb (vrep.simx_return_ok =? vrep.simx_return_ok)) with false.
      cbn [negb]. fold unsigned. fold bytes.
      now rewrite arrange_rows_chunks.
    + now rewrite length_rev, length_map, length_seq.
    + apply Forall_rev, Forall_forall. intros row Hrow.
      apply in_map_iff in Hrow. destruct Hrow as (k & <- & _).
      unfold chunk_at. rewrite length_firstn. lia.
Qed.

Lemma X3_witness :
  (exists rows : list (list (list Z)),
     step (get_image live_object false)
          (Remote (vrep.simxGetVisionSensorImage
                     0 7 false vrep.simx_opmode_blocking))
          (0, (2, 1), [10; -1; 30; 5])
          (Return (RGB rows)) /\
     length rows = 1%nat /\
     Forall (fun row =>
               length row = 2%nat /\
               Forall (fun pixel => (length pixel <= 3)%nat) row) rows) /\
  (exists rows : list (list Z),
     step (get_image live_object true)
          (Remote (vrep.simxGetVisionSensorImage
                     0 7 true vrep.simx_opmode_blocking))
          (0, (2, 1), [10; -1; 30; 5])
          (Return (Grayscale rows)) /\
     length rows = 1%nat /\
     Forall (fun row => (length row <= 2)%nat) rows).
Proof.
  assert (Hlive : _handle live_object <> -2) by discriminate.
  apply (X3_image_shape live_object 0 [10; -1; 30; 5] 2%nat 1%nat
           Hlive eq_refl).
  lia.
Defined.

(** ** Reference objects *)

(** X4: how a reference object resolves.  A scene object given as
    reference resolves to its own handle exactly when that handle is not
    negative, so a reference never resolves to a negative handle; a removed
    one raises the error of its own [handle] property, whose message
    names the removed object and not the role it was given in; [None]
    resolves to -1 and an integer to itself. *)
Theorem X4_reference_resolution :
  forall (o : SceneObject) (name : string),
    (0 <= _handle o ->
     get_handle (PySceneObject o) name = Return (_handle o)) /\
    (forall h : Z,
       get_handle (PySceneObject o) name = Return h ->
       0 <= h /\ h = _handle o) /\
    (_handle o = -2 ->
     get_handle (PySceneObject o) name
     = Raise (RuntimeError (format
         "Could not retrieve handle to {}: object removed." [_name o]))) /\
    get_handle PyNone name = Return (-1) /\
    (forall i : Z, get_handle (PyInt i) name = Return i).
Proof.
  intros o name. unfold get_handle, handle.
  split; [|split; [|split; [|split]]].
  - intros H. apply Z.leb_le in H. now rewrite H.
  - intros h.
    destruct (Z.leb_spec 0 (_handle o)); cbn.
    + intros Hh. inversion Hh. subst h. split; [assumption | reflexivity].
    + destruct (_handle o =? -1); cbn; [discriminate|].
      destruct (_handle o =? -2); discriminate.
  - intros H. rewrite H. reflexivity.
  - reflexivity.
  - reflexivity.
Qed.

Lemma X4_witness :
  get_handle (PySceneObject live_object) "relative" = Return 7 /\
  get_handle (PySceneObject removed_object) "relative"
  = Raise (RuntimeError
      "Could not retrieve handle to robot: object removed.").
Proof.
  destruct (X4_reference_resolution live_object "relative")
    as (Hlive & _).
  destruct (X4_reference_resolution removed_object "relative")
    as (_ & _ & Hremoved & _).
  split.
  - apply Hlive. cbn. lia.
  - apply Hremoved. reflexivity.
Defined.

(** X5: a reference object that does not resolve stops the call before
    any remote call.  On an object that is not removed and has a
    connection, [get_position], [get_orientation] and [set_parent] raise
    the error of the resolution and ask nothing; so do [set_position] and
    [set_orientation] with [allow_in_sim=True]; without it the simulator
    is asked first, and the error is raised when no simulation is
    started. *)
Theorem X5_reference_checked_first :
  forall (self : SceneObject) (cid : Z) (values : list float)
         (reference : handle_source) (keep_pos : bool) (e e' : exn),
    _handle self <> -2 ->
    client_id self = Some cid ->
    get_handle reference "relative" = Raise e ->
    get_handle reference "parent" = Raise e' ->
    get_position self reference = Raise e /\
    get_orientation self reference = Raise e /\
    set_parent self reference keep_pos = Raise e' /\
    set_position self values reference true = Raise e /\
    set_orientation self values reference true = Raise e /\
    step (set_position self values reference false) IsSimStarted false
         (Raise e) /\
    step (set_orientation self values reference false) IsSimStarted false
         (Raise e).
Proof.
  intros self cid values reference keep_pos e e' Hlive Hcid He He'.
  apply Z.eqb_neq in Hlive.
  unfold get_position, get_orientation, set_parent, set_position,
    set_orientation.
  rewrite Hlive, Hcid, He, He'.
  repeat split; econstructor; reflexivity.
Qed.

Lemma X5_witness :
  get_position live_object (PySceneObject removed_object)
  = Raise (RuntimeError
      "Could not retrieve handle to robot: object removed.") /\
  set_parent live_object (PySceneObject unnamed_object) true
  = Raise (ValueError "Handle of parent is invalid.") /\
  step (set_position live_object [0.5]%float PyOther false)
       IsSimStarted false
       (Raise (TypeError "Type of relative is not supported.")).
Proof.
  assert (Hlive : _handle live_object <> -2) by discriminate.
  split; [|split].
  - apply (X5_reference_checked_first live_object 0 [] 
             (PySceneObject removed_object) true _ _ Hlive eq_refl
             eq_refl eq_refl).
  - apply (X5_reference_checked_first live_object 0 []
             (PySceneObject unnamed_object) true _ _ Hlive eq_refl
             eq_refl eq_refl).
  - apply (X5_reference_checked_first live_object 0 [0.5]%float
             PyOther true _ _ Hlive eq_refl eq_refl eq_refl).
Defined.

(** ** Bounding box *)

(** X6: [get_bbox_limits] asks for the six limits in the order x_min,
    x_max, y_min, y_max, z_min, z_max.  On an object that is not removed
    and has a connection, when every answer has status 0 and every limit
    can be rounded as asked, the result pairs them per axis: the lists
    (x_min, x_max), (y_min, y_max), (z_min, z_max) of the rounded limits,
    after exactly these six requests. *)
Theorem X6_bbox_limits_paired :
  forall (tie : tie_rule) (self : SceneObject) (cid : Z) (prec : option Z)
         (srv : server) (limit : nat -> float),
    _handle self <> -2 ->
    client_id self = Some cid ->
    (forall i : nat,
       (i < 6)%nat ->
       fst (bbox_answer srv cid (_handle self) i) = vrep.simx_return_ok /\
       rounded tie prec (snd (bbox_answer srv cid (_handle self) i))
       = inr (limit i)) ->
    run srv (get_bbox_limits tie self prec)
    = (inr [ [limit 0%nat; limit 1%nat];
             [limit 2%nat; limit 3%nat];
             [limit 4%nat; limit 5%nat] ],
       map (bbox_exchange srv cid (_handle self)) (seq 0 6)).
Proof.
  intros tie self cid prec srv limit Hlive Hcid Hsrv.
  apply Z.eqb_neq in Hlive.
  unfold get_bbox_limits, run. rewrite Hlive, Hcid.
  assert (H : forall i, (i < 6)%nat ->
            exists v, srv i (bbox_request cid (_handle self) i)
                      = (vrep.simx_return_ok, v) /\
                      match prec with
                      | Some p => eval (round tie v p)
                      | None => Return v
                      end = Return (limit i)).
  { intros i Hi. destruct (Hsrv i Hi) as [H1 H2].
    unfold bbox_answer in H1, H2.
    destruct (srv i (bbox_request cid (_handle self) i)) as [res v].
    cbn [fst snd] in H1, H2. subst res. exists v. split; [reflexivity|].
    unfold rounded in H2. destruct prec; [now rewrite H2 | now inversion H2]. }
  destruct (H 0%nat ltac:(lia)) as (v0 & E0 & R0).
  destruct (H 1%nat ltac:(lia)) as (v1 & E1 & R1).
  destruct (H 2%nat ltac:(lia)) as (v2 & E2 & R2).
  destruct (H 3%nat ltac:(lia)) as (v3 & E3 & R3).
  destruct (H 4%nat ltac:(lia)) as (v4 & E4 & R4).
  destruct (H 5%nat ltac:(lia)) as (v5 & E5 & R5).
  unfold bbox_request in E0, E1, E2, E3, E4, E5.
  cbn [nth BBOX_LIMITS snd] in E0, E1, E2, E3, E4, E5.
  cbn [seq map]. unfold bbox_exchange, bbox_request.
  cbn [nth BBOX_LIMITS snd bbox_loop bind remote run_from].
  rewrite E0. cbn beta iota. cbn [Z.eqb vrep.simx_return_ok negb].
  rewrite R0. cbn [bind run_from].
  rewrite E1. cbn beta iota. cbn [Z.eqb vrep.simx_return_ok negb].
  rewrite R1. cbn [bind run_from].
  rewrite E2. cbn beta iota. cbn [Z.eqb vrep.simx_return_ok negb].
  rewrite R2. cbn [bind run_from].
  rewrite E3. cbn beta iota. cbn [Z.eqb vrep.simx_return_ok negb].
  rewrite R3. cbn [bind run_from].
  rewrite E4. cbn beta iota. cbn [Z.eqb vrep.simx_return_ok negb].
  rewrite R4. cbn [bind run_from].
  rewrite E5. cbn beta iota. cbn [Z.eqb vrep.simx_return_ok negb].
  rewrite R5. cbn [bind run_from].
  reflexivity.
Qed.

Lemma X6_witness :
  run (with_bbox ok_server box) (get_bbox_limits half_even live_object None)
  = (inr [[-1.0; 1.0]; [-0.5; 0.5]; [0.0; 3.0]]%float,
     map (bbox_exchange (with_bbox ok_server box) 0 7) (seq 0 6)).
Proof.
  assert (Hlive : _handle live_object <> -2) by discriminate.
  apply (X6_bbox_limits_paired half_even live_object 0 None
           (with_bbox ok_server box)
           (fun i => nth i [-1.0; 1.0; -0.5; 0.5; 0.0; 3.0]%float 0%float)
           Hlive eq_refl).
  intros i Hi.
  destruct i as [|[|[|[|[|[|i]]]]]]; try (split; reflexivity). lia.
Defined.

(** The loop of [get_bbox_limits] up to the first limit that fails: its
    status is not 0, or its value cannot be rounded. *)
Lemma bbox_loop_stops :
  forall (tie : tie_rule) (self : SceneObject) (cid : Z) (prec : option Z)
         (srv : server) (limits : list (string * vrep.objfloatparam))
         (d : string * vrep.objfloatparam) (e : exn)
         (k n : nat) (bbox_limits : list float),
    (k < length limits)%nat ->
    (forall i : nat,
       (i < k)%nat ->
       exists v r,
         srv (n + i)%nat
             (Remote (vrep.simxGetObjectFloatParameter
                        cid (_handle self) (snd (nth i limits d))
                        vrep.simx_opmode_blocking))
         = (vrep.simx_return_ok, v) /\
         rounded tie prec v = inr r) ->
    (fst (srv (n + k)%nat
              (Remote (vrep.simxGetObjectFloatParameter
                         cid (_handle self) (snd (nth k limits d))
                         vrep.simx_opmode_blocking)))
     <> vrep.simx_return_ok /\
     e = ServerError (format
           "Could not retrieve {0} limit of {1} bounding box."
           [fst (nth k limits d); _name self])
     \/
     fst (srv (n + k)%nat
              (Remote (vrep.simxGetObjectFloatParameter
                         cid (_handle self) (snd (nth k limits d))
                         vrep.simx_opmode_blocking)))
     = vrep.simx_return_ok /\
     rounded tie prec
       (snd (srv (n + k)%nat
                 (Remote (vrep.simxGetObjectFloatParameter
                            cid (_handle self) (snd (nth k limits d))
                            vrep.simx_opmode_blocking))))
     = inl e) ->
    run_from srv n (bbox_loop tie self cid prec limits bbox_limits)
    = (inl e,
       map (fun i =>
              mkExchange
                (Remote (vrep.simxGetObjectFloatParameter
                           cid (_handle self) (snd (nth i limits d))
                           vrep.simx_opmode_blocking))
                (srv (n + i)%nat
                     (Remote (vrep.simxGetObjectFloatParameter
                                cid (_handle self) (snd (nth i limits d))
                                vrep.simx_opmode_blocking))))
           (seq 0 (S k))).
Proof.
  intros tie self cid prec srv limits d e.
  induction limits as [|limit limits IH]; intros k n acc Hk Hok Hbad;
    [cbn in Hk; lia|].
  destruct k as [|k].
  - cbn [nth] in Hbad |- *. rewrite Nat.add_0_r in Hbad.
    cbn [bbox_loop bind remote run_from seq map nth].
    rewrite Nat.add_0_r.
    destruct (srv n _) as [res v]. cbn [fst snd] in Hbad.
    destruct Hbad as [[Hne ->] | [-> Hr]].
    + apply Z.eqb_neq in Hne. cbn beta iota. rewrite Hne. reflexivity.
    + cbn beta iota.
      change (negb (vrep.simx_return_ok =? vrep.simx_return_ok)) with false.
      cbn beta iota. unfold rounded in Hr.
      destruct prec as [p|]; [|discriminate Hr].
      rewrite Hr. reflexivity.
  - destruct (Hok 0%nat ltac:(lia)) as (v & r & E & R).
    cbn [nth] in E. rewrite Nat.add_0_r in E.
    cbn [bbox_loop bind remote run_from].
    rewrite E. cbn beta iota.
    change (negb (vrep.simx_return_ok =? vrep.simx_return_ok)) with false.
    cbn beta iota.
    assert (Hr : match prec with
                 | Some p => eval (round tie v p)
                 | None => Return v
                 end = Return r).
    { unfold rounded in R. destruct prec; [now rewrite R | now inversion R]. }
    rewrite Hr. cbn [bind].
    rewrite (IH k (S n) (acc ++ [r])).
    + cbn [nth]. f_equal.
      change (seq 0 (S (S k))) with (0%nat :: seq 1 (S k)).
      cbn [map nth]. rewrite Nat.add_0_r, E. f_equal.
      rewrite <- seq_shift, map_map. apply map_ext. intros i.
      cbn [nth]. now rewrite Nat.add_succ_r.
    + cbn in Hk. lia.
    + intros i Hi. destruct (Hok (S i) ltac:(lia)) as (v' & r' & E' & R').
      cbn [nth] in E'. rewrite Nat.add_succ_r in E'. eauto.
    + cbn [nth] in Hbad. now rewrite Nat.add_succ_r in Hbad.
Qed.

(** X7: [get_bbox_limits] stops at the first limit that fails.  On an
    object that is not removed and has a connection, let limit [k] be the
    first whose answer has a status that is not 0 or a value that cannot
    be rounded as asked: the answers before it have status 0 and values
    that can be rounded.  When its status is not 0 the call raises the
    [ServerError] that names that limit and the object; when its status is
    0 and rounding its value raises, the call raises that error.  Either
    way the call ends after exactly [k + 1] requests, without a result:
    the remaining limits are not asked for. *)
Theorem X7_bbox_first_failure :
  forall (tie : tie_rule) (self : SceneObject) (cid : Z) (prec : option Z)
         (srv : server) (k : nat),
    _handle self <> -2 ->
    client_id self = Some cid ->
    (k < 6)%nat ->
    (forall i : nat,
       (i < k)%nat ->
       fst (bbox_answer srv cid (_handle self) i) = vrep.simx_return_ok /\
       exists r,
         rounded tie prec (snd (bbox_answer srv cid (_handle self) i))
         = inr r) ->
    (fst (bbox_answer srv cid (_handle self) k) <> vrep.simx_return_ok ->
     run srv (get_bbox_limits tie self prec)
     = (inl (ServerError (format
               "Could not retrieve {0} limit of {1} bounding box."
               [fst (nth k BBOX_LIMITS
                         (EmptyString,
                          vrep.sim_objfloatparam_objbbox_min_x));
                _name self])),
        map (bbox_exchange srv cid (_handle self)) (seq 0 (S k)))) /\
    (forall e : exn,
       fst (bbox_answer srv cid (_handle self) k) = vrep.simx_return_ok ->
       rounded tie prec (snd (bbox_answer srv cid (_handle self) k))
       = inl e ->
       run srv (get_bbox_limits tie self prec)
       = (inl e,
          map (bbox_exchange srv cid (_handle self)) (seq 0 (S k)))).
Proof.
  intros tie self cid prec srv k Hlive Hcid Hk Hok.
  apply Z.eqb_neq in Hlive.
  assert (Hloop : forall e : exn,
            (fst (bbox_answer srv cid (_handle self) k)
             <> vrep.simx_return_ok /\
             e = ServerError (format
                   "Could not retrieve {0} limit of {1} bounding box."
                   [fst (nth k BBOX_LIMITS
                             (EmptyString,
                              vrep.sim_objfloatparam_objbbox_min_x));
                    _name self])
             \/
             fst (bbox_answer srv cid (_handle self) k)
             = vrep.simx_return_ok /\
             rounded tie prec (snd (bbox_answer srv cid (_handle self) k))
             = inl e) ->
            run srv (get_bbox_limits tie self prec)
            = (inl e,
               map (bbox_exchange srv cid (_handle self)) (seq 0 (S k)))).
  { intros e He.
    unfold get_bbox_limits, run. rewrite Hlive, Hcid.
    pose proof (bbox_loop_stops tie self cid prec srv BBOX_LIMITS
                  (EmptyString, vrep.sim_objfloatparam_objbbox_min_x)
                  e k 0%nat []) as Hstop.
    cbn [Nat.add] in Hstop.
    assert (Hrun : run_from srv 0
                     (bbox_loop tie self cid prec BBOX_LIMITS [])
                   = (inl e,
                      map (bbox_exchange srv cid (_handle self))
                          (seq 0 (S k)))).
    { apply Hstop.
      - exact Hk.
      - intros i Hi. destruct (Hok i Hi) as [H1 [r H2]].
        unfold bbox_answer, bbox_request in H1, H2.
        destruct (srv i _) as [res v]. cbn [fst snd] in H1, H2.
        subst res. eauto.
      - exact He. }
    clear Hstop. revert Hrun.
    generalize (bbox_loop tie self cid prec BBOX_LIMITS []). intros p Hrun.
    now apply run_from_bind_raise. }
  split.
  - intros Hbad. apply Hloop. left. now split.
  - intros e Hst Hr. apply Hloop. right. now split.
Qed.

Lemma X7_witness :
  run (with_bbox ok_server box_without_y_min)
      (get_bbox_limits half_even live_object None)
  = (inl (ServerError
            "Could not retrieve y_min limit of robot bounding box."),
     map (bbox_exchange (with_bbox ok_server box_without_y_min) 0 7)
         (seq 0 3)) /\
  run (with_bbox ok_server huge_box)
      (get_bbox_limits half_even live_object (Some (-308)))
  = (inl (OverflowError "rounded value too large to represent"),
     map (bbox_exchange (with_bbox ok_server huge_box) 0 7) (seq 0 2)).
Proof.
  assert (Hlive : _handle live_object <> -2) by discriminate.
  split.
  - destruct (X7_bbox_first_failure half_even live_object 0 None
                (with_bbox ok_server box_without_y_min) 2%nat Hlive eq_refl)
      as [Hrefused _].
    + lia.
    + intros i Hi. destruct i as [|[|i]]; [| |lia];
        (split; [reflexivity | eexists; reflexivity]).
    + apply Hrefused. discriminate.
  - destruct (X7_bbox_first_failure half_even live_object 0 (Some (-308))
                (with_bbox ok_server huge_box) 1%nat Hlive eq_refl)
      as [_ Hround].
    + lia.
    + intros i Hi. destruct i as [|i]; [|lia].
      split; [reflexivity | eexists; reflexivity].
    + apply Hround; reflexivity.
Defined.

(** ** Arrays *)

Lemma run_from_stationary :
  forall (A : Type) (srv : server) (p : prog A) (n : nat),
    stationary srv -> run_from srv n p = run srv p.
Proof.
  intros A srv p n Hs. unfold run. generalize 0%nat. revert n.
  induction p as [a | e | r k IH]; intros n m; [reflexivity..|].
  cbn [run_from]. rewrite (Hs n r), (Hs m r).
  now rewrite (IH _ (S n) (S m)).
Qed.

Section Stationary.

Variable srv : server.
Hypothesis srv_stationary : stationary srv.

Lemma run_bind_return :
  forall (A B : Type) (p : prog A) (f : A -> prog B) (a : A),
    fst (run srv p) = inr a ->
    run srv (bind p f)
    = (fst (run srv (f a)), snd (run srv p) ++ snd (run srv (f a))).
Proof.
  intros A B p f a Hp. unfold run at 1.
  destruct (run srv p) as [o t] eqn:E. cbn [fst snd] in Hp |- *. subst o.
  rewrite (run_from_bind_return _ _ srv p f a t 0%nat E).
  now rewrite run_from_stationary.
Qed.

Lemma run_bind_raise :
  forall (A B : Type) (p : prog A) (f : A -> prog B) (e : exn),
    fst (run srv p) = inl e ->
    run srv (bind p f) = (inl e, snd (run srv p)).
Proof.
  intros A B p f e Hp. unfold run at 1.
  destruct (run srv p) as [o t] eqn:E. cbn [fst snd] in Hp |- *. subst o.
  now apply run_from_bind_raise.
Qed.

(** A comprehension whose calls all return. *)
Lemma comprehension_returns :
  forall (A B : Type) (body : A -> prog B) (l : list A) (bs : list B),
    Forall2 (fun a b => fst (run srv (body a)) = inr b) l bs ->
    run srv (comprehension l body) = (inr bs, exchanges_of srv body l).
Proof.
  intros A B body l bs H.
  induction H as [|a b l bs Ha _ IH]; [reflexivity|].
  cbn [comprehension]. rewrite (run_bind_return _ _ _ _ b Ha).
  rewrite (run_bind_return _ _ (comprehension l body) _ bs)
    by now rewrite IH.
  rewrite IH. cbn [run run_from fst snd]. unfold exchanges_of.
  cbn [map concat]. now rewrite app_nil_r.
Qed.

(** A comprehension stops at the first call that raises. *)
Lemma comprehension_raises :
  forall (A B : Type) (body : A -> prog B) (good : list A) (bs : list B)
         (bad : A) (rest : list A) (e : exn),
    Forall2 (fun a b => fst (run srv (body a)) = inr b) good bs ->
    fst (run srv (body bad)) = inl e ->
    run srv (comprehension (good ++ bad :: rest) body)
    = (inl e, exchanges_of srv body (good ++ [bad])).
Proof.
  intros A B body good bs bad rest e H Hbad.
  induction H as [|a b l bs' Ha _ IH].
  - cbn [app comprehension]. rewrite (run_bind_raise _ _ _ _ e Hbad).
    unfold exchanges_of. cbn [map concat]. now rewrite app_nil_r.
  - cbn [app comprehension]. rewrite (run_bind_return _ _ _ _ b Ha).
    rewrite (run_bind_raise _ _ (comprehension (l ++ bad :: rest) body) _ e)
      by now rewrite IH.
    rewrite IH. reflexivity.
Qed.

End Stationary.


Lemma picky_server_stationary : stationary picky_server.
Proof. intros n [c|]; [destruct c|]; reflexivity. Qed.


(** X9: [get_inv_distances] reads the sensors in their order, once each.
    Against a server whose answers depend on the request only: when every
    single reading returns, the result is the list of these readings in
    the order of the sensors, after the exchanges of the single readings
    in order; when the reading of some sensor raises, the call raises the
    same error, returns no partial list, and the sensors after it are not
    read. *)
Theorem X9_inv_distances_in_order :
  forall srv : server,
    stationary srv ->
    (forall (sensors : list ProximitySensor) (values : list float),
       Forall2 (fun s v => fst (run srv (get_inv_distance s)) = inr v)
               sensors values ->
       run srv (get_inv_distances (mkProximitySensorArray sensors))
       = (inr values, exchanges_of srv get_inv_distance sensors)) /\
    (forall (good : list ProximitySensor) (values : list float)
            (bad : ProximitySensor) (rest : list ProximitySensor) (e : exn),
       Forall2 (fun s v => fst (run srv (get_inv_distance s)) = inr v)
               good values ->
       fst (run srv (get_inv_distance bad)) = inl e ->
       run srv (get_inv_distances
                  (mkProximitySensorArray (good ++ bad :: rest)))
       = (inl e, exchanges_of srv get_inv_distance (good ++ [bad]))).
Proof.
  intros srv Hs. split.
  - intros sensors values H.
    exact (comprehension_returns srv Hs _ _ get_inv_distance sensors
             values H).
  - intros good values bad rest e H Hbad.
    exact (comprehension_raises srv Hs _ _ get_inv_distance good values
             bad rest e H Hbad).
Qed.

Lemma X9_witness :
  run picky_server
      (get_inv_distances
         (mkProximitySensorArray [ mkSceneObject connected "front" 1;
                                   mkSceneObject connected "back" 2 ]))
  = (inr [0.75; 0.0]%float,
     exchanges_of picky_server get_inv_distance
       [ mkSceneObject connected "front" 1;
         mkSceneObject connected "back" 2 ]) /\
  run picky_server
      (get_inv_distances
         (mkProximitySensorArray [ mkSceneObject connected "front" 1;
                                   mkSceneObject connected "side" 9;
                                   mkSceneObject connected "back" 2 ]))
  = (inl (ServerError "Could not retrieve data from side."),
     exchanges_of picky_server get_inv_distance
       [ mkSceneObject connected "front" 1;
         mkSceneObject connected "side" 9 ]).
Proof.
  destruct (X9_inv_distances_in_order picky_server picky_server_stationary)
    as [Hok Hbad].
  split.
  - apply Hok. repeat constructor.
  - apply (Hbad [mkSceneObject connected "front" 1] [0.75%float]
                (mkSceneObject connected "side" 9)
                [mkSceneObject connected "back" 2]
                (ServerError "Could not retrieve data from side.")).
    + repeat constructor.
    + reflexivity.
Defined.

Section VelocityLoop.

Variables (srv : server) (motor_velocities : list float).
Hypothesis srv_stationary : stationary srv.

Let body : Z * Motor -> prog unit :=
  fun '(m, motor) =>
    bind (eval (getitem motor_velocities m))
         (fun velocity => set_velocity motor velocity).

Let set_one (mv : Motor * float) : prog unit :=
  set_velocity (fst mv) (snd mv).

Lemma velocity_loop_returns :
  forall (motors : list Motor) (k : nat),
    (k + length motors <= length motor_velocities)%nat ->
    Forall (fun mv => fst (run srv (set_one mv)) = inr tt)
           (combine motors (skipn k motor_velocities)) ->
    run srv (for_each (enumerate_from (Z.of_nat k) motors) body)
    = (inr tt,
       exchanges_of srv set_one (combine motors (skipn k motor_velocities))).
Proof.
  induction motors as [|motor motors IH]; intros k Hlen Hall;
    [reflexivity|].
  cbn [length] in Hlen.
  destruct (nth_error motor_velocities k) as [v|] eqn:Hv.
  2:{ apply nth_error_None in Hv. lia. }
  rewrite (skipn_cons_nth_error _ _ _ _ Hv) in Hall |- *.
  cbn [combine] in Hall |- *. inversion Hall as [|mv l Hm Hrest]; subst.
  cbn [enumerate_from for_each]. unfold body at 1.
  rewrite (getitem_nth_error _ _ _ _ Hv). cbn [eval bind].
  rewrite (run_bind_return srv srv_stationary _ _ _ _ tt Hm).
  replace (Z.of_nat k + 1) with (Z.of_nat (S k)) by lia.
  rewrite (IH (S k)) by (assumption || lia).
  reflexivity.
Qed.

Lemma velocity_loop_raises :
  forall (good : list Motor) (bad : Motor) (rest : list Motor) (k : nat)
         (v : float) (e : exn),
    nth_error motor_velocities (k + length good) = Some v ->
    Forall (fun mv => fst (run srv (set_one mv)) = inr tt)
           (combine good (skipn k motor_velocities)) ->
    fst (run srv (set_velocity bad v)) = inl e ->
    run srv (for_each (enumerate_from (Z.of_nat k) (good ++ bad :: rest))
                      body)
    = (inl e,
       exchanges_of srv set_one (combine good (skipn k motor_velocities))
       ++ snd (run srv (set_velocity bad v))).
Proof.
  induction good as [|motor good IH]; intros bad rest k v e Hv Hall Hbad.
  - cbn [length] in Hv. rewrite Nat.add_0_r in Hv.
    cbn [app enumerate_from for_each combine]. unfold body at 1.
    rewrite (getitem_nth_error _ _ _ _ Hv). cbn [eval bind].
    now rewrite (run_bind_raise srv _ _ _ _ e Hbad).
  - cbn [length] in Hv.
    destruct (nth_error motor_velocities k) as [v0|] eqn:Hv0.
    2:{ apply nth_error_None in Hv0.
        assert (nth_error motor_velocities (k + S (length good)) = None)
          by (apply nth_error_None; lia).
        congruence. }
    rewrite (skipn_cons_nth_error _ _ _ _ Hv0) in Hall |- *.
    cbn [combine] in Hall |- *. inversion Hall as [|mv l Hm Hrest]; subst.
    cbn [app enumerate_from for_each]. unfold body at 1.
    rewrite (getitem_nth_error _ _ _ _ Hv0). cbn [eval bind].
    rewrite (run_bind_return srv srv_stationary _ _ _ _ tt Hm).
    replace (Z.of_nat k + 1) with (Z.of_nat (S k)) by lia.
    rewrite (IH bad rest (S k) v e).
    + unfold exchanges_of. cbn [map concat fst snd].
      now rewrite app_assoc.
    + now rewrite Nat.add_succ_comm.
    + assumption.
    + assumption.
Qed.

End VelocityLoop.

Lemma combine_surplus :
  forall (A B : Type) (l : list A) (l1 l2 : list B),
    (length l <= length l1)%nat -> combine l (l1 ++ l2) = combine l l1.
Proof.
  intros A B l. induction l as [|a l IH]; intros l1 l2 H; [reflexivity|].
  destruct l1 as [|b l1]; [cbn in H; lia|].
  cbn. rewrite IH; [reflexivity | cbn in H; lia].
Qed.

(** X10: [set_velocities] commands the motors in their order, motor [m]
    with velocity [m].  Against a server whose answers depend on the
    request only: when there is a velocity for every motor and every
    single command returns, the call returns after the exchanges of the
    single commands in order, and velocities beyond the number of motors
    are ignored without an error.  When the command of some motor raises,
    the call raises the same error: the motors before it have been
    commanded and stay so, the motors after it are not commanded. *)
Theorem X10_velocities_in_order :
  forall srv : server,
    stationary srv ->
    (forall (motors : list Motor) (velocities surplus : list float),
       length velocities = length motors ->
       Forall (fun mv => fst (run srv (set_velocity (fst mv) (snd mv)))
                         = inr tt)
              (combine motors velocities) ->
       run srv (set_velocities (mkMotorArray motors) (velocities ++ surplus))
       = (inr tt,
          exchanges_of srv (fun mv => set_velocity (fst mv) (snd mv))
                       (combine motors velocities))) /\
    (forall (good : list Motor) (bad : Motor) (rest : list Motor)
            (velocities : list float) (v : float) (e : exn),
       nth_error velocities (length good) = Some v ->
       Forall (fun mv => fst (run srv (set_velocity (fst mv) (snd mv)))
                         = inr tt)
              (combine good velocities) ->
       fst (run srv (set_velocity bad v)) = inl e ->
       run srv (set_velocities (mkMotorArray (good ++ bad :: rest))
                               velocities)
       = (inl e,
          exchanges_of srv (fun mv => set_velocity (fst mv) (snd mv))
                       (combine good velocities)
          ++ snd (run srv (set_velocity bad v)))).
Proof.
  intros srv Hs. split.
  - intros motors velocities surplus Hlen Hall.
    unfold set_velocities, enumerate.
    rewrite <- (combine_surplus _ _ motors velocities surplus) in Hall |- *
      by lia.
    apply (velocity_loop_returns srv (velocities ++ surplus) Hs motors
             0%nat).
    + rewrite length_app. lia.
    + exact Hall.
  - intros good bad rest velocities v e Hv Hall Hbad.
    unfold set_velocities, enumerate.
    apply (velocity_loop_raises srv velocities Hs good bad rest 0%nat v e);
      assumption.
Qed.

Lemma X10_witness :
  run picky_server
      (set_velocities (three_motors connected) [1.0; 2.0; 3.0; 4.0]%float)
  = (inr tt,
     exchanges_of picky_server (fun mv => set_velocity (fst mv) (snd mv))
       (combine (_motors (three_motors connected))
                [1.0; 2.0; 3.0]%float)) /\
  run picky_server
      (set_velocities
         (mkMotorArray [ mkSceneObject connected "left" 1;
                         mkSceneObject connected "right" 9;
                         mkSceneObject connected "rear" 3 ])
         [1.0; 2.0; 3.0]%float)
  = (inl (ServerError "Could not set right velocity."),
     exchanges_of picky_server (fun mv => set_velocity (fst mv) (snd mv))
       [(mkSceneObject connected "left" 1, 1.0%float)]
     ++ snd (run picky_server
               (set_velocity (mkSceneObject connected "right" 9) 2.0))).
Proof.
  destruct (X10_velocities_in_order picky_server picky_server_stationary)
    as [Hok Hbad].
  split.
  - apply (Hok (_motors (three_motors connected)) [1.0; 2.0; 3.0]%float
               [4.0%float]).
    + reflexivity.
    + repeat constructor.
  - apply (Hbad [mkSceneObject connected "left" 1]
                (mkSceneObject connected "right" 9)
                [mkSceneObject connected "rear" 3]
                [1.0; 2.0; 3.0]%float 2.0%float
                (ServerError "Could not set right velocity.")).
    + reflexivity.
    + repeat constructor.
    + reflexivity.
Defined.

(** ** Requests of a call *)

Lemma frugal_sound :
  forall (A : Type) (cid : option Z) (b l : nat) (p : prog A),
    frugal cid b l p ->
    forall (srv : server) (n : nat),
    exists local remote_part : list exchange,
      snd (run_from srv n p) = local ++ remote_part /\
      (length local <= l)%nat /\
      forallb asks_sim local = true /\
      (length remote_part <= b)%nat /\
      forallb (on_connection cid) remote_part = true.
Proof.
  intros A cid b l p H.
  induction H as [b l a | b l e | b l c k Hc Hk IH | b l k Hk IH];
    intros srv n.
  - exists [], []. cbn. repeat split; lia.
  - exists [], []. cbn. repeat split; lia.
  - destruct (IH (srv n (Remote c)) srv (S n))
      as (loc & rem & Heq & Hl & _ & Hb & Hall).
    destruct loc as [|? ?]; [|cbn in Hl; lia]. cbn [app] in Heq.
    exists [], (mkExchange (Remote c) (srv n (Remote c)) :: rem).
    cbn [run_from].
    destruct (run_from srv (S n) (k (srv n (Remote c)))) as [o t].
    cbn [snd] in Heq |- *. subst t. cbn [app length forallb].
    repeat split; try lia.
    rewrite Hall, Hc. unfold on_connection. cbn [asked].
    now rewrite Z.eqb_refl.
  - destruct (IH (srv n IsSimStarted) srv (S n))
      as (loc & rem & Heq & Hl & _ & Hb & Hall).
    destruct loc as [|? ?]; [|cbn in Hl; lia]. cbn [app] in Heq.
    exists [mkExchange IsSimStarted (srv n IsSimStarted)], rem.
    cbn [run_from].
    destruct (run_from srv (S n) (k (srv n IsSimStarted))) as [o t].
    cbn [snd] in Heq |- *. subst t. cbn. repeat split; try lia; assumption.
Qed.

Lemma frugal_eval :
  forall (A : Type) (cid : option Z) (b l : nat) (v : exn + A),
    frugal cid b l (eval v).
Proof. intros A cid b l [e|a]; cbn; constructor. Qed.

Lemma silent_eval :
  forall (A : Type) (v : exn + A), silent (eval v).
Proof. intros A v. now exists v. Qed.

Lemma silent_get_handle :
  forall (scene_obj : handle_source) (name : string),
    silent (get_handle scene_obj name).
Proof.
  intros scene_obj name.
  destruct (get_handle_local scene_obj name) as [[h ->] | [e ->]].
  - now exists (inr h).
  - now exists (inl e).
Qed.

Lemma silent_arrange_rows :
  forall (A : Type) (image : list A) (width n_pixels : Z),
    silent (arrange_rows image width n_pixels).
Proof.
  intros A image width n_pixels. unfold arrange_rows.
  destruct (range 0 n_pixels width) as [e|ps]; cbn.
  - now exists (inl e).
  - now exists (inr (slices image (reversed ps) width)).
Qed.

Lemma f_bind_silent :
  forall (A B : Type) (cid : option Z) (b l : nat) (p : prog A)
         (f : A -> prog B),
    silent p ->
    (forall a, frugal cid b l (f a)) ->
    frugal cid b l (bind p f).
Proof.
  intros A B cid b l p f [[e|a] ->] Hf; cbn; [constructor | apply Hf].
Qed.

Lemma f_bind_return :
  forall (A B : Type) (cid : option Z) (b l : nat) (p : prog A)
         (g : A -> B),
    frugal cid b l p ->
    frugal cid b l (bind p (fun a => Return (g a))).
Proof.
  intros A B cid b l p g H.
  induction H as [b l a | b l e | b l c k Hc Hk IH | b l k Hk IH];
    cbn [bind].
  - constructor.
  - constructor.
  - now apply f_remote.
  - now apply f_local.
Qed.

Ltac frug :=
  lazymatch goal with
  | |- frugal _ _ _ (Return _) => apply f_return
  | |- frugal _ _ _ (Raise _) => apply f_raise
  | |- frugal _ _ _ (eval _) => apply frugal_eval
  | |- frugal _ _ _ (bind (remote _) _) =>
      let a := fresh "a" in
      unfold remote; cbn [bind];
      apply f_remote;
      [ reflexivity
      | intros a; cbn [vrep.ret] in a; split_answer; cbn beta iota zeta;
        frug ]
  | |- frugal _ _ _ (bind (get_handle _ _) _) =>
      apply f_bind_silent; [apply silent_get_handle | intros; frug]
  | |- frugal _ _ _ (bind (eval _) _) =>
      apply f_bind_silent; [apply silent_eval | intros; frug]
  | |- frugal _ _ _ (bind (arrange_rows _ _ _) _) =>
      apply f_bind_silent; [apply silent_arrange_rows | intros; frug]
  | |- frugal _ _ _ (if ?b then _ else _) => destruct b; frug
  | |- frugal _ _ _ (match ?x with _ => _ end) => destruct x; frug
  end.

Lemma bbox_loop_frugal :
  forall (tie : tie_rule) (self : SceneObject) (cid : Z) (prec : option Z)
         (limits : list (string * vrep.objfloatparam))
         (bbox_limits : list float),
    frugal (Some cid) (length limits) 0
      (bbox_loop tie self cid prec limits bbox_limits).
Proof.
  intros tie self cid prec limits.
  induction limits as [|limit limits IH]; intros bbox_limits;
    cbn [bbox_loop length]; [apply f_return|].
  unfold remote; cbn [bind]. apply f_remote; [reflexivity|].
  intros [res lim]. cbn beta iota.
  destruct (negb (res =? vrep.simx_return_ok)); [apply f_raise|].
  apply f_bind_silent; [|intros; apply IH].
  destruct prec; [apply silent_eval | now exists (inr lim)].
Qed.

Lemma perform_frugal :
  forall (tie : tie_rule) (op : operation) (self : SceneObject),
    frugal (client_id self) (call_budget op) (sim_budget op)
      (perform tie op self).
Proof.
  intros tie op self.
  destruct op; cbn [call_budget sim_budget perform]; unfold observe;
    try apply f_bind_return.
  - unfold handle. frug.
  - unfold name. frug.
  - unfold call_script_func. frug.
  - unfold copy_paste. frug.
  - unfold get_bbox_limits.
    destruct (_handle self =? -2); [frug|].
    destruct (client_id self); [|frug].
    apply f_bind_return, bbox_loop_frugal.
  - unfold get_orientation. frug.
  - unfold set_orientation, base.is_sim_started.
    destruct (_handle self =? -2); [destruct allow_in_sim; frug|].
    destruct (client_id self); [|destruct allow_in_sim; frug].
    destruct allow_in_sim; cbn [negb bind]; [frug|].
    apply f_local. intros b. frug.
  - unfold get_parent_handle. frug.
  - unfold set_parent. frug.
  - unfold get_position. frug.
  - unfold set_position, base.is_sim_started.
    destruct (_handle self =? -2); [destruct allow_in_sim; frug|].
    destruct (client_id self); [|destruct allow_in_sim; frug].
    destruct allow_in_sim; cbn [negb bind]; [frug|].
    apply f_local. intros b. frug.
  - unfold remove. frug.
  - unfold set_velocity. frug.
  - unfold get_inv_distance. frug.
  - unfold get_image. frug.
Qed.

(** X11: the requests of one call on a scene object, against every server.
    The simulator object is asked at most once, by [set_position] and
    [set_orientation] without [allow_in_sim] only, and before any remote
    call.  Then come at most one remote call (none for the [handle] and
    [name] properties, at most six for [get_bbox_limits]), each on the
    connection of the object: no call is repeated after a failure and no
    other connection is used. *)
Theorem X11_call_budget :
  forall (tie : tie_rule) (op : operation) (self : SceneObject)
         (srv : server) (n : nat),
  exists local remote_part : list exchange,
    snd (run_from srv n (perform tie op self)) = local ++ remote_part /\
    (length local <= sim_budget op)%nat /\
    forallb asks_sim local = true /\
    (length remote_part <= call_budget op)%nat /\
    forallb (on_connection (client_id self)) remote_part = true.
Proof.
  intros tie op self srv n.
  exact (frugal_sound _ _ _ _ _ (perform_frugal tie op self) srv n).
Qed.

(** ** Copies *)

(** X12: [copy_paste] on an object that is not removed and has a
    connection makes one remote call, with the handle of the object alone.
    A status other than 0 raises [ServerError]; with status 0 the result
    is the first handle of the answer, whatever follows it; and with
    status 0 and no handle in the answer the call raises [IndexError],
    not [ServerError]. *)
Theorem X12_copy_paste_result :
  forall (self : SceneObject) (cid : Z) (srv : server)
         (res : Z) (handles : list Z),
    _handle self <> -2 ->
    client_id self = Some cid ->
    srv 0%nat (Remote (vrep.simxCopyPasteObjects
                         cid [_handle self] vrep.simx_opmode_blocking))
    = (res, handles) ->
    snd (run srv (copy_paste self))
    = [ mkExchange (Remote (vrep.simxCopyPasteObjects
                              cid [_handle self] vrep.simx_opmode_blocking))
                   (res, handles) ] /\
    (res <> vrep.simx_return_ok ->
     fst (run srv (copy_paste self))
     = inl (ServerError (format "Could not copy and paste {}."
                                [_name self]))) /\
    (res = vrep.simx_return_ok ->
     handles = [] ->
     fst (run srv (copy_paste self))
     = inl (IndexError "list index out of range")) /\
    (res = vrep.simx_return_ok ->
     forall (first : Z) (others : list Z),
       handles = first :: others ->
       fst (run srv (copy_paste self)) = inr first).
Proof.
  intros self cid srv res handles Hlive Hcid Hsrv.
  unfold copy_paste, run.
  apply Z.eqb_neq in Hlive. rewrite Hlive, Hcid.
  unfold remote. cbn [bind run_from]. rewrite Hsrv. cbn beta iota.
  destruct (res =? vrep.simx_return_ok) eqn:Hres; cbn [negb].
  - apply Z.eqb_eq in Hres.
    destruct handles as [|first others]; cbn.
    + repeat split; congruence.
    + repeat split; congruence.
  - apply Z.eqb_neq in Hres. cbn.
    repeat split; congruence.
Qed.

Lemma X12_witness :
  snd (run ok_server (copy_paste live_object))
  = [ mkExchange (Remote (vrep.simxCopyPasteObjects
                            0 [7] vrep.simx_opmode_blocking))
                 (0, [8]) ] /\
  fst (run ok_server (copy_paste live_object)) = inr 8 /\
  fst (run failing_server (copy_paste live_object))
  = inl (ServerError "Could not copy and paste robot.").
Proof.
  destruct (X12_copy_paste_result live_object 0 ok_server 0 [8])
    as (Ht & _ & _ & Hfirst);
    [discriminate | reflexivity | reflexivity |].
  destruct (X12_copy_paste_result live_object 0 failing_server 8 [])
    as (_ & Hbad & _);
    [discriminate | reflexivity | reflexivity |].
  split; [exact Ht|]. split.
  - exact (Hfirst eq_refl 8 [] eq_refl).
  - apply Hbad. discriminate.
Defined.
